(** * Thesis-examination scheduling DSS: MCDM scoring and greedy allocation

    A shallow embedding of [backend/models.py], [backend/mcdm_methods.py],
    [backend/scheduling_engine.py] and the schedule and analysis handlers
    of [backend/main.py], with the properties of the specification and
    further properties of the code stated and proved over it.

    Modelling conventions.
    - Python [int] is [Z], unbounded; the true division of two ints
      raises [ZeroDivisionError] and [OverflowError] as CPython does.
      Python [float] / [numpy.float64] is [num]: an exact rational, or
      one of the non-finite values [inf], [-inf], [nan] that numpy
      produces on division by zero.  Rounding of finite results is
      idealised away (finite arithmetic is exact, zero is unsigned); the
      propagation of non-finite values follows IEEE 754.  Properties
      whose truth depends on the absence of rounding say so.
    - [numpy.sqrt] is an interface ([NpSqrt]) of which only non-negativity
      of the result is assumed; [numpy.linalg.eig] is passed to the AHP
      code as an argument.
    - A numpy array is a list of rows holding [num]: the dtype float64,
      which [np.array] gives a decision matrix as soon as one entry is a
      float, as under the default criteria.  The SAW normalizer, which
      writes into an array of the dtype of its input, is modelled on
      int64 arrays as well ([SAWMethod.Int64]); elsewhere integer dtypes,
      and the arrays of objects that integers beyond 64 bits give, are
      outside the model.
    - Python [str] is [string] (ASCII case mapping and white space).
    - Exceptions are the [Raise] outcome of the [result] monad; pydantic
      [Field] bounds are checked where the code constructs the model.
    - [dict] is [gmap]; Python lists are lists.  [list.sort] is a stable
      insertion sort, which is CPython's result whenever the keys are
      comparable (no [nan]). *)

From Stdlib Require Import QArith Qreduction Qabs Lqa ZArith Lia.
From Stdlib Require Import String Ascii List.
From stdpp Require Import base option list gmap strings.

Open Scope Z_scope.

(** ** Exceptions *)

Inductive exn :=
| UnsupportedMethod      (* ValueError("Unsupported method: ...") *)
| InvalidMatrix          (* ValueError("Invalid pairwise comparison matrix") *)
| NumpyError             (* ValueError / IndexError raised inside numpy *)
| ValidationError        (* pydantic.ValidationError: a Field bound is violated *)
| ZeroDivisionError      (* division of a Python int by zero *)
| OverflowError.         (* "integer division result too large for a float" *)

Inductive result (A : Type) :=
| Ok (a : A)
| Raise (e : exn).
Arguments Ok {A} a.
Arguments Raise {A} e.

#[global] Instance result_ret : MRet result := fun A a => Ok a.
#[global] Instance result_bind : MBind result :=
  fun A B f m => match m with Ok a => f a | Raise e => Raise e end.
#[global] Instance result_fmap : FMap result :=
  fun A B f m => match m with Ok a => Ok (f a) | Raise e => Raise e end.

(** [for x in l: acc = f(acc, x)] where the body may raise. *)
Fixpoint foldM {A B} (f : A -> B -> result A) (acc : A) (l : list B) : result A :=
  match l with
  | [] => Ok acc
  | x :: l' => acc' ← f acc x; foldM f acc' l'
  end.

(** [[f(x) for x in l]] where [f] may raise. *)
Fixpoint mapM_result {A B} (f : A -> result B) (l : list A) : result (list B) :=
  match l with
  | [] => Ok []
  | x :: l' => y ← f x; ys ← mapM_result f l'; Ok (y :: ys)
  end.

(** ** Floating-point numbers *)

Module Num.

Inductive num :=
| Fin (q : Q)
| PInf
| NInf
| NaN.

Definition of_Z (z : Z) : num := Fin (inject_Z z).
Definition of_nat (n : nat) : num := of_Z (Z.of_nat n).

Definition zero : num := Fin 0.
Definition one : num := Fin 1.

Definition is_nan (x : num) : bool :=
  match x with NaN => true | _ => false end.

Definition Qltb (a b : Q) : bool := negb (Qle_bool b a).

Definition fopp (x : num) : num :=
  match x with
  | Fin q => Fin (Qred (- q))
  | PInf => NInf
  | NInf => PInf
  | NaN => NaN
  end.

Definition fadd (x y : num) : num :=
  match x, y with
  | NaN, _ | _, NaN => NaN
  | Fin a, Fin b => Fin (Qred (a + b))
  | PInf, NInf | NInf, PInf => NaN
  | PInf, _ | _, PInf => PInf
  | NInf, _ | _, NInf => NInf
  end.

Definition fsub (x y : num) : num := fadd x (fopp y).

(** The infinity with the sign of [q]; [inf * 0] is [nan]. *)
Definition inf_signed (positive : bool) (q : Q) : num :=
  if Qeq_bool q 0 then NaN
  else if Bool.eqb positive (Qltb 0 q) then PInf else NInf.

Definition fmul (x y : num) : num :=
  match x, y with
  | NaN, _ | _, NaN => NaN
  | Fin a, Fin b => Fin (Qred (a * b))
  | PInf, Fin q | Fin q, PInf => inf_signed true q
  | NInf, Fin q | Fin q, NInf => inf_signed false q
  | PInf, PInf | NInf, NInf => PInf
  | PInf, NInf | NInf, PInf => NInf
  end.

(** numpy division: [x / 0] is [nan] for [x = 0] and an infinity with the
    sign of [x] otherwise; no exception is raised. *)
Definition fdiv (x y : num) : num :=
  match x, y with
  | NaN, _ | _, NaN => NaN
  | Fin a, Fin b =>
      if Qeq_bool b 0 then inf_signed true a else Fin (Qred (a / b))
  | Fin _, (PInf | NInf) => Fin 0
  | PInf, Fin q => if Qltb q 0 then NInf else PInf
  | NInf, Fin q => if Qltb q 0 then PInf else NInf
  | (PInf | NInf), (PInf | NInf) => NaN
  end.

Definition fabs (x : num) : num :=
  match x with
  | Fin q => Fin (Qred (Qabs q))
  | PInf | NInf => PInf
  | NaN => NaN
  end.

(** Comparisons: every comparison with [nan] is [False], except [!=]. *)
Definition fltb (x y : num) : bool :=
  match x, y with
  | NaN, _ | _, NaN => false
  | Fin a, Fin b => Qltb a b
  | _, NInf => false
  | NInf, _ => true
  | PInf, _ => false
  | _, PInf => true
  end.

Definition feqb (x y : num) : bool :=
  match x, y with
  | Fin a, Fin b => Qeq_bool a b
  | PInf, PInf | NInf, NInf => true
  | _, _ => false
  end.

Definition fneb (x y : num) : bool := negb (feqb x y).
Definition fgtb (x y : num) : bool := fltb y x.
Definition fleb (x y : num) : bool := fltb x y || feqb x y.

(** Python's built-in [min(a, b)] and [max(a, b)]: the first argument is
    kept unless the second is strictly smaller (larger). *)
Definition py_min (a b : num) : num := if fltb b a then b else a.
Definition py_max (a b : num) : num := if fltb a b then b else a.

(** [numpy.maximum] / [numpy.minimum]: [nan] propagates. *)
Definition np_maximum (a b : num) : num :=
  if is_nan a then a else if is_nan b then b else if fltb a b then b else a.
Definition np_minimum (a b : num) : num :=
  if is_nan a then a else if is_nan b then b else if fltb b a then b else a.

(** [numpy.max] / [numpy.min] of a 1-D array; the reduction of an empty
    array raises [ValueError]. *)
Definition np_max (l : list num) : result num :=
  match l with
  | [] => Raise NumpyError
  | x :: l' => Ok (fold_left np_maximum l' x)
  end.
Definition np_min (l : list num) : result num :=
  match l with
  | [] => Raise NumpyError
  | x :: l' => Ok (fold_left np_minimum l' x)
  end.

Definition np_sum (l : list num) : num := fold_left fadd l zero.

(** [numpy.mean]: the sum over the number of elements; [nan] when empty. *)
Definition np_mean (l : list num) : num := fdiv (np_sum l) (of_nat (length l)).

(** [numpy.all(column != 0)]. *)
Definition np_all_nonzero (l : list num) : bool := forallb (fun x => fneb x zero) l.

(** The largest finite float64, substituted for [inf] by [nan_to_num]. *)
Definition float_max : Q := inject_Z ((2 ^ 53 - 1) * 2 ^ 971).

(** [numpy.nan_to_num(x, nan=0.0)]. *)
Definition nan_to_num (x : num) : num :=
  match x with
  | NaN => Fin 0
  | PInf => Fin float_max
  | NInf => Fin (- float_max)
  | Fin q => Fin q
  end.

(** [numpy.sqrt] on finite non-negative rationals; the class fixes what is
    assumed of it. *)
Class NpSqrt := {
  sqrtQ : Q -> Q;
  sqrtQ_nonneg : forall q, (0 <= q)%Q -> (0 <= sqrtQ q)%Q
}.

Definition np_sqrt `{NpSqrt} (x : num) : num :=
  match x with
  | Fin q => if Qltb q 0 then NaN else Fin (Qred (sqrtQ q))
  | PInf => PInf
  | NInf | NaN => NaN
  end.

(** [numpy.std]: square root of the mean squared deviation from the mean. *)
Definition np_std `{NpSqrt} (l : list num) : num :=
  let m := np_mean l in
  np_sqrt (np_mean (map (fun x => let d := fsub x m in fmul d d) l)).

End Num.
Import Num.

(** ** Python built-ins used by the code *)

Module Py.

(** [str.lower] and [str.upper] on ASCII letters. *)
Definition ascii_lower (c : ascii) : ascii :=
  let n := nat_of_ascii c in
  if ((65 <=? n) && (n <=? 90))%nat then ascii_of_nat (n + 32) else c.
Definition ascii_upper (c : ascii) : ascii :=
  let n := nat_of_ascii c in
  if ((97 <=? n) && (n <=? 122))%nat then ascii_of_nat (n - 32) else c.

Fixpoint lower (s : string) : string :=
  match s with
  | EmptyString => EmptyString
  | String c s' => String (ascii_lower c) (lower s')
  end.
Fixpoint upper (s : string) : string :=
  match s with
  | EmptyString => EmptyString
  | String c s' => String (ascii_upper c) (upper s')
  end.

(** The ASCII characters on which [str.split()] splits. *)
Definition is_space (c : ascii) : bool :=
  let n := nat_of_ascii c in
  (((9 <=? n) && (n <=? 13)) || ((28 <=? n) && (n <=? 32)))%nat.

(** [s.split()]: the maximal runs of non-space characters. *)
Fixpoint split_from (s : string) (cur : string) : list string :=
  match s with
  | EmptyString => if String.eqb cur EmptyString then [] else [cur]
  | String c s' =>
      if is_space c then
        if String.eqb cur EmptyString then split_from s' EmptyString
        else cur :: split_from s' EmptyString
      else split_from s' (cur ++ String c EmptyString)%string
  end.
Definition split (s : string) : list string := split_from s EmptyString.

(** [a in b] on strings: [a] occurs in [b] as a substring. *)
Fixpoint str_in (a b : string) : bool :=
  String.prefix a b ||
  match b with
  | EmptyString => false
  | String _ b' => str_in a b'
  end.

(** [a / b] on Python [int]s: true division.  The quotient is rounded to
    the nearest float; it is beyond the largest float, and the division
    raises, exactly when its magnitude reaches [2^1024 - 2^970]. *)
Definition float_overflow : Z := 2 ^ 1024 - 2 ^ 970.

Definition int_truediv (a b : Z) : result num :=
  if b =? 0 then Raise ZeroDivisionError
  else if float_overflow * Z.abs b <=? Z.abs a then Raise OverflowError
  else Ok (fdiv (of_Z a) (of_Z b)).

(** [x in l] on lists of integers. *)
Definition int_in (x : Z) (l : list Z) : bool := existsb (Z.eqb x) l.

(** [l[:k]]: a negative bound counts from the end. *)
Definition slice_to {A} (k : Z) (l : list A) : list A :=
  if 0 <=? k then take (Z.to_nat k) l
  else take (length l - Z.to_nat (- k)) l.

(** [sorted(l, key=key, reverse=True)] and [l.sort(key=key, reverse=True)]:
    a stable sort into descending key order.  Elements whose keys do not
    compare strictly keep their relative order. *)
Section Sort.
Context {A : Type} (key : A -> num).

Fixpoint insert_desc (x : A) (l : list A) : list A :=
    match l with
    | [] => [x]
    | y :: l' => if fltb (key x) (key y) then y :: insert_desc x l' else x :: y :: l'
    end.

Definition sorted_desc (l : list A) : list A := foldr insert_desc [] l.
End Sort.

(** [dict(pairs)] and dict comprehensions: a later binding of a key
    replaces an earlier one. *)
Definition dict `{Countable K} {V} (pairs : list (K * V)) : gmap K V :=
  fold_left (fun m kv => <[kv.1 := kv.2]> m) pairs ∅.

End Py.

(** ** Data model ([models.py]) *)

Inductive CriteriaType := BENEFIT | COST.

Module Criteria.
Record t := mk {
    id : Z;
    name : string;
    weight : num;
    type : CriteriaType;
    description : option string
  }.
End Criteria.

Module TimeSlot.
Record t := mk {
    id : Z;
    day : string;
    start_time : string;
    end_time : string;
    session : string
  }.
End TimeSlot.

Module Room.
Record t := mk {
    id : Z;
    name : string;
    capacity : Z;
    facilities : list string;
    location : string;
    quality_score : num
  }.
End Room.

Module Examiner.
Record t := mk {
    id : Z;
    name : string;
    title : string;
    expertise : list string;
    experience_years : Z;
    workload : Z;
    availability_score : num;
    competency_score : num;
    available_timeslots : list Z
  }.

  (** [examiner.workload += 1] *)
Definition incr_workload (e : t) : t :=
    mk (id e) (name e) (title e) (expertise e) (experience_years e)
       (workload e + 1) (availability_score e) (competency_score e)
       (available_timeslots e).

  (** Every field but the load counter. *)
Definition with_workload (w : Z) (e : t) : t :=
    mk (id e) (name e) (title e) (expertise e) (experience_years e)
       w (availability_score e) (competency_score e) (available_timeslots e).
End Examiner.

Module Student.
Record t := mk {
    id : Z;
    name : string;
    nim : string;
    thesis_title : string;
    thesis_field : string;
    supervisor_id : Z;
    gpa : num;
    thesis_quality : num;
    preferred_timeslots : list Z
  }.
End Student.

Module ExamSession.
Record t := mk {
    id : Z;
    student_id : Z;
    duration : Z;
    required_examiners : Z;
    priority : num
  }.
End ExamSession.

Module ExaminerEvaluation.
Record t := mk {
    examiner_id : Z;
    student_id : Z;
    compatibility_score : num;
    expertise_match : num;
    workload_factor : num;
    availability_factor : num
  }.

  (** [Field(..., ge=0, le=1)] *)
Definition in_unit (x : num) : bool := fleb zero x && fleb x one.

  (** The pydantic constructor: the four bounded fields are validated. *)
Definition make (examiner_id student_id : Z)
      (compatibility_score expertise_match workload_factor availability_factor : num)
      : result t :=
    if in_unit compatibility_score && in_unit expertise_match
       && in_unit workload_factor && in_unit availability_factor
    then Ok (mk examiner_id student_id compatibility_score expertise_match
                workload_factor availability_factor)
    else Raise ValidationError.
End ExaminerEvaluation.

Module ScheduleResult.
Record t := mk {
    exam_id : Z;
    student_name : string;
    timeslot_id : Z;
    room_id : Z;
    assigned_examiners : list Z;
    total_score : num;
    criteria_scores : gmap string num
  }.
End ScheduleResult.

Module DSSSolution.
Record t := mk {
    schedule : list ScheduleResult.t;
    method_used : string;
    total_satisfaction : num;
    criteria_weights : gmap string num;
    infeasible_exams : list Z
  }.
End DSSSolution.

(** ** numpy arrays

    A 2-D float64 array is the list of its rows.  The model covers arrays
    with at least one row whose rows have one common length; [np_array]
    raises on anything else, where numpy raises, builds an array of another
    rank, or broadcasts. *)

Module Np.

Definition matrix := list (list num).

Definition ncols (M : matrix) : nat :=
  match M with
  | [] => 0
  | row :: _ => length row
  end.

Definition is_2d (M : matrix) : bool :=
  match M with
  | [] => false
  | row :: M' => forallb (fun r => Nat.eqb (length r) (length row)) M'
  end.

(** [np.array(decision_matrix)] *)
Definition np_array (M : list (list num)) : result matrix :=
  if is_2d M then Ok M else Raise NumpyError.

(** [M[:, j]] *)
Definition column (j : nat) (M : matrix) : list num :=
  map (fun row => nth j row zero) M.

Definition columns (M : matrix) : list (list num) :=
  map (fun j => column j M) (seq 0 (ncols M)).

(** The array with [k] rows whose columns are [cols]. *)
Definition from_columns (k : nat) (cols : list (list num)) : matrix :=
  map (fun i => map (fun col => nth i col zero) cols) (seq 0 k).

(** [np.dot(M, w)] for a 2-D [M] and a 1-D [w]: the inner dimensions must
    agree. *)
Definition np_dot (M : matrix) (w : list num) : result (list num) :=
  if forallb (fun row => Nat.eqb (length row) (length w)) M
  then Ok (map (fun row => np_sum (zip_with fmul row w)) M)
  else Raise NumpyError.

(** [np.argmax]: the first index of the maximum, [nan] counting as
    maximal; [i], [best] are the running index and maximum. *)
Fixpoint argmax_from (l : list num) (i : nat) (best_i : nat) (best : num) : nat :=
  match l with
  | [] => best_i
  | x :: l' =>
      if negb (is_nan best) && (is_nan x || fltb best x)
      then argmax_from l' (S i) i x
      else argmax_from l' (S i) best_i best
  end.

Definition np_argmax (l : list num) : result nat :=
  match l with
  | [] => Raise NumpyError
  | x :: l' => Ok (argmax_from l' 1 0 x)
  end.

(** [np.isclose(a, 1, rtol=1e-5)] with the default [atol=1e-8], and
    [np.allclose(a, 1)]. *)
Definition isclose_one (a : num) : bool :=
  match a with
  | Fin q => Qle_bool (Qabs (q - 1)) ((1 # 100000000) + (1 # 100000) * 1)
  | _ => false
  end.

(** Arrays of dtype int64: [np.array] of a list of lists of Python ints,
    each within 64 bits.  An array keeps its dtype under [np.zeros_like]
    and under assignment to its columns; true division yields float64. *)
Module Int64.

Definition matrix := list (list Z).

Definition ncols (M : matrix) : nat :=
  match M with
  | [] => 0
  | row :: _ => length row
  end.

Definition column (j : nat) (M : matrix) : list Z :=
  map (fun row => nth j row 0) M.

Definition columns (M : matrix) : list (list Z) :=
  map (fun j => column j M) (seq 0 (ncols M)).

Definition from_columns (k : nat) (cols : list (list Z)) : matrix :=
  map (fun i => map (fun col => nth i col 0) cols) (seq 0 k).

Definition np_max (l : list Z) : result Z :=
  match l with
  | [] => Raise NumpyError
  | x :: l' => Ok (fold_left Z.max l' x)
  end.
Definition np_min (l : list Z) : result Z :=
  match l with
  | [] => Raise NumpyError
  | x :: l' => Ok (fold_left Z.min l' x)
  end.

Definition np_all_nonzero (l : list Z) : bool := forallb (fun x => negb (x =? 0)) l.

(** [x / y] on entries of int64 arrays: both are converted to float64. *)
Definition true_divide (x y : Z) : num := fdiv (of_Z x) (of_Z y).

(** The cast of a float64 that is stored into an int64 array: the
    fraction is dropped.  C leaves the cast of [nan], of an infinity and
    of a number beyond 64 bits to the platform; [invalid] stands for its
    result. *)
Definition of_float (invalid : Z) (x : num) : Z :=
  match x with
  | Fin q =>
      let z := Z.quot (Qnum q) (Z.pos (Qden q)) in
      if (- 2 ^ 63 <=? z) && (z <? 2 ^ 63) then z else invalid
  | _ => invalid
  end.

End Int64.

End Np.
Import Np.

(** ** [mcdm_methods.py] *)

Module AHPMethod.

Definition consistency_ratio_threshold : num := Fin (1 # 10).

Definition random_index : gmap Z num :=
  Py.dict [(1, Fin 0); (2, Fin 0); (3, Fin (58 # 100)); (4, Fin (90 # 100));
           (5, Fin (112 # 100)); (6, Fin (124 # 100)); (7, Fin (132 # 100));
           (8, Fin (141 # 100)); (9, Fin (145 # 100)); (10, Fin (149 # 100))].

(** The result of [np.linalg.eig]: the real parts of the eigenvalues and
    of the matrix whose columns are the eigenvectors. *)
Definition eig_t := matrix -> result (list num * matrix).

(** Lines 43-44: the consistency ratio from the principal eigenvalue. *)
Definition consistency_ratio (max_eigenvalue : num) (n : nat) : num :=
  let consistency_index :=
    fdiv (fsub max_eigenvalue (of_nat n)) (of_Z (Z.of_nat n - 1)) in
  fdiv consistency_index (default (Fin (149 # 100)) (random_index !! Z.of_nat n)).

Definition calculate_weights (eig : eig_t) (pairwise_matrix : list (list num))
    : result (list num * num) :=
  let matrix := pairwise_matrix in
  let n := length matrix in
  '(eigenvalues, eigenvectors) ← eig matrix;
  max_eigenvalue_index ← np_argmax eigenvalues;
  let max_eigenvalue := nth max_eigenvalue_index eigenvalues NaN in
  let principal_eigenvector := column max_eigenvalue_index eigenvectors in
  let weights :=
    map (fun v => fdiv v (np_sum principal_eigenvector)) principal_eigenvector in
  let weights := map fabs weights in
  Ok (weights, consistency_ratio max_eigenvalue n).

Definition is_consistent (consistency_ratio : num) : bool :=
  fleb consistency_ratio consistency_ratio_threshold.

Definition validate_matrix (matrix : list (list num)) : result bool :=
  matrix ← np_array matrix;
  let n := length matrix in
  if negb (Nat.eqb n (ncols matrix)) then Ok false
  else if negb (forallb (fun i => isclose_one (nth i (nth i matrix []) zero)) (seq 0 n))
  then Ok false
  else Ok (forallb (fun i => forallb (fun j =>
         isclose_one (fmul (nth j (nth i matrix []) zero) (nth i (nth j matrix []) zero)))
         (seq 0 n)) (seq 0 n)).

End AHPMethod.

Module SAWMethod.

(** The body of the loop of [normalize_matrix] for one column. *)
Definition normalize_column (criteria_type : CriteriaType) (column : list num)
    : result (list num) :=
  match criteria_type with
  | BENEFIT =>
      max_val ← np_max column;
      Ok (if fneb max_val zero then map (fun v => fdiv v max_val) column else column)
  | COST =>
      min_val ← np_min column;
      if np_all_nonzero column then Ok (map (fun v => fdiv min_val v) column)
      else
        max_val ← np_max column;
        Ok (map (fun v => fsub one (fdiv v max_val)) column)
  end.

(** The loop over [enumerate(criteria_types)]: a criterion without a
    column is an [IndexError]; a column without a criterion keeps the
    zeros of [np.zeros_like]. *)
Fixpoint normalize_columns (cols : list (list num)) (criteria_types : list CriteriaType)
    : result (list (list num)) :=
  match criteria_types, cols with
  | [], _ => Ok (map (map (fun _ => zero)) cols)
  | _ :: _, [] => Raise NumpyError
  | criteria_type :: types', column :: cols' =>
      normalized ← normalize_column criteria_type column;
      rest ← normalize_columns cols' types';
      Ok (normalized :: rest)
  end.

Definition normalize_matrix (decision_matrix : matrix) (criteria_types : list CriteriaType)
    : result matrix :=
  cols ← normalize_columns (columns decision_matrix) criteria_types;
  Ok (from_columns (length decision_matrix) cols).

Definition calculate_scores (decision_matrix : matrix) (weights : list num)
    (criteria_types : list CriteriaType) : result (list num) :=
  normalized_matrix ← normalize_matrix decision_matrix criteria_types;
  np_dot normalized_matrix weights.

(** [normalize_matrix] on an array of dtype int64.  [np.zeros_like] gives
    [normalized_matrix] the dtype of [decision_matrix], so every quotient
    is cast to an integer when it is assigned to a column. *)
Module Int64.
Section WithCast.
Variable invalid : Z.

Definition normalize_column (criteria_type : CriteriaType) (column : list Z)
    : result (list Z) :=
  match criteria_type with
  | BENEFIT =>
      max_val ← Int64.np_max column;
      Ok (if negb (max_val =? 0)
          then map (fun v => Int64.of_float invalid (Int64.true_divide v max_val)) column
          else column)
  | COST =>
      min_val ← Int64.np_min column;
      if Int64.np_all_nonzero column
      then Ok (map (fun v => Int64.of_float invalid (Int64.true_divide min_val v)) column)
      else
        max_val ← Int64.np_max column;
        Ok (map (fun v => Int64.of_float invalid
                            (fsub one (Int64.true_divide v max_val))) column)
  end.

Fixpoint normalize_columns (cols : list (list Z)) (criteria_types : list CriteriaType)
    : result (list (list Z)) :=
  match criteria_types, cols with
  | [], _ => Ok (map (map (fun _ => 0)) cols)
  | _ :: _, [] => Raise NumpyError
  | criteria_type :: types', column :: cols' =>
      normalized ← normalize_column criteria_type column;
      rest ← normalize_columns cols' types';
      Ok (normalized :: rest)
  end.

Definition normalize_matrix (decision_matrix : Int64.matrix)
    (criteria_types : list CriteriaType) : result Int64.matrix :=
  cols ← normalize_columns (Int64.columns decision_matrix) criteria_types;
  Ok (Int64.from_columns (length decision_matrix) cols).

End WithCast.
End Int64.

End SAWMethod.

Module TOPSISMethod.
Section WithSqrt.
Context `{NpSqrt}.

Definition normalize_matrix (decision_matrix : matrix) : matrix :=
  let norms :=
    map (fun col => np_sqrt (np_sum (map (fun x => fmul x x) col)))
        (columns decision_matrix) in
  let norms := map (fun n => if feqb n zero then one else n) norms in
  map (fun row => zip_with fdiv row norms) decision_matrix.

(** Euclidean distance of a row to a reference vector. *)
Definition distance (row reference : list num) : num :=
  np_sqrt (np_sum (zip_with (fun v a => let d := fsub v a in fmul d d) row reference)).

Definition calculate_scores (decision_matrix : matrix) (weights : list num)
    (criteria_types : list CriteriaType) : result (list num) :=
  let normalized_matrix := normalize_matrix decision_matrix in
  if negb (Nat.eqb (length weights) (ncols decision_matrix)
           && Nat.eqb (length criteria_types) (ncols decision_matrix))
  then Raise NumpyError
  else
    let weighted_matrix := map (fun row => zip_with fmul row weights) normalized_matrix in
    let typed_columns := zip criteria_types (columns weighted_matrix) in
    ideal_solution ←
      mapM_result (fun tc => match tc.1 with
                             | BENEFIT => np_max tc.2
                             | COST => np_min tc.2
                             end) typed_columns;
    negative_ideal_solution ←
      mapM_result (fun tc => match tc.1 with
                             | BENEFIT => np_min tc.2
                             | COST => np_max tc.2
                             end) typed_columns;
    Ok (map (fun row =>
          let distance_to_ideal := distance row ideal_solution in
          let distance_to_negative_ideal := distance row negative_ideal_solution in
          nan_to_num (fdiv distance_to_negative_ideal
                           (fadd distance_to_ideal distance_to_negative_ideal)))
        weighted_matrix).

End WithSqrt.
End TOPSISMethod.

Module MCDMEngine.
Section WithSqrt.
Context `{NpSqrt}.

Definition evaluate_alternatives (decision_matrix : list (list num))
    (criteria : list Criteria.t) (method : string)
    : result (list num * gmap string num) :=
  matrix ← np_array decision_matrix;
  let weights := map Criteria.weight criteria in
  let criteria_types := map Criteria.type criteria in
  let criteria_names := map Criteria.name criteria in
  let weights := map (fun w => fdiv w (np_sum weights)) weights in
  scores ←
    (if String.eqb (Py.upper method) "SAW"
     then SAWMethod.calculate_scores matrix weights criteria_types
     else if String.eqb (Py.upper method) "TOPSIS"
     then TOPSISMethod.calculate_scores matrix weights criteria_types
     else Raise UnsupportedMethod);
  let criteria_weights_dict := Py.dict (zip criteria_names weights) in
  Ok (scores, criteria_weights_dict).

Definition rank_alternatives (scores : list num) : list nat :=
  Py.sorted_desc (fun i => nth i scores NaN) (seq 0 (length scores)).

Definition calculate_ahp_weights (eig : AHPMethod.eig_t) (ahp_matrix : list (list num))
    : result (list num * num * bool) :=
  valid ← AHPMethod.validate_matrix ahp_matrix;
  if negb valid then Raise InvalidMatrix
  else
    '(weights, consistency_ratio) ← AHPMethod.calculate_weights eig ahp_matrix;
    Ok (weights, consistency_ratio, AHPMethod.is_consistent consistency_ratio).

End WithSqrt.
End MCDMEngine.

(** ** [scheduling_engine.py] *)

Module ExamSchedulingDSS.

(** The local variables of [generate_schedule] that change during a run,
    together with the examiner objects, whose [workload] the run mutates
    in place. *)
Record run_state := mk_state {
  schedule : list ScheduleResult.t;
  infeasible_exams : list Z;
  total_satisfaction : num;
  examiners : list Examiner.t
}.

Definition default_criteria : list Criteria.t :=
  [ Criteria.mk 1 "expertise_match" (Fin (30 # 100)) BENEFIT
      (Some "Kesesuaian keahlian penguji dengan bidang skripsi"%string);
    Criteria.mk 2 "competency_score" (Fin (25 # 100)) BENEFIT
      (Some "Tingkat kompetensi penguji"%string);
    Criteria.mk 3 "availability_score" (Fin (20 # 100)) BENEFIT
      (Some "Fleksibilitas ketersediaan waktu penguji"%string);
    Criteria.mk 4 "workload" (Fin (15 # 100)) COST
      (Some "Beban kerja penguji saat ini"%string);
    Criteria.mk 5 "experience_years" (Fin (10 # 100)) BENEFIT
      (Some "Pengalaman tahun menguji"%string) ].

Definition calculate_expertise_match (examiner : Examiner.t) (student : Student.t) : num :=
  let student_field_keywords := Py.split (Py.lower (Student.thesis_field student)) in
  let examiner_expertise := map Py.lower (Examiner.expertise examiner) in
  let matches :=
    length (List.filter
      (fun keyword =>
         existsb (fun expertise => Py.str_in keyword expertise || Py.str_in expertise keyword)
                 examiner_expertise)
      student_field_keywords) in
  let max_possible_matches := length student_field_keywords in
  if (0 <? max_possible_matches)%nat
  then py_min (fdiv (of_nat matches) (of_nat max_possible_matches)) one
  else zero.

Definition evaluate_examiner_for_student (examiner : Examiner.t) (student : Student.t)
    (timeslot_id : Z) : result ExaminerEvaluation.t :=
  let expertise_match := calculate_expertise_match examiner student in
  let availability_factor :=
    if Py.int_in timeslot_id (Examiner.available_timeslots examiner) then one else zero in
  let max_workload := 10 in
  workload_ratio ← Py.int_truediv (max_workload - Examiner.workload examiner) max_workload;
  let workload_factor := py_max zero workload_ratio in
  ExaminerEvaluation.make (Examiner.id examiner) (Student.id student)
    expertise_match expertise_match workload_factor availability_factor.

(** One row of the decision matrix (the loop over [criteria]). *)
Definition decision_row (criteria : list Criteria.t) (evaluation : ExaminerEvaluation.t)
    (examiner : Examiner.t) : list num :=
  map (fun criterion =>
         let name := Criteria.name criterion in
         if String.eqb name "expertise_match" then ExaminerEvaluation.expertise_match evaluation
         else if String.eqb name "competency_score" then Examiner.competency_score examiner
         else if String.eqb name "availability_score" then Examiner.availability_score examiner
         else if String.eqb name "workload" then of_Z (Examiner.workload examiner)
         else if String.eqb name "experience_years" then of_Z (Examiner.experience_years examiner)
         else Fin (1 # 2))
      criteria.

Definition supervisor_score : num := Fin (9 # 10).

Section WithSqrt.
Context `{NpSqrt}.

Definition select_best_examiners (student : Student.t) (examiners : list Examiner.t)
    (timeslot_id : Z) (required_count : Z) (criteria : option (list Criteria.t))
    (method : string) : result (list (Examiner.t * num)) :=
  let criteria := default default_criteria criteria in
  let available_examiners :=
    List.filter (fun e => Py.int_in timeslot_id (Examiner.available_timeslots e)) examiners in
  if Z.of_nat (length available_examiners) <? required_count then Ok []
  else
    let regular_examiners :=
      List.filter (fun e => negb (Examiner.id e =? Student.supervisor_id student))
                  available_examiners in
    match List.find (fun e => Examiner.id e =? Student.supervisor_id student)
                    available_examiners with
    | None => Ok []
    | Some supervisor =>
        decision_matrix ←
          mapM_result (fun examiner =>
              evaluation ← evaluate_examiner_for_student examiner student timeslot_id;
              Ok (decision_row criteria evaluation examiner))
            regular_examiners;
        match decision_matrix with
        | [] => Ok []
        | _ :: _ =>
            '(scores, criteria_weights) ←
              MCDMEngine.evaluate_alternatives decision_matrix criteria method;
            let examiner_scores := zip regular_examiners scores in
            let examiner_scores := Py.sorted_desc snd examiner_scores in
            let selected_regular := Py.slice_to (required_count - 1) examiner_scores in
            supervisor_evaluation ←
              evaluate_examiner_for_student supervisor student timeslot_id;
            Ok ((supervisor, supervisor_score) :: selected_regular)
        end
    end.

Definition evaluate_room_suitability (room : Room.t) (student : Student.t)
    : result num :=
  let required_capacity := 10 in
  capacity_ratio ← Py.int_truediv (Room.capacity room) required_capacity;
  let capacity_factor := py_min capacity_ratio one in
  let quality_factor := fdiv (Room.quality_score room) (Fin 5) in
  let facility_score := fdiv (of_nat (length (Room.facilities room))) (Fin 10) in
  let facility_factor := py_min facility_score one in
  Ok (fadd (fadd (fmul capacity_factor (Fin (5 # 10))) (fmul quality_factor (Fin (3 # 10))))
           (fmul facility_factor (Fin (2 # 10)))).

Fixpoint check_scheduling_constraints (schedule : list ScheduleResult.t)
    (new_exam : ScheduleResult.t) : bool :=
  match schedule with
  | [] => true
  | existing_exam :: rest =>
      if ScheduleResult.timeslot_id existing_exam =? ScheduleResult.timeslot_id new_exam then
        if ScheduleResult.room_id existing_exam =? ScheduleResult.room_id new_exam then false
        else if existsb (fun x => Py.int_in x (ScheduleResult.assigned_examiners new_exam))
                        (ScheduleResult.assigned_examiners existing_exam)
        then false
        else check_scheduling_constraints rest new_exam
      else check_scheduling_constraints rest new_exam
  end.

(** [best_schedule] and [best_score]. *)
Definition best_t := (option ScheduleResult.t * num)%type.

(** The body of [for room in rooms]. *)
Definition try_room (schedule : list ScheduleResult.t) (session : ExamSession.t)
    (student : Student.t) (timeslot : TimeSlot.t)
    (selected_examiners : list (Examiner.t * num)) (best : best_t) (room : Room.t)
    : result best_t :=
  room_score ← evaluate_room_suitability room student;
  let examiner_ids := map (fun e => Examiner.id e.1) selected_examiners in
  let examiner_score := np_mean (map snd selected_examiners) in
  let combined_score :=
    fadd (fmul examiner_score (Fin (7 # 10))) (fmul room_score (Fin (3 # 10))) in
  let potential_result :=
    ScheduleResult.mk (ExamSession.id session) (Student.name student)
      (TimeSlot.id timeslot) (Room.id room) examiner_ids combined_score
      (Py.dict [("examiner_quality"%string, examiner_score);
                ("room_suitability"%string, room_score);
                ("combined_score"%string, combined_score)]) in
  if check_scheduling_constraints schedule potential_result then
    if fgtb combined_score best.2 then Ok (Some potential_result, combined_score)
    else Ok best
  else Ok best.

(** The body of [for timeslot in timeslots]. *)
Definition try_timeslot (st : run_state) (rooms : list Room.t)
    (criteria : list Criteria.t) (method : string) (session : ExamSession.t)
    (student : Student.t) (best : best_t) (timeslot : TimeSlot.t) : result best_t :=
  selected_examiners ←
    select_best_examiners student (examiners st) (TimeSlot.id timeslot)
      (ExamSession.required_examiners session) (Some criteria) method;
  if Z.of_nat (length selected_examiners) <? ExamSession.required_examiners session
  then Ok best
  else foldM (try_room (schedule st) session student timeslot selected_examiners)
             best rooms.

(** [for examiner in examiners: if examiner.id == examiner_id: ...; break] *)
Fixpoint increment_workload (examiner_id : Z) (examiners : list Examiner.t)
    : list Examiner.t :=
  match examiners with
  | [] => []
  | examiner :: rest =>
      if Examiner.id examiner =? examiner_id
      then Examiner.incr_workload examiner :: rest
      else examiner :: increment_workload examiner_id rest
  end.

Definition update_workloads (assigned : list Z) (examiners : list Examiner.t)
    : list Examiner.t :=
  fold_left (fun es examiner_id => increment_workload examiner_id es) assigned examiners.

Definition record_infeasible (st : run_state) (session : ExamSession.t) : run_state :=
  mk_state (schedule st) (infeasible_exams st ++ [ExamSession.id session])
           (total_satisfaction st) (examiners st).

Definition commit (st : run_state) (best_schedule : ScheduleResult.t) (best_score : num)
    : run_state :=
  mk_state (schedule st ++ [best_schedule]) (infeasible_exams st)
           (fadd (total_satisfaction st) best_score)
           (update_workloads (ScheduleResult.assigned_examiners best_schedule)
                             (examiners st)).

(** The body of [for session in sorted_sessions]. *)
Definition process_session (student_lookup : gmap Z Student.t) (rooms : list Room.t)
    (timeslots : list TimeSlot.t) (criteria : list Criteria.t) (method : string)
    (st : run_state) (session : ExamSession.t) : result run_state :=
  match student_lookup !! ExamSession.student_id session with
  | None => Ok (record_infeasible st session)
  | Some student =>
      best ← foldM (try_timeslot st rooms criteria method session student)
                   (None, of_Z (-1)) timeslots;
      match best.1 with
      | Some best_schedule => Ok (commit st best_schedule best.2)
      | None => Ok (record_infeasible st session)
      end
  end.

(** The loop over the sessions; an exception leaves the loop with the
    state in which it was raised. *)
Fixpoint run_sessions (step : run_state -> ExamSession.t -> result run_state)
    (st : run_state) (sessions : list ExamSession.t) : run_state * option exn :=
  match sessions with
  | [] => (st, None)
  | session :: rest =>
      match step st session with
      | Raise e => (st, Some e)
      | Ok st' => run_sessions step st' rest
      end
  end.

(** [generate_schedule] returns the solution or raises; the second
    component is the state of the run at that point. *)
Definition generate_schedule (students : list Student.t) (examiners : list Examiner.t)
    (rooms : list Room.t) (timeslots : list TimeSlot.t)
    (exam_sessions : list ExamSession.t) (criteria : option (list Criteria.t))
    (method : string) : result DSSSolution.t * run_state :=
  let criteria := default default_criteria criteria in
  let st0 := mk_state [] [] (Fin 0) examiners in
  let student_lookup := Py.dict (map (fun s => (Student.id s, s)) students) in
  let sorted_sessions := Py.sorted_desc ExamSession.priority exam_sessions in
  match run_sessions (process_session student_lookup rooms timeslots criteria method)
                     st0 sorted_sessions with
  | (st, Some e) => (Raise e, st)
  | (st, None) =>
      let avg_satisfaction :=
        match schedule st with
        | [] => Fin 0
        | _ :: _ => fdiv (total_satisfaction st) (of_nat (length (schedule st)))
        end in
      match MCDMEngine.evaluate_alternatives
              [map (fun _ => of_Z 1) criteria] criteria method with
      | Raise e => (Raise e, st)
      | Ok (_, criteria_weights) =>
          (Ok (DSSSolution.mk (schedule st) method avg_satisfaction criteria_weights
                              (infeasible_exams st)), st)
      end
  end.

(** [analyze_schedule_quality]; the values of the returned [dict]. *)
Definition analyze_schedule_quality (solution : DSSSolution.t)
    : result (gmap string num) :=
  match DSSSolution.schedule solution with
  | [] => Ok (Py.dict [("overall_quality"%string, Fin 0)])
  | _ :: _ =>
      let scores := map ScheduleResult.total_score (DSSSolution.schedule solution) in
      min_score ← np_min scores;
      max_score ← np_max scores;
      let scheduled := length (DSSSolution.schedule solution) in
      let infeasible := length (DSSSolution.infeasible_exams solution) in
      Ok (Py.dict
            [("overall_quality"%string, DSSSolution.total_satisfaction solution);
             ("average_score"%string, np_mean scores);
             ("min_score"%string, min_score);
             ("max_score"%string, max_score);
             ("score_std"%string, np_std scores);
             ("scheduled_exams"%string, of_nat scheduled);
             ("infeasible_exams"%string, of_nat infeasible);
             ("success_rate"%string,
               fdiv (of_nat scheduled) (of_nat (scheduled + infeasible)))])
  end.

End WithSqrt.
End ExamSchedulingDSS.

(** ** Specification-side definitions and sample inputs *)

Module Sample.

(** A square root for evaluation: the rational root truncated to a
    multiple of [2^-32]. *)
Definition sqrt_trunc (q : Q) : Q :=
  Z.sqrt (Qnum q * Z.pos (Qden q) * 2 ^ 64) # (Qden q * 2 ^ 32).

Definition sqrt_trunc_impl : NpSqrt :=
  {| sqrtQ := sqrt_trunc;
     sqrtQ_nonneg := fun q _ =>
       eq_ind_r (fun z => (0 <= z)%Z) (Z.sqrt_nonneg _) (Z.mul_1_r _) |}.

(** The all-ones pairwise comparison matrix of size [n]. *)
Definition ones (n : nat) : list (list num) := repeat (repeat one n) n.

(** [np.linalg.eig] on the 1-by-1 and 2-by-2 all-ones matrices: the
    eigenvalues [1], and [2] and [0]. *)
Definition eig_ones : AHPMethod.eig_t := fun M =>
  match length M with
  | 1%nat => Ok ([Fin 1], [[Fin 1]])
  | 2%nat => Ok ([Fin 2; Fin 0],
                 [[Fin (7071 # 10000); Fin (- 7071 # 10000)];
                  [Fin (7071 # 10000); Fin (7071 # 10000)]])
  | _ => Raise NumpyError
  end.

(** The data of [test_method_comparison]; the three workloads vary. *)
Definition student1 : Student.t :=
  Student.mk 1 "Test Student" "123456" "Test Thesis" "computer science" 1
             (Fin (35 # 10)) (Fin 4) [].

Definition examiners_with (w1 w2 w3 : Z) : list Examiner.t :=
  [ Examiner.mk 1 "Dr. Test" "Professor" ["computer science"%string] 10 w1
                (Fin 5) (Fin 5) [1];
    Examiner.mk 2 "Dr. Test2" "Professor" ["computer science"%string] 8 w2
                (Fin 4) (Fin 4) [1];
    Examiner.mk 3 "Dr. Test3" "Professor" ["computer science"%string] 6 w3
                (Fin 3) (Fin 3) [1] ].

Definition room1 : Room.t := Room.mk 1 "Test Room" 20 [] "Test" (Fin 4).
Definition room2 : Room.t := Room.mk 2 "Room B" 15 ["projector"%string] "Building 2" (Fin (35 # 10)).
Definition slot1 : TimeSlot.t := TimeSlot.mk 1 "Monday" "08:00" "10:00" "Morning".
Definition session1 : ExamSession.t := ExamSession.mk 1 1 120 3 (Fin 1).

(** A session whose student is not among the students. *)
Definition session_unknown : ExamSession.t := ExamSession.mk 7 99 120 3 (Fin 1).

Definition run_sample (w1 w2 w3 : Z) (sessions : list ExamSession.t) (method : string) :=
  ExamSchedulingDSS.generate_schedule (H := sqrt_trunc_impl)
    [student1] (examiners_with w1 w2 w3) [room1] [slot1] sessions None method.

(** The decision matrix and criteria types of [TestMCDMMethods]. *)
Definition decision_matrix : matrix :=
  [ [Fin (8 # 10); Fin 5; Fin 2];
    [Fin (6 # 10); Fin 8; Fin 4];
    [Fin (9 # 10); Fin 3; Fin 1] ].
Definition criteria_types : list CriteriaType := [BENEFIT; BENEFIT; COST].

(** Two students with one examiner each, in a run with two rooms. *)
Definition student2 : Student.t :=
  Student.mk 2 "Bob" "123457" "Web Development Framework"
             "web development software engineering" 2 (Fin (36 # 10)) (Fin 4) [].
Definition session_a : ExamSession.t := ExamSession.mk 1 1 120 1 (Fin 1).
Definition session_b : ExamSession.t := ExamSession.mk 2 2 120 1 (Fin (8 # 10)).

Definition run_pair :=
  ExamSchedulingDSS.generate_schedule (H := sqrt_trunc_impl)
    [student1; student2] (examiners_with 0 1 2) [room1; room2] [slot1]
    [session_a; session_b] None "TOPSIS".

Definition empty_solution : DSSSolution.t := DSSSolution.mk [] "SAW" (Fin 0) ∅ [].

(** The examiners of [test_method_comparison] with the load counters 0, 1
    and 2, the third one carrying the id of the second. *)
Definition examiners_shared_id : list Examiner.t :=
  [ Examiner.mk 1 "Dr. Test" "Professor" ["computer science"%string] 10 0
                (Fin 5) (Fin 5) [1];
    Examiner.mk 2 "Dr. Test2" "Professor" ["computer science"%string] 8 1
                (Fin 4) (Fin 4) [1];
    Examiner.mk 2 "Dr. Test3" "Professor" ["computer science"%string] 6 2
                (Fin 3) (Fin 3) [1] ].

Definition run_shared_id :=
  ExamSchedulingDSS.generate_schedule (H := sqrt_trunc_impl)
    [student1] examiners_shared_id [room1] [slot1] [session1] None "SAW".

End Sample.

(** The success rate as the specification words it: committed over
    committed plus infeasible, and 0 when there is no item at all. *)
Definition spec_success_rate (committed infeasible : nat) : num :=
  if Nat.eqb (committed + infeasible) 0 then Fin 0
  else fdiv (of_nat committed) (of_nat (committed + infeasible)).

(** The two supported scoring method names, case-insensitively. *)
Definition supported (method : string) : bool :=
  String.eqb (Py.upper method) "SAW" || String.eqb (Py.upper method) "TOPSIS".

(** Two assignments are compatible when, at a common timeslot, they use
    different rooms and share no examiner. *)
Definition compatible (a b : ScheduleResult.t) : Prop :=
  ScheduleResult.timeslot_id a = ScheduleResult.timeslot_id b ->
  ScheduleResult.room_id a <> ScheduleResult.room_id b
  /\ forall x, x ∈ ScheduleResult.assigned_examiners a ->
               x ∈ ScheduleResult.assigned_examiners b -> False.

(** The claim as the specification states it, for one solution: a success
    rate is reported, with the value the specification defines. *)
Definition reports_success_rate `{NpSqrt} (solution : DSSSolution.t) : Prop :=
  exists analysis,
    ExamSchedulingDSS.analyze_schedule_quality solution = Ok analysis
    /\ analysis !! "success_rate"%string
       = Some (spec_success_rate (length (DSSSolution.schedule solution))
                                 (length (DSSSolution.infeasible_exams solution))).

(** A candidate for a session: it carries the session's id, passes the
    constraint check against the committed schedule, and its examiners
    are the supervisor of the student and others, all distinct examiner
    objects of the run. *)
Definition candidate (st : ExamSchedulingDSS.run_state) (session : ExamSession.t) (student : Student.t)
    (r : ScheduleResult.t) : Prop :=
  ScheduleResult.exam_id r = ExamSession.id session
  /\ ExamSchedulingDSS.check_scheduling_constraints (ExamSchedulingDSS.schedule st) r = true
  /\ exists supervisor rest,
       ScheduleResult.assigned_examiners r = map Examiner.id (supervisor :: rest)
       /\ Examiner.id supervisor = Student.supervisor_id student
       /\ supervisor :: rest ⊆+ ExamSchedulingDSS.examiners st.

Definition best_ok (st : ExamSchedulingDSS.run_state) (session : ExamSession.t) (student : Student.t)
    (method : string) (best : ExamSchedulingDSS.best_t) : Prop :=
  forall r, best.1 = Some r -> candidate st session student r /\ supported method = true.

(** No two committed assignments, at different positions of the schedule,
    are in conflict. *)
Definition conflict_free (schedule : list ScheduleResult.t) : Prop :=
  forall (i j : nat) a b, i <> j -> schedule !! i = Some a -> schedule !! j = Some b ->
    compatible a b.

(** The number of committed assignments that list the examiner. *)
Definition committed_count (examiner_id : Z) (schedule : list ScheduleResult.t) : Z :=
  Z.of_nat (length (List.filter
    (fun a => Py.int_in examiner_id (ScheduleResult.assigned_examiners a)) schedule)).

(** The examiner with its load counter raised by the number of committed
    assignments that list it, all other fields as they were. *)
Definition loaded (schedule : list ScheduleResult.t) (e : Examiner.t) : Examiner.t :=
  Examiner.with_workload (Examiner.workload e + committed_count (Examiner.id e) schedule) e.

(** The claim on the load counters, as the specification states it: the
    examiners after the run are the examiners before it, the counter of
    each raised by 1 for every committed assignment that lists it. *)
Definition raised_by_one_per_assignment (before after : list Examiner.t)
    (schedule : list ScheduleResult.t) : Prop :=
  after = map (loaded schedule) before.

(** The assignment lists the supervisor of the student of a session with
    the assignment's exam id. *)
Definition has_supervisor (students : list Student.t)
    (exam_sessions : list ExamSession.t) (a : ScheduleResult.t) : Prop :=
  exists session student,
    session ∈ exam_sessions
    /\ ScheduleResult.exam_id a = ExamSession.id session
    /\ Py.dict (map (fun s => (Student.id s, s)) students)
         !! ExamSession.student_id session = Some student
    /\ Student.supervisor_id student ∈ ScheduleResult.assigned_examiners a.

(** Finite numbers, finite non-negative numbers, and numbers of the
    interval [0, 1]. *)
Definition is_fin (x : num) : Prop := exists q, x = Fin q.
Definition fin_nonneg (x : num) : Prop := exists q, x = Fin q /\ (0 <= q)%Q.
Definition in_unit_interval (x : num) : Prop :=
  exists q, x = Fin q /\ (0 <= q <= 1)%Q.

(** The load counters are within the range of the data: none is negative,
    and none reaches [2^63] in a run over [sessions] sessions, of which
    each adds at most the number of examiners to a counter. *)
Definition workloads_in_range (sessions : nat) (examiners : list Examiner.t) : Prop :=
  Forall (fun e => 0 <= Examiner.workload e
                   /\ Examiner.workload e + Z.of_nat (sessions * length examiners) < 2 ^ 63)
         examiners.

(** The room capacities are 64-bit integers. *)
Definition capacities_in_range (rooms : list Room.t) : Prop :=
  Forall (fun room => - 2 ^ 63 <= Room.capacity room < 2 ^ 63) rooms.

(** The years of experience, which enter the decision matrix, are
    non-negative 64-bit integers: numpy stores them as numbers. *)
Definition experience_in_range (examiners : list Examiner.t) : Prop :=
  Forall (fun e => 0 <= Examiner.experience_years e < 2 ^ 63) examiners.

(** The claim of an eager failure, as the specification states it: the
    call raises the unsupported-method error in a state in which nothing
    is committed, nothing is recorded as infeasible and no examiner is
    changed. *)
Definition raises_before_any_computation `{NpSqrt}
    (students : list Student.t) (examiners : list Examiner.t) (rooms : list Room.t)
    (timeslots : list TimeSlot.t) (exam_sessions : list ExamSession.t)
    (criteria : option (list Criteria.t)) (method : string) : Prop :=
  exists st,
    ExamSchedulingDSS.generate_schedule students examiners rooms timeslots
      exam_sessions criteria method = (Raise UnsupportedMethod, st)
    /\ ExamSchedulingDSS.schedule st = []
    /\ ExamSchedulingDSS.infeasible_exams st = []
    /\ ExamSchedulingDSS.examiners st = examiners.

(** ** [main.py] *)

(** The handlers of the web interface, as functions from the parsed
    request to the value they return or the [HTTPException] they raise.
    The framework around them (parsing and validation of the request,
    serialisation of the response) is not part of the model. *)
Module Main.

(** The [detail] of an [HTTPException]: a fixed text, or a prefix followed
    by [str(e)] for the exception [e] that was caught. *)
Inductive detail :=
| Message (text : string)
| ErrorIn (prefix : string) (e : exn).

Inductive http_result (A : Type) :=
| Response (body : A)
| HTTPException (status_code : Z) (detail : detail).
Arguments Response {A} body.
Arguments HTTPException {A} status_code detail.

Definition HTTP_400_BAD_REQUEST : Z := 400.
Definition HTTP_500_INTERNAL_SERVER_ERROR : Z := 500.

Module SchedulingRequest.
Record t := mk {
    students : list Student.t;
    examiners : list Examiner.t;
    rooms : list Room.t;
    timeslots : list TimeSlot.t;
    exam_sessions : list ExamSession.t;
    criteria : option (list Criteria.t);
    method : string
  }.
End SchedulingRequest.

(** A recommendation: a fixed text, or the text that reports the number
    of exams that could not be scheduled. *)
Inductive recommendation :=
| Text (text : string)
| Unscheduled (infeasible_exams : num).

(** [analysis.get(key, 0)] *)
Definition get (analysis : gmap string num) (key : string) : num :=
  default (Fin 0) (analysis !! key).

Definition _generate_recommendations (analysis : gmap string num) : list recommendation :=
  let recommendations := [] in
  let recommendations :=
    if fltb (get analysis "success_rate") (Fin (8 # 10))
    then recommendations
         ++ [Text "Tingkatkan jumlah penguji atau slot waktu yang tersedia"]
    else recommendations in
  let recommendations :=
    if fgtb (get analysis "score_std") (Fin (3 # 10))
    then recommendations
         ++ [Text "Distribusi kualitas jadwal tidak merata, pertimbangkan penyesuaian kriteria"]
    else recommendations in
  let recommendations :=
    if fltb (get analysis "average_score") (Fin (6 # 10))
    then recommendations
         ++ [Text "Kualitas jadwal rendah, pertimbangkan menambah penguji berkualitas"]
    else recommendations in
  let recommendations :=
    if fgtb (get analysis "infeasible_exams") (Fin 0)
    then recommendations ++ [Unscheduled (get analysis "infeasible_exams")]
    else recommendations in
  match recommendations with
  | [] => [Text "Jadwal sudah optimal dengan kualitas yang baik"]
  | _ :: _ => recommendations
  end.

Section WithSqrt.
Context `{NpSqrt}.

(** [POST /schedule] *)
Definition generate_schedule (request : SchedulingRequest.t)
    : http_result DSSSolution.t :=
  let method := SchedulingRequest.method request in
  if negb (existsb (String.eqb (Py.upper method)) ["SAW"; "TOPSIS"]%string)
  then HTTPException HTTP_400_BAD_REQUEST
         (Message ("Metode tidak didukung: " ++ method ++ ". Gunakan SAW atau TOPSIS"))
  else match SchedulingRequest.students request with
  | [] => HTTPException HTTP_400_BAD_REQUEST (Message "Data mahasiswa tidak boleh kosong")
  | _ :: _ =>
  match SchedulingRequest.examiners request with
  | [] => HTTPException HTTP_400_BAD_REQUEST (Message "Data penguji tidak boleh kosong")
  | _ :: _ =>
  match SchedulingRequest.rooms request with
  | [] => HTTPException HTTP_400_BAD_REQUEST (Message "Data ruangan tidak boleh kosong")
  | _ :: _ =>
  match SchedulingRequest.timeslots request with
  | [] => HTTPException HTTP_400_BAD_REQUEST (Message "Data slot waktu tidak boleh kosong")
  | _ :: _ =>
      match (ExamSchedulingDSS.generate_schedule
               (SchedulingRequest.students request) (SchedulingRequest.examiners request)
               (SchedulingRequest.rooms request) (SchedulingRequest.timeslots request)
               (SchedulingRequest.exam_sessions request)
               (SchedulingRequest.criteria request) method).1 with
      | Ok solution => Response solution
      | Raise e =>
          HTTPException HTTP_500_INTERNAL_SERVER_ERROR
            (ErrorIn "Error dalam pembuatan jadwal: " e)
      end
  end end end end.

(** [POST /analyze-schedule]: the analysis, the recommendations and the
    method of the solution. *)
Definition analyze_schedule (solution : DSSSolution.t)
    : http_result (gmap string num * list recommendation * string) :=
  match ExamSchedulingDSS.analyze_schedule_quality solution with
  | Ok analysis =>
      Response (analysis, _generate_recommendations analysis,
                DSSSolution.method_used solution)
  | Raise e =>
      HTTPException HTTP_400_BAD_REQUEST (ErrorIn "Error dalam analisis jadwal: " e)
  end.

End WithSqrt.
End Main.

(** ** Definitions for the further properties *)

(** What the allocator's loops establish of a result they keep for a
    session: it names the session and the student, a timeslot and a room
    of the input, examiners of the run who list the timeslot as available,
    at least as many of them as the session requires, and its score
    exceeds the initial best score -1 (so it is not [nan]). *)
Definition placed (rooms : list Room.t) (timeslots : list TimeSlot.t)
    (examiners : list Examiner.t) (session : ExamSession.t) (student : Student.t)
    (r : ScheduleResult.t) : Prop :=
  ScheduleResult.exam_id r = ExamSession.id session
  /\ ScheduleResult.student_name r = Student.name student
  /\ (exists timeslot, timeslot ∈ timeslots
                       /\ ScheduleResult.timeslot_id r = TimeSlot.id timeslot)
  /\ (exists room room_score,
        room ∈ rooms /\ ScheduleResult.room_id r = Room.id room
        /\ ExamSchedulingDSS.evaluate_room_suitability room student = Ok room_score
        /\ ScheduleResult.criteria_scores r !! "room_suitability"%string = Some room_score)
  /\ (forall x, x ∈ ScheduleResult.assigned_examiners r ->
        exists e, e ∈ examiners /\ Examiner.id e = x
                  /\ ScheduleResult.timeslot_id r ∈ Examiner.available_timeslots e)
  /\ ScheduleResult.assigned_examiners r <> []
  /\ ExamSession.required_examiners session
     <= Z.of_nat (length (ScheduleResult.assigned_examiners r))
  /\ fgtb (ScheduleResult.total_score r) (of_Z (-1)) = true
  /\ ScheduleResult.criteria_scores r !! "combined_score"%string
     = Some (ScheduleResult.total_score r).

(** The invariant of [best_schedule] and [best_score] in the two loops. *)
Definition best_placed (rooms : list Room.t) (timeslots : list TimeSlot.t)
    (examiners : list Examiner.t) (session : ExamSession.t) (student : Student.t)
    (best : ExamSchedulingDSS.best_t) : Prop :=
  match best.1 with
  | Some r => placed rooms timeslots examiners session student r
              /\ best.2 = ScheduleResult.total_score r
  | None => best.2 = of_Z (-1)
  end.

(** [merge l1 l2 l]: the list [l] is an interleaving of [l1] and [l2]
    that keeps the order of each. *)
Inductive merge {A : Type} : list A -> list A -> list A -> Prop :=
| merge_nil : merge [] [] []
| merge_l (x : A) (l1 l2 l : list A) : merge l1 l2 l -> merge (x :: l1) l2 (x :: l)
| merge_r (x : A) (l1 l2 l : list A) : merge l1 l2 l -> merge l1 (x :: l2) (x :: l).

(** The sum of the load counters. *)
Definition total_workload (examiners : list Examiner.t) : Z :=
  foldr Z.add 0 (map Examiner.workload examiners).

(** The number of examiner entries of a schedule. *)
Definition assigned_entries (schedule : list ScheduleResult.t) : Z :=
  foldr Z.add 0
    (map (fun a => Z.of_nat (length (ScheduleResult.assigned_examiners a))) schedule).

(** The [potential_result] that the loop over the rooms builds for a
    timeslot, a room and the examiners selected for the timeslot, when the
    evaluation of the room returns. *)
Definition potential_result (session : ExamSession.t) (student : Student.t)
    (timeslot : TimeSlot.t) (room : Room.t)
    (selected_examiners : list (Examiner.t * num)) : result ScheduleResult.t :=
  room_score ← ExamSchedulingDSS.evaluate_room_suitability room student;
  let examiner_ids := map (fun e => Examiner.id e.1) selected_examiners in
  let examiner_score := np_mean (map snd selected_examiners) in
  let combined_score :=
    fadd (fmul examiner_score (Fin (7 # 10))) (fmul room_score (Fin (3 # 10))) in
  Ok (ScheduleResult.mk (ExamSession.id session) (Student.name student)
        (TimeSlot.id timeslot) (Room.id room) examiner_ids combined_score
        (Py.dict [("examiner_quality"%string, examiner_score);
                  ("room_suitability"%string, room_score);
                  ("combined_score"%string, combined_score)])).

(** The exact sum of a list of rationals. *)
Definition Qsum (qs : list Q) : Q := foldr Qplus 0%Q qs.

(** The criterion with its weight multiplied by [k], all else unchanged. *)
Definition scale_weight (k : Q) (c : Criteria.t) : Criteria.t :=
  Criteria.mk (Criteria.id c) (Criteria.name c) (fmul (Fin k) (Criteria.weight c))
              (Criteria.type c) (Criteria.description c).

(** The entry [matrix[i][j]] as [validate_matrix] reads it, and the
    tolerance of [np.isclose(a, 1, rtol=1e-5)] with the default
    [atol=1e-8]. *)
Definition entry (matrix : list (list num)) (i j : nat) : num :=
  nth j (nth i matrix []) zero.
Definition isclose_tolerance : Q := (1 # 100000000) + (1 # 100000) * 1.

(** [ordered R l]: every element of [l] is related by [R] to every later
    element. *)
Fixpoint ordered {A : Type} (R : A -> A -> Prop) (l : list A) : Prop :=
  match l with
  | [] => True
  | x :: l' => Forall (R x) l' /\ ordered R l'
  end.

(** Alternative [i] is ranked before alternative [j]: its score is not
    smaller, and on equal scores its index is. *)
Definition ranked_before (scores : list num) (i j : nat) : Prop :=
  fltb (nth i scores NaN) (nth j scores NaN) = false
  /\ (fltb (nth j scores NaN) (nth i scores NaN) = false -> (i < j)%nat).

(** The ranges of the data model that the scores depend on. *)
Definition examiner_in_range (e : Examiner.t) : Prop :=
  fin_nonneg (Examiner.competency_score e)
  /\ fin_nonneg (Examiner.availability_score e)
  /\ 0 <= Examiner.workload e
  /\ 0 <= Examiner.experience_years e.

Definition room_in_range (room : Room.t) : Prop :=
  0 <= Room.capacity room
  /\ exists quality, Room.quality_score room = Fin quality /\ (0 <= quality <= 5)%Q.

Definition criteria_in_range (criteria : list Criteria.t) : Prop :=
  Forall (fun c => fin_nonneg (Criteria.weight c)) criteria
  /\ Exists (fun c => feqb (Criteria.weight c) zero = false) criteria.

(** A number of [0, 1], or [nan]. *)
Definition unit_or_nan (x : num) : Prop := in_unit_interval x \/ x = NaN.

(** Whether the column of criterion [j] is that of a cost criterion and
    zero throughout. *)
Definition zero_cost_column (decision_matrix : list (list num))
    (criteria : list Criteria.t) (j : nat) : bool :=
  match criteria !! j with
  | Some c =>
      match Criteria.type c with
      | COST => forallb (fun v => feqb v zero) (column j decision_matrix)
      | BENEFIT => false
      end
  | None => false
  end.

(** * Properties *)

(** ** Arithmetic of [num] *)

Lemma Qltb_lt a b : Qltb a b = true <-> (a < b)%Q.
Proof.
  unfold Qltb. rewrite negb_true_iff, <- not_true_iff_false, Qle_bool_iff.
  split; [apply Qnot_le_lt | apply Qlt_not_le].
Qed.

Lemma Qltb_ge a b : Qltb a b = false <-> (b <= a)%Q.
Proof. unfold Qltb. rewrite negb_false_iff. apply Qle_bool_iff. Qed.

Lemma Qeq_bool_false a b : Qeq_bool a b = false <-> ~ (a == b)%Q.
Proof. rewrite <- not_true_iff_false, Qeq_bool_iff. reflexivity. Qed.

Lemma fgtb_nan_l x : fgtb NaN x = false.
Proof. destruct x; reflexivity. Qed.

Lemma fmul_nan_l x : fmul NaN x = NaN.
Proof. destruct x; reflexivity. Qed.

Lemma fadd_nan_l x : fadd NaN x = NaN.
Proof. destruct x; reflexivity. Qed.

Lemma np_mean_nil : np_mean [] = NaN.
Proof. reflexivity. Qed.

(** ** The consistency ratio of the AHP deriver (C4) *)

Lemma random_index_positive (n : nat) :
  (3 <= n)%nat ->
  exists q, default (Fin (149 # 100)) (AHPMethod.random_index !! Z.of_nat n) = Fin q
            /\ (0 < q)%Q.
Proof.
  intros Hn. unfold AHPMethod.random_index, Py.dict. simpl.
  repeat (rewrite lookup_insert; case_decide;
          [first [lia | simpl; eexists; split; reflexivity] |]).
  rewrite lookup_empty. simpl. eexists. split; reflexivity.
Qed.

(** For sizes from 3 on, a principal eigenvalue equal to the size gives
    the ratio 0. *)
Lemma consistency_ratio_ones_from_3 (n : nat) :
  (3 <= n)%nat -> AHPMethod.consistency_ratio (of_nat n) n = Fin 0.
Proof.
  intros Hn. unfold AHPMethod.consistency_ratio.
  destruct (random_index_positive n Hn) as (q & -> & Hq).
  unfold of_nat, of_Z, fsub, fopp, fadd, fdiv.
  assert (Hd : Qeq_bool (inject_Z (Z.of_nat n - 1)) 0 = false).
  { apply Qeq_bool_false. unfold Qeq. simpl. lia. }
  rewrite Hd.
  assert (Hq0 : Qeq_bool q 0 = false).
  { apply Qeq_bool_false. intros E. rewrite E in Hq. discriminate. }
  rewrite Hq0. f_equal.
  apply (Qred_complete _ 0). rewrite !Qred_correct. field.
  apply Qeq_bool_false in Hd, Hq0. split; assumption.
Qed.

(** C4 (the code at the failing inputs).  On the 1-by-1 and on the 2-by-2
    all-ones matrix, whose principal eigenvalues are 1 and 2, the deriver
    divides by [n - 1 = 0], respectively by the random index 0: the
    consistency ratio is [nan], not 0, and the matrix is reported as
    inconsistent. *)
Theorem ahp_ratio_of_small_ones_is_nan :
  AHPMethod.calculate_weights Sample.eig_ones (Sample.ones 1) = Ok ([Fin 1], NaN)
  /\ snd <$> AHPMethod.calculate_weights Sample.eig_ones (Sample.ones 2) = Ok NaN
  /\ AHPMethod.is_consistent NaN = false.
Proof. repeat split. Qed.

(** The engine's ranking and the validation of pairwise matrices, at the
    inputs named by the specification. *)
Example rank_alternatives_example :
  MCDMEngine.rank_alternatives [Fin (8 # 10); Fin (6 # 10); Fin (9 # 10)]
  = [2; 0; 1]%nat.
Proof. reflexivity. Qed.

Example non_reciprocal_matrix_rejected :
  MCDMEngine.calculate_ahp_weights Sample.eig_ones
    [[Fin 1; Fin 2]; [Fin (4 # 10); Fin 1]] = Raise InvalidMatrix.
Proof. reflexivity. Qed.

(** ** The schedule quality analyzer (C3) *)

Section Analyzer.
Context `{NpSqrt}.

(** Without a committed assignment the analyzer returns the single entry
    [overall_quality]. *)
Lemma analyze_empty_schedule (solution : DSSSolution.t) :
  DSSSolution.schedule solution = [] ->
  ExamSchedulingDSS.analyze_schedule_quality solution
  = Ok {[ "overall_quality"%string := Fin 0 ]}.
Proof.
  intros E. unfold ExamSchedulingDSS.analyze_schedule_quality. rewrite E.
  reflexivity.
Qed.

(** C3 (amended).  For a solution with at least one committed assignment
    the analyzer returns the mean, minimum, maximum and standard deviation
    of the committed scores, the two counts, and the success rate
    committed / (committed + infeasible), which is the rate of the
    specification; for a solution without committed assignment it returns
    only [overall_quality = 0]. *)
Theorem analyze_schedule_quality_metrics (solution : DSSSolution.t) :
  let scores := map ScheduleResult.total_score (DSSSolution.schedule solution) in
  let committed := length (DSSSolution.schedule solution) in
  let infeasible := length (DSSSolution.infeasible_exams solution) in
  exists analysis,
    ExamSchedulingDSS.analyze_schedule_quality solution = Ok analysis
    /\ (DSSSolution.schedule solution = [] ->
        analysis = {[ "overall_quality"%string := Fin 0 ]})
    /\ (DSSSolution.schedule solution <> [] ->
        analysis !! "average_score"%string = Some (np_mean scores)
        /\ Ok <$> analysis !! "min_score"%string = Some (np_min scores)
        /\ Ok <$> analysis !! "max_score"%string = Some (np_max scores)
        /\ analysis !! "score_std"%string = Some (np_std scores)
        /\ analysis !! "scheduled_exams"%string = Some (of_nat committed)
        /\ analysis !! "infeasible_exams"%string = Some (of_nat infeasible)
        /\ analysis !! "success_rate"%string
           = Some (fdiv (of_nat committed) (of_nat (committed + infeasible)))
        /\ analysis !! "success_rate"%string
           = Some (spec_success_rate committed infeasible)
        /\ analysis !! "overall_quality"%string
           = Some (DSSSolution.total_satisfaction solution)).
Proof.
  intros scores committed infeasible.
  destruct (DSSSolution.schedule solution) as [|r rs] eqn:E.
  - eexists. split; [apply analyze_empty_schedule, E |].
    split; [reflexivity | congruence].
  - unfold ExamSchedulingDSS.analyze_schedule_quality. rewrite E.
    subst scores committed infeasible. cbn [map np_min np_max mbind result_bind].
    eexists. split; [reflexivity |]. split; [discriminate |]. intros _.
    unfold Py.dict. cbn [fold_left fst snd].
    repeat split.
Qed.

End Analyzer.

(** C3 (counterexample).  For the solution without any item the analyzer
    returns no success rate at all, where the specification defines 0. *)
Lemma analyze_empty_has_no_success_rate :
  ~ reports_success_rate (H := Sample.sqrt_trunc_impl) Sample.empty_solution.
Proof.
  intros (analysis & Han & Hrate).
  rewrite analyze_empty_schedule in Han by reflexivity.
  injection Han as <-. discriminate Hrate.
Qed.

(** C3: the amended statement at a solution with one committed assignment
    and one infeasible item. *)
Lemma analyze_schedule_quality_metrics_witness :
  exists analysis,
    ExamSchedulingDSS.analyze_schedule_quality (H := Sample.sqrt_trunc_impl)
      (DSSSolution.mk
         [ScheduleResult.mk 1 "Test Student" 1 1 [1; 2; 3] (Fin (3 # 4)) ∅]
         "SAW" (Fin (3 # 4)) ∅ [7]) = Ok analysis
    /\ analysis !! "success_rate"%string = Some (Fin (1 # 2)).
Proof.
  destruct (analyze_schedule_quality_metrics (H := Sample.sqrt_trunc_impl)
    (DSSSolution.mk
         [ScheduleResult.mk 1 "Test Student" 1 1 [1; 2; 3] (Fin (3 # 4)) ∅]
         "SAW" (Fin (3 # 4)) ∅ [7])) as (analysis & Han & _ & Hm).
  exists analysis. split; [exact Han |].
  destruct (Hm ltac:(discriminate)) as (_ & _ & _ & _ & _ & _ & Hrate & _).
  exact Hrate.
Defined.

(** ** Arrays: columns and their reassembly *)

Lemma length_column j (M : matrix) : length (column j M) = length M.
Proof. unfold column. apply length_map. Qed.

Lemma map_nth_seq {A} (l : list A) (d : A) :
  map (fun i => nth i l d) (seq 0 (length l)) = l.
Proof.
  induction l as [|x l IH]; [reflexivity |].
  simpl. f_equal. rewrite <- seq_shift, map_map. exact IH.
Qed.

Lemma column_from_columns (k j : nat) (cols : list (list num)) (col : list num) :
  cols !! j = Some col -> length col = k ->
  column j (from_columns k cols) = col.
Proof.
  intros Hj Hk. unfold column, from_columns. rewrite map_map.
  transitivity (map (fun i => nth i col zero) (seq 0 k));
    [| rewrite <- Hk; apply map_nth_seq].
  apply map_ext. intros i.
  rewrite (nth_lookup _ j), list_lookup_fmap, Hj. reflexivity.
Qed.

Lemma lookup_columns (M : matrix) (j : nat) :
  (j < ncols M)%nat -> columns M !! j = Some (column j M).
Proof.
  intros Hj. unfold columns. rewrite list_lookup_fmap, lookup_seq_lt by exact Hj.
  reflexivity.
Qed.

Lemma length_columns (M : matrix) : length (columns M) = ncols M.
Proof. unfold columns. rewrite length_map. apply length_seq. Qed.

Lemma columns_nonempty (M : matrix) :
  M <> [] -> Forall (fun col => col <> []) (columns M).
Proof.
  intros HM. apply Forall_forall. intros col Hcol.
  apply list_elem_of_fmap in Hcol as (j & -> & _).
  intros E. apply (f_equal length) in E. rewrite length_column in E.
  destruct M; [congruence | discriminate].
Qed.

(** ** The SAW normalizer (C7) *)

Lemma np_max_ok (l : list num) : l <> [] -> exists m, np_max l = Ok m.
Proof. destruct l; [congruence | eexists; reflexivity]. Qed.

Lemma np_min_ok (l : list num) : l <> [] -> exists m, np_min l = Ok m.
Proof. destruct l; [congruence | eexists; reflexivity]. Qed.

Lemma normalize_column_ok (t : CriteriaType) (col : list num) :
  col <> [] ->
  exists col', SAWMethod.normalize_column t col = Ok col'
               /\ length col' = length col.
Proof.
  intros Hne. destruct (np_max_ok col Hne) as [mx Hmx].
  destruct (np_min_ok col Hne) as [mn Hmn].
  unfold SAWMethod.normalize_column. destruct t; rewrite ?Hmx, ?Hmn; simpl.
  - eexists. split; [reflexivity |]. destruct (fneb mx zero); [apply length_map | reflexivity].
  - destruct (np_all_nonzero col); simpl;
      (eexists; split; [reflexivity | apply length_map]).
Qed.

Lemma zero_columns_length (cols : list (list num)) :
  Forall2 (fun col col' : list num => length col' = length col)
          cols (map (map (fun _ => zero)) cols).
Proof.
  induction cols as [|col cols IH]; simpl; constructor; [apply length_map | exact IH].
Qed.

Lemma normalize_columns_ok (cols : list (list num)) (types : list CriteriaType) :
  Forall (fun col => col <> []) cols ->
  (length types <= length cols)%nat ->
  exists cols',
    SAWMethod.normalize_columns cols types = Ok cols'
    /\ Forall2 (fun col col' => length col' = length col) cols cols'
    /\ forall j t col, types !! j = Some t -> cols !! j = Some col ->
         exists col', cols' !! j = Some col'
                      /\ SAWMethod.normalize_column t col = Ok col'.
Proof.
  revert cols. induction types as [|t types IH]; intros cols Hne Hlen.
  - destruct cols; simpl; (eexists; split; [reflexivity |]); (split;
      [| intros j t col Hj; destruct j; discriminate Hj]).
    + constructor.
    + apply (zero_columns_length (l :: cols)).
  - destruct cols as [|col cols]; [simpl in Hlen; lia |].
    apply Forall_cons in Hne as [Hcol Hne].
    destruct (normalize_column_ok t col Hcol) as (col' & Hcol' & Hl).
    destruct (IH cols Hne ltac:(simpl in Hlen; lia)) as (cols' & Hcols' & Hl' & Hspec).
    exists (col' :: cols'). simpl. rewrite Hcol'. simpl. rewrite Hcols'. simpl.
    split; [reflexivity |]. split; [constructor; assumption |].
    intros [|j] t0 col0 Ht Hc; simpl in *.
    + injection Ht as <-. injection Hc as <-. eauto.
    + eauto.
Qed.

(** The maximum of a column is one of its entries. *)
Lemma fold_np_maximum_elem (l : list num) (x : num) :
  fold_left np_maximum l x ∈ x :: l.
Proof.
  revert x. induction l as [|y l IH]; intros x; simpl; [left |].
  specialize (IH (np_maximum x y)).
  apply elem_of_cons in IH as [E | IH].
  - rewrite E. unfold np_maximum.
    destruct (is_nan x); [left |].
    destruct (is_nan y); [right; left |].
    destruct (fltb x y); [right; left | left].
  - right. right. exact IH.
Qed.

Lemma fleb_zero_cases (v : num) :
  fleb zero v = true -> v = PInf \/ exists q, v = Fin q /\ (0 <= q)%Q.
Proof.
  destruct v as [q| | |]; try discriminate; [| left; reflexivity].
  intros Hq. right. exists q. split; [reflexivity |].
  unfold fleb, fltb, feqb, zero in Hq.
  apply orb_true_iff in Hq as [Hq | Hq].
  - apply Qltb_lt in Hq. apply Qlt_le_weak, Hq.
  - apply Qeq_bool_iff in Hq. rewrite Hq. apply Qle_refl.
Qed.

(** On non-negative entries the running maximum dominates every entry. *)
Lemma fold_np_maximum_zero (l : list num) (x : num) :
  Forall (fun v => fleb zero v = true) (x :: l) ->
  feqb (fold_left np_maximum l x) zero = true ->
  Forall (fun v => feqb v zero = true) (x :: l).
Proof.
  revert x. induction l as [|y l IH]; intros x Hnn Hz; simpl in Hz.
  - constructor; [exact Hz | constructor].
  - apply Forall_cons in Hnn as [Hx Hnn]. apply Forall_cons in Hnn as [Hy Hnn].
    assert (Hm : fleb zero (np_maximum x y) = true).
    { unfold np_maximum. destruct (is_nan x); [exact Hx |].
      destruct (is_nan y); [exact Hy |]. destruct (fltb x y); assumption. }
    specialize (IH (np_maximum x y) (Forall_cons_2 _ _ _ Hm Hnn) Hz).
    apply Forall_cons in IH as [Hmz Hl].
    apply fleb_zero_cases in Hx as [-> | (qx & -> & Hqx)];
      apply fleb_zero_cases in Hy as [-> | (qy & -> & Hqy)];
      unfold np_maximum in Hmz; simpl in Hmz; try discriminate Hmz.
    assert (qx == 0 /\ qy == 0)%Q as [Ex Ey].
    { destruct (Qltb qx qy) eqn:Hlt; simpl in Hmz; apply Qeq_bool_iff in Hmz.
      - apply Qltb_lt in Hlt. split; lra.
      - apply Qltb_ge in Hlt. split; lra. }
    repeat constructor; simpl; try (apply Qeq_bool_iff; assumption).
    exact Hl.
Qed.

(** The normalizer on arrays of floats.  On a 2-D float64 array with at
    least one row and a type for each of its first columns, the
    normalizer returns an array in which a cost column
    is (column minimum / entry) when every entry is nonzero and
    1 - entry / (column maximum) otherwise, and a benefit column is
    entry / (column maximum) when that maximum is nonzero, an all-zero
    benefit column being returned unchanged; on the non-negative entries
    of the data model a benefit column is of one of these two kinds. *)
Theorem saw_normalize_matrix_by_column (M : matrix) (types : list CriteriaType) :
  M <> [] -> (length types <= ncols M)%nat ->
  exists N,
    SAWMethod.normalize_matrix M types = Ok N
    /\ forall j t, types !! j = Some t ->
       let col := column j M in
       match t with
       | COST =>
           exists min_val, np_min col = Ok min_val
           /\ (np_all_nonzero col = true ->
               column j N = map (fun v => fdiv min_val v) col)
           /\ (np_all_nonzero col = false ->
               exists max_val, np_max col = Ok max_val
               /\ column j N = map (fun v => fsub one (fdiv v max_val)) col)
       | BENEFIT =>
           exists max_val, np_max col = Ok max_val
           /\ (fneb max_val zero = true ->
               column j N = map (fun v => fdiv v max_val) col)
           /\ (Forall (fun v => feqb v zero = true) col -> column j N = col)
           /\ (Forall (fun v => fleb zero v = true) col ->
               fneb max_val zero = true \/ Forall (fun v => feqb v zero = true) col)
       end.
Proof.
  intros HM Hlen.
  destruct (normalize_columns_ok (columns M) types (columns_nonempty M HM)
              ltac:(rewrite length_columns; exact Hlen))
    as (cols' & Hcols' & Hl & Hspec).
  exists (from_columns (length M) cols').
  unfold SAWMethod.normalize_matrix. rewrite Hcols'. split; [reflexivity |].
  intros j t Ht. set (col := column j M).
  assert (Hj : (j < ncols M)%nat).
  { apply lookup_lt_Some in Ht. lia. }
  destruct (Hspec j t col Ht (lookup_columns M j Hj)) as (col' & Hcol' & Hnorm).
  assert (Hk : length col' = length M).
  { destruct (normalize_column_ok t col) as (c2 & Hc2 & Hlen2).
    - intros E. apply (f_equal length) in E. subst col.
      rewrite length_column in E. destruct M; [congruence | discriminate].
    - rewrite Hnorm in Hc2. injection Hc2 as <-. rewrite Hlen2. apply length_column. }
  rewrite (column_from_columns _ _ _ _ Hcol' Hk).
  assert (Hne : col <> []).
  { intros E. apply (f_equal length) in E. subst col.
    rewrite length_column in E. destruct M; [congruence | discriminate]. }
  destruct (np_max_ok col Hne) as [mx Hmx]. destruct (np_min_ok col Hne) as [mn Hmn].
  unfold SAWMethod.normalize_column in Hnorm. destruct t.
  - rewrite Hmx in Hnorm. simpl in Hnorm. injection Hnorm as <-.
    exists mx. split; [exact Hmx |].
    assert (Hzero : Forall (fun v => feqb v zero = true) col -> fneb mx zero = false).
    { intros Hz. destruct col as [|x l]; [congruence |].
      simpl in Hmx. injection Hmx as <-. unfold fneb. apply negb_false_iff.
      pose proof (fold_np_maximum_elem l x) as Hin.
      rewrite Forall_forall in Hz. apply Hz, Hin. }
    split; [intros ->; reflexivity |].
    split; [intros Hz; rewrite (Hzero Hz); reflexivity |].
    intros Hnn. destruct (fneb mx zero) eqn:Hm; [left; reflexivity | right].
    destruct col as [|x l]; [congruence |].
    simpl in Hmx. injection Hmx as <-.
    apply fold_np_maximum_zero; [exact Hnn |].
    unfold fneb in Hm. apply negb_false_iff, Hm.
  - rewrite Hmn in Hnorm. simpl in Hnorm. exists mn. split; [exact Hmn |].
    destruct (np_all_nonzero col).
    + injection Hnorm as <-. split; [reflexivity | discriminate].
    + rewrite Hmx in Hnorm. simpl in Hnorm. injection Hnorm as <-.
      split; [discriminate |]. intros _. exists mx. split; [exact Hmx | reflexivity].
Qed.

(** At the decision matrix of the test suite, an array of floats: the
    cost column [2, 4, 1] has no zero and becomes [1/2, 1/4, 1]. *)
Lemma saw_normalize_matrix_by_column_witness :
  exists N,
    SAWMethod.normalize_matrix Sample.decision_matrix Sample.criteria_types = Ok N
    /\ column 2 N = [Fin (1 # 2); Fin (1 # 4); Fin 1].
Proof.
  destruct (saw_normalize_matrix_by_column Sample.decision_matrix
              Sample.criteria_types ltac:(discriminate) ltac:(simpl; lia))
    as (N & HN & Hcols).
  exists N. split; [exact HN |].
  destruct (Hcols 2%nat COST eq_refl) as (min_val & Hmin & Hnonzero & _).
  vm_compute in Hmin. injection Hmin as <-.
  rewrite Hnonzero; reflexivity.
Defined.

(** C7 (the code at the failing input).  On the int64 array
    [[1, 2], [3, 4]] with a benefit and a cost column the quotients are
    1/3, 1 and 1, 1/2, but [normalized_matrix] has the dtype of the input
    and the assignment to its columns drops the fractions: the result is
    [[0, 1], [1, 0]], whatever the platform makes of an invalid cast.
    The same entries as floats are normalized as the claim says. *)
Theorem saw_normalize_matrix_truncates_int64 (invalid : Z) :
  SAWMethod.Int64.normalize_matrix invalid [[1; 2]; [3; 4]] [BENEFIT; COST]
  = Ok [[0; 1]; [1; 0]]
  /\ SAWMethod.normalize_matrix [[Fin 1; Fin 2]; [Fin 3; Fin 4]] [BENEFIT; COST]
     = Ok [[Fin (1 # 3); Fin 1]; [Fin 1; Fin (1 # 2)]].
Proof. split; reflexivity. Qed.

(** ** Python lists: sorting, slicing, dictionaries *)

Lemma insert_desc_perm {A} (key : A -> num) (x : A) (l : list A) :
  Py.insert_desc key x l ≡ₚ x :: l.
Proof.
  induction l as [|y l IH]; simpl; [reflexivity |].
  destruct (fltb (key x) (key y)); [| reflexivity].
  rewrite IH. apply Permutation_swap.
Qed.

Lemma sorted_desc_perm {A} (key : A -> num) (l : list A) :
  Py.sorted_desc key l ≡ₚ l.
Proof.
  induction l as [|x l IH]; simpl; [reflexivity |].
  rewrite insert_desc_perm, IH. reflexivity.
Qed.

Lemma slice_to_sublist {A} (k : Z) (l : list A) : sublist (Py.slice_to k l) l.
Proof. unfold Py.slice_to. destruct (0 <=? k); apply sublist_take. Qed.

Lemma int_in_elem (x : Z) (l : list Z) : Py.int_in x l = true <-> x ∈ l.
Proof.
  unfold Py.int_in. rewrite existsb_exists. split.
  - intros (y & Hy & E). apply Z.eqb_eq in E. subst. apply list_elem_of_In, Hy.
  - intros Hx. exists x. split; [apply list_elem_of_In, Hx | apply Z.eqb_refl].
Qed.

(** A binding found in a dictionary is one of the pairs it was built from. *)
Lemma dict_lookup_elem `{Countable K} {V} (pairs : list (K * V)) (k : K) (v : V) :
  Py.dict pairs !! k = Some v -> (k, v) ∈ pairs.
Proof.
  unfold Py.dict.
  assert (G : forall (m : gmap K V),
             fold_left (fun m kv => <[kv.1 := kv.2]> m) pairs m !! k = Some v ->
             m !! k = Some v \/ (k, v) ∈ pairs).
  { induction pairs as [|[k' v'] pairs IH]; intros m Hm; simpl in Hm; [left; exact Hm |].
    destruct (IH _ Hm) as [Hin | Hin]; [| right; right; exact Hin].
    simpl in Hin. rewrite lookup_insert in Hin. case_decide.
    - injection Hin as <-. subst k'. right. left.
    - left. exact Hin. }
  intros Hk. destruct (G ∅ Hk) as [Hin | Hin]; [| exact Hin].
  rewrite lookup_empty in Hin. discriminate.
Qed.

Lemma fst_zip_sublist {A B} (l : list A) (k : list B) :
  sublist (map fst (zip l k)) l.
Proof.
  revert k. induction l as [|x l IH]; intros [|y k]; simpl;
    try apply sublist_nil_l.
  apply sublist_skip, IH.
Qed.

Lemma Forall_sublist {A} (P : A -> Prop) (l k : list A) :
  sublist l k -> Forall P k -> Forall P l.
Proof.
  intros Hs Hk. rewrite Forall_forall in *. intros x Hx.
  apply Hk. apply (elem_of_sublist _ _ _ Hx Hs).
Qed.

Lemma filter_sublist {A} (f : A -> bool) (l : list A) : sublist (List.filter f l) l.
Proof.
  induction l as [|x l IH]; simpl; [constructor |].
  destruct (f x); [apply sublist_skip | apply sublist_cons]; exact IH.
Qed.

(** [next(e for e in l if f(e))] together with the elements that fail
    [f] is a selection from [l] without repetition. *)
Lemma find_filter_submseteq {A} (f : A -> bool) (l : list A) (x : A) :
  List.find f l = Some x ->
  f x = true /\ x :: List.filter (fun y => negb (f y)) l ⊆+ l.
Proof.
  induction l as [|y l IH]; simpl; [discriminate |].
  destruct (f y) eqn:Hy; simpl.
  - intros [= <-]. split; [exact Hy |].
    apply submseteq_skip, sublist_submseteq, filter_sublist.
  - intros Hx. destruct (IH Hx) as [Hfx Hsub]. split; [exact Hfx |].
    rewrite Permutation_swap. apply submseteq_skip, Hsub.
Qed.

(** ** Loops that may raise *)

Lemma foldM_invariant {A B} (P : A -> Prop) (f : A -> B -> result A)
    (l : list B) (acc r : A) :
  (forall a x a', x ∈ l -> P a -> f a x = Ok a' -> P a') ->
  P acc -> foldM f acc l = Ok r -> P r.
Proof.
  revert acc. induction l as [|x l IH]; intros acc Hstep Hacc Hr; simpl in Hr.
  - injection Hr as <-. exact Hacc.
  - destruct (f acc x) as [a'|e] eqn:Hf; simpl in Hr; [| discriminate].
    apply (IH a'); [| | exact Hr].
    + intros a y a'' Hy. apply Hstep. right. exact Hy.
    + apply (Hstep acc x); [left | exact Hacc | exact Hf].
Qed.

Lemma fold_left_invariant {A B} (P : A -> Prop) (f : A -> B -> A)
    (l : list B) (acc : A) :
  (forall a x, x ∈ l -> P a -> P (f a x)) -> P acc -> P (fold_left f l acc).
Proof.
  revert acc. induction l as [|x l IH]; intros acc Hstep Hacc; simpl; [exact Hacc |].
  apply IH.
  - intros a y Hy. apply Hstep. right. exact Hy.
  - apply Hstep; [left | exact Hacc].
Qed.

Lemma run_sessions_invariant (P : ExamSchedulingDSS.run_state -> Prop)
    (step : ExamSchedulingDSS.run_state -> ExamSession.t
            -> result ExamSchedulingDSS.run_state)
    (sessions : list ExamSession.t) (st st' : ExamSchedulingDSS.run_state)
    (raised : option exn) :
  (forall s x s', x ∈ sessions -> P s -> step s x = Ok s' -> P s') ->
  P st -> ExamSchedulingDSS.run_sessions step st sessions = (st', raised) -> P st'.
Proof.
  revert st. induction sessions as [|x l IH]; intros st Hstep Hst Hrun; simpl in Hrun.
  - injection Hrun as <- _. exact Hst.
  - destruct (step st x) as [s'|e] eqn:Hs.
    + apply (IH s'); [| | exact Hrun].
      * intros s y s'' Hy. apply Hstep. right. exact Hy.
      * apply (Hstep st x); [left | exact Hst | exact Hs].
    + injection Hrun as <- _. exact Hst.
Qed.

(** The state in which the loop leaves with an exception satisfies every
    invariant of the steps, and it is the step from that state that raised. *)
Lemma run_sessions_raise (P : ExamSchedulingDSS.run_state -> Prop)
    (step : ExamSchedulingDSS.run_state -> ExamSession.t
            -> result ExamSchedulingDSS.run_state)
    (sessions : list ExamSession.t) (st st' : ExamSchedulingDSS.run_state) (e : exn) :
  (forall s x s', P s -> step s x = Ok s' -> P s') ->
  P st -> ExamSchedulingDSS.run_sessions step st sessions = (st', Some e) ->
  exists x, x ∈ sessions /\ step st' x = Raise e.
Proof.
  intros Hstep. revert st. induction sessions as [|x l IH]; intros st Hst; simpl.
  - discriminate.
  - destruct (step st x) as [s'|e'] eqn:Hs.
    + intros Hrun. destruct (IH s' (Hstep _ _ _ Hst Hs) Hrun) as (y & Hy & Hr).
      exists y. split; [right; exact Hy | exact Hr].
    + intros [= <- <-]. exists x. split; [left | exact Hs].
Qed.

Lemma dict_lookup_None `{Countable K} {V} (pairs : list (K * V)) (k : K) :
  Forall (fun kv => kv.1 <> k) pairs -> Py.dict pairs !! k = None.
Proof.
  unfold Py.dict. generalize (∅ : gmap K V) (lookup_empty (M := gmap K) (A := V) k).
  induction pairs as [|[k' v'] pairs IH]; intros m Hm Hall; simpl; [exact Hm |].
  apply Forall_cons in Hall as [Hk Hall]. apply IH; [| exact Hall].
  simpl in *. rewrite lookup_insert_ne by exact Hk. exact Hm.
Qed.


(** ** Examiner objects and their load counter *)

Lemma with_workload_same (e : Examiner.t) :
  Examiner.with_workload (Examiner.workload e) e = e.
Proof. destruct e; reflexivity. Qed.

Lemma submseteq_NoDup {A} (l k : list A) : l ⊆+ k -> NoDup k -> NoDup l.
Proof.
  intros Hsub Hk. apply submseteq_sublist_r in Hsub as (l' & Hp & Hs).
  rewrite Hp. apply (sublist_NoDup _ _ Hk Hs).
Qed.

Lemma increment_workload_map (x : Z) (es : list Examiner.t) :
  NoDup (map Examiner.id es) ->
  ExamSchedulingDSS.increment_workload x es
  = map (fun e => if Examiner.id e =? x then Examiner.incr_workload e else e) es.
Proof.
  induction es as [|e es IH]; simpl; [reflexivity |].
  intros Hnd. apply NoDup_cons in Hnd as [Hnot Hnd].
  destruct (Examiner.id e =? x) eqn:Hx.
  - f_equal. apply Z.eqb_eq in Hx. subst x.
    clear IH Hnd. induction es as [|e' es IH]; simpl; [reflexivity |].
    apply not_elem_of_cons in Hnot as [Hne Hnot].
    destruct (Examiner.id e' =? Examiner.id e) eqn:E;
      [apply Z.eqb_eq in E; congruence |].
    f_equal. apply IH, Hnot.
  - f_equal. apply IH, Hnd.
Qed.

Lemma update_workloads_map (ids : list Z) (es : list Examiner.t) :
  NoDup (map Examiner.id es) -> NoDup ids ->
  ExamSchedulingDSS.update_workloads ids es
  = map (fun e => if Py.int_in (Examiner.id e) ids
                  then Examiner.incr_workload e else e) es.
Proof.
  unfold ExamSchedulingDSS.update_workloads.
  revert es. induction ids as [|x ids IH]; intros es Hes Hids; simpl.
  - symmetry. apply map_id.
  - apply NoDup_cons in Hids as [Hx Hids].
    rewrite (increment_workload_map x es Hes).
    rewrite IH; [| | exact Hids].
    + rewrite map_map. apply map_ext. intros e.
      destruct (Examiner.id e =? x) eqn:E; simpl; [| reflexivity].
      apply Z.eqb_eq in E. subst x.
      destruct (Py.int_in (Examiner.id e) ids) eqn:Hin; [| reflexivity].
      apply int_in_elem in Hin. contradiction.
    + rewrite map_map. erewrite map_ext; [exact Hes |].
      intros e. simpl. destruct (Examiner.id e =? x); reflexivity.
Qed.

(** Two examiner objects with one id: the loop raises the counter of the
    first one twice and leaves the second one alone. *)
Example update_workloads_duplicate_ids :
  map Examiner.workload
      (ExamSchedulingDSS.update_workloads [2; 2]
         [Examiner.mk 2 "B" "Dr." [] 0 0 (Fin 3) (Fin 3) [1];
          Examiner.mk 2 "C" "Dr." [] 0 0 (Fin 3) (Fin 3) [1]])
  = [2; 0].
Proof. reflexivity. Qed.

(** The loop that raises a load counter leaves every other field of every
    examiner as it is, whatever the ids. *)
Lemma increment_workload_frame (x : Z) (es : list Examiner.t) :
  map (Examiner.with_workload 0) (ExamSchedulingDSS.increment_workload x es)
  = map (Examiner.with_workload 0) es.
Proof.
  induction es as [|e es IH]; simpl; [reflexivity |].
  destruct (Examiner.id e =? x); simpl; [reflexivity |]. f_equal. exact IH.
Qed.

Lemma update_workloads_frame (ids : list Z) (es : list Examiner.t) :
  map (Examiner.with_workload 0) (ExamSchedulingDSS.update_workloads ids es)
  = map (Examiner.with_workload 0) es.
Proof.
  unfold ExamSchedulingDSS.update_workloads. revert es.
  induction ids as [|x ids IH]; intros es; simpl; [reflexivity |].
  rewrite IH. apply increment_workload_frame.
Qed.

Lemma committed_count_snoc (x : Z) (schedule : list ScheduleResult.t) r :
  committed_count x (schedule ++ [r])
  = committed_count x schedule
    + (if Py.int_in x (ScheduleResult.assigned_examiners r) then 1 else 0).
Proof.
  unfold committed_count. rewrite List.filter_app, length_app. simpl.
  destruct (Py.int_in x _); simpl; lia.
Qed.

Lemma committed_count_nonneg (x : Z) (schedule : list ScheduleResult.t) :
  0 <= committed_count x schedule.
Proof. unfold committed_count. lia. Qed.

Lemma map_id_loaded schedule (es : list Examiner.t) :
  map Examiner.id (map (loaded schedule) es) = map Examiner.id es.
Proof. rewrite map_map. reflexivity. Qed.

(** ** Totality of the scorers on well-shaped input *)

Lemma mapM_result_ok {A B} (f : A -> result B) (l : list A) :
  Forall (fun x => exists y, f x = Ok y) l ->
  exists ys, mapM_result f l = Ok ys /\ length ys = length l.
Proof.
  induction 1 as [|x l [y Hy] _ (ys & Hys & Hlen)]; simpl.
  - eexists. split; reflexivity.
  - rewrite Hy. simpl. rewrite Hys. simpl. eexists. split; [reflexivity |].
    simpl. congruence.
Qed.

Lemma mapM_result_Forall2 {A B} (P : A -> B -> Prop) (f : A -> result B)
    (l : list A) (ys : list B) :
  (forall x y, x ∈ l -> f x = Ok y -> P x y) ->
  mapM_result f l = Ok ys -> Forall2 P l ys.
Proof.
  revert ys. induction l as [|x l IH]; intros ys Hf; simpl.
  - intros [= <-]. constructor.
  - destruct (f x) as [y|e] eqn:Hy; simpl; [| discriminate].
    destruct (mapM_result f l) as [ys'|e] eqn:Hys; simpl; [| discriminate].
    intros [= <-]. constructor; [apply Hf; [left | exact Hy] |].
    apply IH; [| reflexivity]. intros x' y' Hx'. apply Hf. right. exact Hx'.
Qed.

(** The first error raised by a comprehension is raised by one of its
    elements. *)
Lemma mapM_result_raise {A B} (f : A -> result B) (l : list A) (e : exn) :
  mapM_result f l = Raise e -> exists x, x ∈ l /\ f x = Raise e.
Proof.
  induction l as [|x l IH]; simpl; [discriminate |].
  destruct (f x) as [y|e'] eqn:Hy; simpl.
  - destruct (mapM_result f l) as [ys|e'] eqn:Hys; simpl; [discriminate |].
    intros [= <-]. destruct (IH eq_refl) as (x' & Hx' & Hf).
    exists x'. split; [right; exact Hx' | exact Hf].
  - intros [= <-]. exists x. split; [left | exact Hy].
Qed.

Lemma is_2d_rows (M : matrix) (c : nat) :
  M <> [] -> Forall (fun row => length row = c) M ->
  is_2d M = true /\ ncols M = c.
Proof.
  destruct M as [|row M]; [congruence |]. intros _ Hall.
  apply Forall_cons in Hall as [Hrow Hall]. simpl. split; [| exact Hrow].
  apply forallb_forall. intros r Hr. apply Nat.eqb_eq.
  rewrite Forall_forall in Hall. rewrite Hrow. apply Hall, list_elem_of_In, Hr.
Qed.

Lemma length_from_columns_rows (k : nat) (cols : list (list num)) :
  Forall (fun row => length row = length cols) (from_columns k cols)
  /\ length (from_columns k cols) = k.
Proof.
  unfold from_columns. split; [| rewrite length_map; apply length_seq].
  apply Forall_forall. intros row Hrow.
  apply list_elem_of_fmap in Hrow as (i & -> & _). apply length_map.
Qed.

Lemma saw_calculate_scores_ok (M : matrix) (weights : list num)
    (types : list CriteriaType) :
  M <> [] -> length weights = ncols M -> length types = ncols M ->
  exists scores, SAWMethod.calculate_scores M weights types = Ok scores
                 /\ length scores = length M.
Proof.
  intros HM Hw Ht.
  destruct (normalize_columns_ok (columns M) types (columns_nonempty M HM)
              ltac:(rewrite length_columns; lia)) as (cols' & Hcols' & Hl & _).
  unfold SAWMethod.calculate_scores, SAWMethod.normalize_matrix.
  rewrite Hcols'. simpl. unfold np_dot.
  destruct (length_from_columns_rows (length M) cols') as [Hrows Hk].
  assert (Hc : length cols' = length weights).
  { apply Forall2_length in Hl. rewrite <- Hl, length_columns. lia. }
  rewrite (proj2 (forallb_forall _ _)).
  - eexists. split; [reflexivity |]. rewrite length_map. exact Hk.
  - intros row Hrow. apply Nat.eqb_eq. rewrite Forall_forall in Hrows.
    rewrite <- Hc. apply Hrows, list_elem_of_In, Hrow.
Qed.

Section TopsisTotal.
Context `{NpSqrt}.

Lemma topsis_calculate_scores_ok (M : matrix) (weights : list num)
    (types : list CriteriaType) :
  M <> [] -> length weights = ncols M -> length types = ncols M ->
  exists scores, TOPSISMethod.calculate_scores M weights types = Ok scores
                 /\ length scores = length M.
Proof.
  intros HM Hw Ht. unfold TOPSISMethod.calculate_scores.
  rewrite Hw, Ht, Nat.eqb_refl. simpl.
  set (W := map _ (TOPSISMethod.normalize_matrix M)).
  assert (HW : length W = length M).
  { unfold W, TOPSISMethod.normalize_matrix. rewrite !length_map. reflexivity. }
  assert (Hcols : Forall (fun tc : CriteriaType * list num => tc.2 <> [])
                         (zip types (columns W))).
  { apply Forall_forall. intros [t col] Hin.
    apply elem_of_zip_r in Hin. simpl.
    apply list_elem_of_fmap in Hin as (j & -> & _).
    intros E. apply (f_equal length) in E. rewrite length_column, HW in E.
    destruct M; [congruence | discriminate]. }
  destruct (mapM_result_ok
              (fun tc : CriteriaType * list num =>
                 match tc.1 with BENEFIT => np_max tc.2 | COST => np_min tc.2 end)
              (zip types (columns W))) as (ideal & -> & _).
  { eapply Forall_impl; [exact Hcols |]. intros [[] col] Hne; simpl in *;
      [apply np_max_ok | apply np_min_ok]; exact Hne. }
  destruct (mapM_result_ok
              (fun tc : CriteriaType * list num =>
                 match tc.1 with BENEFIT => np_min tc.2 | COST => np_max tc.2 end)
              (zip types (columns W))) as (negative & -> & _).
  { eapply Forall_impl; [exact Hcols |]. intros [[] col] Hne; simpl in *;
      [apply np_min_ok | apply np_max_ok]; exact Hne. }
  simpl. eexists. split; [reflexivity |]. rewrite length_map. exact HW.
Qed.

(** The engine on an array with one column per criterion: it returns one
    score per row under a supported method and raises the
    unsupported-method error otherwise. *)
Lemma evaluate_alternatives_well_shaped (M : matrix) (criteria : list Criteria.t)
    (method : string) :
  M <> [] -> Forall (fun row => length row = length criteria) M ->
  if supported method
  then exists scores weights,
         MCDMEngine.evaluate_alternatives M criteria method = Ok (scores, weights)
         /\ length scores = length M
  else MCDMEngine.evaluate_alternatives M criteria method = Raise UnsupportedMethod.
Proof.
  intros HM Hrows. destruct (is_2d_rows M _ HM Hrows) as [H2d Hc].
  unfold MCDMEngine.evaluate_alternatives, np_array, supported. rewrite H2d. simpl.
  destruct (String.eqb (Py.upper method) "SAW"); simpl.
  - destruct (saw_calculate_scores_ok M
                (map (fun w => fdiv w (np_sum (map Criteria.weight criteria)))
                     (map Criteria.weight criteria))
                (map Criteria.type criteria) HM) as (scores & -> & Hlen).
    + rewrite !length_map. congruence.
    + rewrite length_map. congruence.
    + simpl. eauto.
  - destruct (String.eqb (Py.upper method) "TOPSIS"); simpl; [| reflexivity].
    destruct (topsis_calculate_scores_ok M
                (map (fun w => fdiv w (np_sum (map Criteria.weight criteria)))
                     (map Criteria.weight criteria))
                (map Criteria.type criteria) HM) as (scores & -> & Hlen).
    + rewrite !length_map. congruence.
    + rewrite length_map. congruence.
    + simpl. eauto.
Qed.

End TopsisTotal.

(** ** Validation of examiner evaluations *)

Lemma fleb_fin (a b : Q) : fleb (Fin a) (Fin b) = true <-> (a <= b)%Q.
Proof.
  unfold fleb, fltb, feqb. rewrite orb_true_iff, Qltb_lt, Qeq_bool_iff. split.
  - intros [Hlt | Heq]; [apply Qlt_le_weak, Hlt | rewrite Heq; apply Qle_refl].
  - intros Hle. apply Qle_lt_or_eq in Hle. exact Hle.
Qed.

Lemma in_unit_fin (q : Q) :
  (0 <= q)%Q -> (q <= 1)%Q -> ExaminerEvaluation.in_unit (Fin q) = true.
Proof.
  intros H0 H1. unfold ExaminerEvaluation.in_unit, zero, one.
  apply andb_true_iff. split; apply fleb_fin; assumption.
Qed.

Lemma fdiv_of_Z (a b : Z) :
  b <> 0 -> fdiv (of_Z a) (of_Z b) = Fin (Qred (inject_Z a / inject_Z b)).
Proof.
  intros Hb. unfold fdiv, of_Z.
  rewrite (proj2 (Qeq_bool_false _ _)); [reflexivity |].
  unfold Qeq. simpl. lia.
Qed.

Lemma ratio_le_one (a b : Z) :
  a <= b -> 0 < b -> (inject_Z a / inject_Z b <= 1)%Q.
Proof.
  intros Ha Hb. apply Qle_shift_div_r.
  - change (inject_Z 0 < inject_Z b)%Q. rewrite <- Zlt_Qlt. exact Hb.
  - rewrite Qmult_1_l, <- Zle_Qle. exact Ha.
Qed.

Lemma ratio_in_unit (a b : Z) :
  0 <= a <= b -> 0 < b -> (0 <= inject_Z a / inject_Z b <= 1)%Q.
Proof.
  intros Ha Hb. split; [| apply ratio_le_one; lia].
  apply Qle_shift_div_l.
  - change (inject_Z 0 < inject_Z b)%Q. rewrite <- Zlt_Qlt. exact Hb.
  - rewrite Qmult_0_l. change (inject_Z 0 <= inject_Z a)%Q.
    rewrite <- Zle_Qle. exact (proj1 Ha).
Qed.

Lemma calculate_expertise_match_unit examiner student :
  exists q, ExamSchedulingDSS.calculate_expertise_match examiner student = Fin q
            /\ (0 <= q <= 1)%Q.
Proof.
  unfold ExamSchedulingDSS.calculate_expertise_match.
  set (keywords := Py.split _). set (matching := List.filter _ keywords).
  destruct (0 <? length keywords)%nat eqn:Hn.
  - apply Nat.ltb_lt in Hn.
    assert (Hm : (length matching <= length keywords)%nat).
    { apply sublist_length, filter_sublist. }
    unfold of_nat. rewrite fdiv_of_Z by lia.
    destruct (ratio_in_unit (Z.of_nat (length matching)) (Z.of_nat (length keywords)))
      as [H0 H1]; [lia | lia |].
    unfold py_min, one, fltb.
    rewrite (proj2 (Qltb_ge _ _)) by (rewrite Qred_correct; exact H1).
    eexists. split; [reflexivity |]. rewrite Qred_correct. split; assumption.
  - exists 0%Q. split; [reflexivity |]. split; discriminate.
Qed.

(** Integers of magnitude up to [2^64] divide without overflow. *)
Lemma int_truediv_int64 (a b : Z) :
  b <> 0 -> Z.abs a <= 2 ^ 64 ->
  Py.int_truediv a b = Ok (fdiv (of_Z a) (of_Z b)).
Proof.
  intros Hb Ha. unfold Py.int_truediv.
  rewrite (proj2 (Z.eqb_neq b 0) Hb).
  assert (Hbig : 2 ^ 64 < Py.float_overflow) by (vm_compute; reflexivity).
  set (T := Py.float_overflow) in *. set (B := 2 ^ 64) in *.
  rewrite (proj2 (Z.leb_gt _ _)); [reflexivity |]. nia.
Qed.

Lemma int_truediv_overflow (a b : Z) :
  b <> 0 -> Py.float_overflow * Z.abs b <= Z.abs a ->
  Py.int_truediv a b = Raise OverflowError.
Proof.
  intros Hb Ha. unfold Py.int_truediv.
  rewrite (proj2 (Z.eqb_neq b 0) Hb), (proj2 (Z.leb_le _ _) Ha). reflexivity.
Qed.

Lemma int_truediv_ok (a b : Z) :
  b <> 0 -> Z.abs a < Py.float_overflow * Z.abs b ->
  Py.int_truediv a b = Ok (fdiv (of_Z a) (of_Z b)).
Proof.
  intros Hb Ha. unfold Py.int_truediv.
  rewrite (proj2 (Z.eqb_neq b 0) Hb), (proj2 (Z.leb_gt _ _) Ha). reflexivity.
Qed.

Lemma int_truediv_inv (a b : Z) (r : num) :
  Py.int_truediv a b = Ok r -> r = fdiv (of_Z a) (of_Z b).
Proof.
  unfold Py.int_truediv. destruct (b =? 0); [discriminate |].
  destruct (_ <=? _); [discriminate |]. intros [= <-]. reflexivity.
Qed.

Lemma float_overflow_int64 : 2 ^ 64 < Py.float_overflow.
Proof. vm_compute. reflexivity. Qed.

(** The constructor's bounds hold as soon as the load counter is not
    negative; short of the overflow of the division, the only error of an
    evaluation is the validation error. *)
Lemma evaluate_examiner_for_student_returns examiner student timeslot_id :
  0 <= Examiner.workload examiner < 10 + 10 * Py.float_overflow ->
  exists evaluation,
    ExamSchedulingDSS.evaluate_examiner_for_student examiner student timeslot_id
    = Ok evaluation.
Proof.
  intros Hw. unfold ExamSchedulingDSS.evaluate_examiner_for_student,
    ExaminerEvaluation.make.
  pose proof float_overflow_int64 as Hbig.
  rewrite int_truediv_ok by lia.
  cbn [mbind result_bind]. rewrite fdiv_of_Z by lia.
  destruct (calculate_expertise_match_unit examiner student) as (q & -> & H0 & H1).
  rewrite (in_unit_fin q H0 H1). simpl.
  pose proof (ratio_le_one (10 - Examiner.workload examiner) 10
                ltac:(lia) ltac:(lia)) as Hle.
  assert (Hfactor : ExaminerEvaluation.in_unit
            (py_max zero (Fin (Qred (inject_Z (10 - Examiner.workload examiner)
                                     / inject_Z 10)))) = true).
  { unfold py_max. destruct (fltb zero _) eqn:Hpos; [| reflexivity].
    apply in_unit_fin.
    - apply Qlt_le_weak, Qltb_lt, Hpos.
    - rewrite Qred_correct. exact Hle. }
  rewrite Hfactor. simpl.
  destruct (Py.int_in _ _); simpl; eexists; reflexivity.
Qed.

Lemma evaluate_examiner_for_student_ok examiner student timeslot_id :
  0 <= Examiner.workload examiner < 2 ^ 63 ->
  exists evaluation,
    ExamSchedulingDSS.evaluate_examiner_for_student examiner student timeslot_id
    = Ok evaluation.
Proof.
  intros Hw. apply evaluate_examiner_for_student_returns.
  pose proof float_overflow_int64. assert (2 ^ 63 < 2 ^ 64) by reflexivity. lia.
Qed.

(** ** The allocator: one step of the search *)

Section Allocator.
Context `{NpSqrt}.

Import ExamSchedulingDSS.

Lemma evaluate_alternatives_supported M criteria method r :
  MCDMEngine.evaluate_alternatives M criteria method = Ok r ->
  supported method = true.
Proof.
  unfold MCDMEngine.evaluate_alternatives, supported.
  destruct (np_array M); simpl; [| discriminate].
  destruct (String.eqb (Py.upper method) "SAW"); [reflexivity |].
  destruct (String.eqb (Py.upper method) "TOPSIS"); [reflexivity |].
  simpl. discriminate.
Qed.

(** What [select_best_examiners] returns: nothing, or the supervisor
    followed by examiners picked, without repetition, among the others. *)
Lemma select_best_examiners_cases student examiners timeslot_id required_count
    criteria method l :
  select_best_examiners student examiners timeslot_id required_count criteria method
  = Ok l ->
  l = []
  \/ exists supervisor rest,
       l = (supervisor, supervisor_score) :: rest
       /\ Examiner.id supervisor = Student.supervisor_id student
       /\ supervisor :: map fst rest ⊆+ examiners
       /\ supported method = true.
Proof.
  unfold select_best_examiners.
  set (available := List.filter _ examiners).
  destruct (Z.of_nat (length available) <? required_count); [intros [= <-]; left; reflexivity |].
  destruct (List.find _ available) as [supervisor|] eqn:Hfind;
    [| intros [= <-]; left; reflexivity].
  destruct (mapM_result _ _) as [decision_matrix|e]; simpl; [| discriminate].
  destruct decision_matrix as [|row rows]; [intros [= <-]; left; reflexivity |].
  destruct (MCDMEngine.evaluate_alternatives _ _ _) as [[scores weights]|e] eqn:Heval;
    simpl; [| discriminate].
  destruct (evaluate_examiner_for_student supervisor _ _); simpl; [| discriminate].
  intros [= <-]. right. eexists _, _. split; [reflexivity |].
  apply find_filter_submseteq in Hfind as [Hid Hsub].
  split; [apply Z.eqb_eq, Hid |].
  split; [| apply (evaluate_alternatives_supported _ _ _ _ Heval)].
  etransitivity; [| unfold available; apply sublist_submseteq, filter_sublist].
  fold available. etransitivity; [| exact Hsub].
  apply submseteq_skip.
  etransitivity; [apply sublist_submseteq, fmap_sublist, slice_to_sublist |].
  rewrite sorted_desc_perm. apply sublist_submseteq, fst_zip_sublist.
Qed.

Lemma try_room_best_ok st session student method timeslot selected best room best' :
  (selected = []
   \/ exists supervisor rest,
        selected = (supervisor, supervisor_score) :: rest
        /\ Examiner.id supervisor = Student.supervisor_id student
        /\ supervisor :: map fst rest ⊆+ examiners st
        /\ supported method = true) ->
  best_ok st session student method best ->
  try_room (schedule st) session student timeslot selected best room = Ok best' ->
  best_ok st session student method best'.
Proof.
  intros Hsel Hbest. unfold try_room.
  destruct (evaluate_room_suitability room student) as [room_score|e]; simpl;
    [| discriminate].
  destruct (check_scheduling_constraints _ _) eqn:Hcheck; [| intros [= <-]; exact Hbest].
  destruct (fgtb _ _) eqn:Hgt; intros [= <-]; [| exact Hbest].
  destruct Hsel as [-> | (supervisor & rest & -> & Hid & Hsub & Hsup)].
  - exfalso. cbn [map] in Hgt. rewrite np_mean_nil, fmul_nan_l, fadd_nan_l, fgtb_nan_l in Hgt.
    discriminate.
  - intros r [= <-]. split; [| exact Hsup].
    split; [reflexivity |]. split; [exact Hcheck |].
    exists supervisor, (map fst rest). simpl. split; [| split; assumption].
    rewrite map_map. reflexivity.
Qed.

Lemma try_timeslot_best_ok st rooms criteria method session student best timeslot best' :
  best_ok st session student method best ->
  try_timeslot st rooms criteria method session student best timeslot = Ok best' ->
  best_ok st session student method best'.
Proof.
  intros Hbest. unfold try_timeslot.
  destruct (select_best_examiners _ _ _ _ _ _) as [selected|e] eqn:Hsel; simpl;
    [| discriminate].
  apply select_best_examiners_cases in Hsel.
  destruct (_ <? _); [intros [= <-]; exact Hbest |].
  intros Hfold.
  apply (foldM_invariant (best_ok st session student method) _ _ _ _) in Hfold;
    [exact Hfold | | exact Hbest].
  intros b room b' _ Hb Htry. apply (try_room_best_ok _ _ _ _ _ _ _ _ _ Hsel Hb Htry).
Qed.

(** A session is either recorded as infeasible or committed with a
    candidate; nothing is committed under an unsupported method. *)
Lemma process_session_cases student_lookup rooms timeslots criteria method st session st' :
  process_session student_lookup rooms timeslots criteria method st session = Ok st' ->
  st' = record_infeasible st session
  \/ exists student r score,
       student_lookup !! ExamSession.student_id session = Some student
       /\ st' = commit st r score
       /\ candidate st session student r
       /\ supported method = true.
Proof.
  unfold process_session.
  destruct (student_lookup !! _) as [student|] eqn:Hlook;
    [| intros [= <-]; left; reflexivity].
  destruct (foldM _ _ _) as [best|e] eqn:Hfold; simpl; [| discriminate].
  assert (Hbest : best_ok st session student method best).
  { apply (foldM_invariant (best_ok st session student method) _ _ _ _) in Hfold.
    - exact Hfold.
    - intros b t b' _ Hb Ht. apply (try_timeslot_best_ok _ _ _ _ _ _ _ _ _ Hb Ht).
    - intros r Hr. discriminate Hr. }
  destruct best as [[r|] score]; simpl; intros [= <-]; [| left; reflexivity].
  right. destruct (Hbest r eq_refl) as [Hc Hs]. eauto 8.
Qed.

(** *** Which errors a step can raise *)

Lemma mapM_result_Forall {A B} (Q : B -> Prop) (f : A -> result B)
    (l : list A) (ys : list B) :
  (forall x y, x ∈ l -> f x = Ok y -> Q y) -> mapM_result f l = Ok ys -> Forall Q ys.
Proof.
  intros Hf Hm.
  apply (mapM_result_Forall2 (fun _ y => Q y)) in Hm; [| exact Hf].
  clear Hf. induction Hm; constructor; assumption.
Qed.

Lemma foldM_raise {A B} (f : A -> B -> result A) (l : list B) (acc : A) (e : exn) :
  foldM f acc l = Raise e -> exists a x, x ∈ l /\ f a x = Raise e.
Proof.
  revert acc. induction l as [|x l IH]; intros acc; simpl; [discriminate |].
  destruct (f acc x) as [a'|e'] eqn:Hf; simpl.
  - intros Hr. destruct (IH _ Hr) as (a & y & Hy & Hfy).
    exists a, y. split; [right; exact Hy | exact Hfy].
  - intros [= <-]. exists acc, x. split; [left | exact Hf].
Qed.

(** With load counters in range, the selection raises only under an
    unsupported method, and then the unsupported-method error. *)
Lemma select_best_examiners_raise student examiners timeslot_id required_count
    criteria method e :
  Forall (fun x => 0 <= Examiner.workload x < 2 ^ 63) examiners ->
  select_best_examiners student examiners timeslot_id required_count criteria method
  = Raise e ->
  supported method = false /\ e = UnsupportedMethod.
Proof.
  intros Hnn. unfold select_best_examiners.
  set (available := List.filter _ examiners).
  assert (Havail : Forall (fun x => 0 <= Examiner.workload x < 2 ^ 63) available).
  { eapply Forall_sublist; [apply filter_sublist | exact Hnn]. }
  destruct (Z.of_nat (length available) <? required_count); [discriminate |].
  destruct (List.find _ available) as [supervisor|] eqn:Hfind; [| discriminate].
  set (regular := List.filter _ available).
  set (row_of := fun examiner : Examiner.t => _).
  destruct (mapM_result_ok row_of regular) as (decision_matrix & Hm & Hlen).
  { eapply Forall_impl;
      [eapply Forall_sublist; [apply filter_sublist | exact Havail] |].
    intros x Hx. unfold row_of.
    destruct (evaluate_examiner_for_student_ok x student timeslot_id Hx) as [ev ->].
    simpl. eauto. }
  rewrite Hm. simpl.
  destruct decision_matrix as [|row rows]; [discriminate |].
  pose proof (evaluate_alternatives_well_shaped (row :: rows)
                (default default_criteria criteria) method ltac:(discriminate)) as Heval.
  destruct (supported method).
  - destruct Heval as (scores & weights & -> & _).
    { apply (mapM_result_Forall _ row_of regular); [| exact Hm].
      intros x y _. unfold row_of.
      destruct (evaluate_examiner_for_student x student timeslot_id); simpl;
        [| discriminate].
      intros [= <-]. apply length_map. }
    simpl.
    destruct (evaluate_examiner_for_student_ok supervisor student timeslot_id) as [ev ->];
      [| simpl; discriminate].
    apply find_some in Hfind as [Hin _].
    rewrite Forall_forall in Havail.
    apply Havail, list_elem_of_In, Hin.
  - rewrite Heval.
    + simpl. intros [= <-]. split; reflexivity.
    + apply (mapM_result_Forall _ row_of regular); [| exact Hm].
      intros x y _. unfold row_of.
      destruct (evaluate_examiner_for_student x student timeslot_id); simpl;
        [| discriminate].
      intros [= <-]. apply length_map.
Qed.

(** A room whose capacity is a 64-bit integer is evaluated. *)
Lemma evaluate_room_suitability_ok (room : Room.t) (student : Student.t) :
  - 2 ^ 63 <= Room.capacity room < 2 ^ 63 ->
  exists room_score, evaluate_room_suitability room student = Ok room_score.
Proof.
  intros Hcap. unfold evaluate_room_suitability.
  rewrite int_truediv_int64
    by (assert (2 ^ 63 < 2 ^ 64) by reflexivity; lia).
  cbn [mbind result_bind]. eexists. reflexivity.
Qed.

Lemma try_room_ok schedule session student timeslot selected best room :
  - 2 ^ 63 <= Room.capacity room < 2 ^ 63 ->
  exists best', try_room schedule session student timeslot selected best room = Ok best'.
Proof.
  intros Hcap. unfold try_room.
  destruct (evaluate_room_suitability_ok room student Hcap) as [room_score ->].
  cbn [mbind result_bind]. cbv zeta.
  destruct (check_scheduling_constraints _ _); [| eauto].
  destruct (fgtb _ _); eauto.
Qed.

Lemma process_session_raise student_lookup rooms timeslots criteria method st session e :
  Forall (fun x => 0 <= Examiner.workload x < 2 ^ 63) (examiners st) ->
  capacities_in_range rooms ->
  process_session student_lookup rooms timeslots criteria method st session = Raise e ->
  supported method = false /\ e = UnsupportedMethod.
Proof.
  intros Hnn Hrooms. unfold process_session.
  destruct (student_lookup !! _) as [student|]; [| discriminate].
  destruct (foldM _ _ _) as [best|e'] eqn:Hfold; simpl.
  - destruct best.1; discriminate.
  - intros [= <-]. apply foldM_raise in Hfold as (best & timeslot & _ & Hts).
    unfold try_timeslot in Hts.
    destruct (select_best_examiners _ _ _ _ _ _) as [l|e''] eqn:Hsel; simpl in Hts.
    + destruct (_ <? _); [discriminate |].
      apply foldM_raise in Hts as (best' & room & Hroom & Htry).
      unfold capacities_in_range in Hrooms. rewrite Forall_forall in Hrooms.
      destruct (try_room_ok (schedule st) session student timeslot l best' room
                  (Hrooms room Hroom)) as [b Hb].
      congruence.
    + injection Hts as <-.
      apply (select_best_examiners_raise _ _ _ _ _ _ _ Hnn Hsel).
Qed.

Lemma workloads_in_range_bound (n : nat) (es : list Examiner.t) :
  workloads_in_range n es -> Forall (fun x => 0 <= Examiner.workload x < 2 ^ 63) es.
Proof.
  intros Hes. eapply Forall_impl; [exact Hes |].
  intros x [H0 Hn]. split; [exact H0 | lia].
Qed.

Lemma length_increment_workload (x : Z) (es : list Examiner.t) :
  length (increment_workload x es) = length es.
Proof.
  induction es as [|e es IH]; simpl; [reflexivity |].
  destruct (Examiner.id e =? x); simpl; [reflexivity | rewrite IH; reflexivity].
Qed.

Lemma length_update_workloads (ids : list Z) (es : list Examiner.t) :
  length (update_workloads ids es) = length es.
Proof.
  unfold update_workloads. revert es.
  induction ids as [|x ids IH]; intros es; simpl; [reflexivity |].
  rewrite IH. apply length_increment_workload.
Qed.

Lemma increment_workload_slack (x k : Z) (es : list Examiner.t) :
  Forall (fun e => 0 <= Examiner.workload e /\ Examiner.workload e + (k + 1) < 2 ^ 63) es ->
  Forall (fun e => 0 <= Examiner.workload e /\ Examiner.workload e + k < 2 ^ 63)
         (increment_workload x es).
Proof.
  induction 1 as [|e es He Hes IH]; simpl; [constructor |].
  destruct (Examiner.id e =? x); constructor.
  - simpl. lia.
  - eapply Forall_impl; [exact Hes |]. intros y Hy. simpl in Hy. lia.
  - lia.
  - exact IH.
Qed.

Lemma update_workloads_slack (ids : list Z) (k : Z) (es : list Examiner.t) :
  Forall (fun e => 0 <= Examiner.workload e
                   /\ Examiner.workload e + (k + Z.of_nat (length ids)) < 2 ^ 63) es ->
  Forall (fun e => 0 <= Examiner.workload e /\ Examiner.workload e + k < 2 ^ 63)
         (update_workloads ids es).
Proof.
  unfold update_workloads. revert es.
  induction ids as [|x ids IH]; intros es Hes; simpl.
  - eapply Forall_impl; [exact Hes |]. intros y Hy. simpl in Hy. lia.
  - apply IH. apply increment_workload_slack.
    eapply Forall_impl; [exact Hes |]. intros y Hy.
    cbn [length] in Hy. lia.
Qed.

(** A step uses up the allowance of one session. *)
Lemma process_session_in_range student_lookup rooms timeslots criteria method st session
    st' (n : nat) :
  workloads_in_range (S n) (examiners st) ->
  process_session student_lookup rooms timeslots criteria method st session = Ok st' ->
  workloads_in_range n (examiners st').
Proof.
  intros Hnn Hstep.
  apply process_session_cases in Hstep
    as [-> | (student & r & score & _ & -> & (_ & _ & Hsel) & _)].
  - simpl. eapply Forall_impl; [exact Hnn |]. intros y Hy. simpl in Hy. lia.
  - destruct Hsel as (supervisor & rest & Hids & _ & Hsub).
    apply submseteq_length in Hsub.
    assert (Hlen : (length (ScheduleResult.assigned_examiners r)
                    <= length (examiners st))%nat).
    { rewrite Hids, length_map. exact Hsub. }
    unfold workloads_in_range. simpl. rewrite length_update_workloads.
    apply update_workloads_slack.
    eapply Forall_impl; [exact Hnn |]. intros y Hy. simpl in Hy. lia.
Qed.

End Allocator.

(** ** The allocator: a whole run *)

Section Run.
Context `{NpSqrt}.

Import ExamSchedulingDSS.

Variables (students : list Student.t) (examiners0 : list Examiner.t)
  (rooms : list Room.t) (timeslots : list TimeSlot.t)
  (exam_sessions : list ExamSession.t) (criteria : option (list Criteria.t))
  (method : string).

Let student_lookup : gmap Z Student.t :=
  Py.dict (map (fun s => (Student.id s, s)) students).
Let criteria' : list Criteria.t := default default_criteria criteria.
Let step := process_session student_lookup rooms timeslots criteria' method.
Let st0 : run_state := mk_state [] [] (Fin 0) examiners0.

(** The run behind a call: the sessions are stepped through in sorted
    order from the initial state; a returned solution carries the schedule
    and the infeasible list of the final state. *)
Lemma generate_schedule_run out st :
  generate_schedule students examiners0 rooms timeslots exam_sessions criteria method
  = (out, st) ->
  exists raised,
    run_sessions step st0 (Py.sorted_desc ExamSession.priority exam_sessions)
    = (st, raised)
    /\ (forall e, raised = Some e -> out = Raise e)
    /\ (raised = None ->
        forall e, MCDMEngine.evaluate_alternatives
                    [map (fun _ => of_Z 1) criteria'] criteria' method = Raise e ->
                  out = Raise e)
    /\ (raised = None ->
        forall r, MCDMEngine.evaluate_alternatives
                    [map (fun _ => of_Z 1) criteria'] criteria' method = Ok r ->
                  exists solution, out = Ok solution)
    /\ forall solution, out = Ok solution ->
        raised = None
        /\ supported method = true
        /\ DSSSolution.schedule solution = schedule st
        /\ DSSSolution.infeasible_exams solution = infeasible_exams st
        /\ DSSSolution.method_used solution = method.
Proof.
  unfold generate_schedule. fold criteria' student_lookup st0 step.
  destruct (run_sessions step st0 _) as [st1 [e|]] eqn:Hrun.
  - intros [= <- <-]. exists (Some e). split; [reflexivity |].
    split; [intros e' [= <-]; reflexivity |].
    repeat split; discriminate.
  - destruct (MCDMEngine.evaluate_alternatives _ _ _) as [[scores weights]|e] eqn:Heval;
      intros [= <- <-]; exists None; (split; [reflexivity |]);
      (split; [discriminate |]).
    + split; [intros _ e; discriminate |].
      split; [intros _ r _; eexists; reflexivity |].
      intros solution [= <-]. simpl.
      split; [reflexivity |].
      split; [apply (evaluate_alternatives_supported _ _ _ _ Heval) |].
      repeat split.
    + split; [intros _ e' [= <-]; reflexivity |].
      split; [intros _ r; discriminate | discriminate].
Qed.

(** Every property of the initial state that the steps preserve holds of
    the state in which the call returns or raises. *)
Lemma generate_schedule_invariant (P : run_state -> Prop) out st :
  P st0 ->
  (forall s session s', session ∈ exam_sessions -> P s -> step s session = Ok s' -> P s') ->
  generate_schedule students examiners0 rooms timeslots exam_sessions criteria method
  = (out, st) ->
  P st.
Proof.
  intros H0 Hstep Hgen.
  destruct (generate_schedule_run _ _ Hgen) as (raised & Hrun & _).
  apply (run_sessions_invariant P _ _ _ _ _) in Hrun; [exact Hrun | | exact H0].
  intros s x s' Hx. apply Hstep. rewrite sorted_desc_perm in Hx. exact Hx.
Qed.

(** *** The mandatory evaluator (C1) *)

Lemma has_supervisor_invariant out st :
  generate_schedule students examiners0 rooms timeslots exam_sessions criteria method
  = (out, st) ->
  Forall (has_supervisor students exam_sessions) (schedule st).
Proof.
  apply (generate_schedule_invariant
           (fun s => Forall (has_supervisor students exam_sessions) (schedule s)));
    [constructor |].
  intros s session s' Hin Hs Hstep.
  apply process_session_cases in Hstep
    as [-> | (student & r & score & Hlook & -> & (Hid & _ & Hsup) & _)];
    [exact Hs |].
  simpl. apply Forall_app. split; [exact Hs |]. constructor; [| constructor].
  exists session, student. repeat split; try assumption.
  destruct Hsup as (supervisor & rest & -> & <- & _). left.
Qed.

(** *** The conflict invariant (C2) *)

Lemma check_scheduling_constraints_compatible schedule r :
  check_scheduling_constraints schedule r = true ->
  Forall (fun a => compatible a r) schedule.
Proof.
  induction schedule as [|a l IH]; simpl; [constructor |].
  destruct (ScheduleResult.timeslot_id a =? ScheduleResult.timeslot_id r) eqn:Hslot.
  - destruct (ScheduleResult.room_id a =? ScheduleResult.room_id r) eqn:Hroom;
      [discriminate |].
    destruct (existsb _ _) eqn:Hex; [discriminate |].
    intros Hl. constructor; [| apply IH, Hl].
    intros _. split; [apply Z.eqb_neq, Hroom |].
    intros x Ha Hr.
    apply not_true_iff_false in Hex. apply Hex, existsb_exists.
    exists x. split; [apply list_elem_of_In, Ha | apply int_in_elem, Hr].
  - intros Hl. constructor; [| apply IH, Hl].
    intros E. apply Z.eqb_neq in Hslot. contradiction.
Qed.

Lemma compatible_sym a b : compatible a b -> compatible b a.
Proof.
  intros Hab E. destruct (Hab (eq_sym E)) as [Hroom Hdis].
  split; [congruence | intros x Hb Ha; apply (Hdis x Ha Hb)].
Qed.

Lemma conflict_free_snoc schedule r :
  conflict_free schedule -> Forall (fun a => compatible a r) schedule ->
  conflict_free (schedule ++ [r]).
Proof.
  intros Hfree Hr i j a b Hij Hi Hj.
  rewrite Forall_forall in Hr.
  apply lookup_app_Some in Hi as [Hi | [Hli Hi]];
    apply lookup_app_Some in Hj as [Hj | [Hlj Hj]].
  - apply (Hfree i j); assumption.
  - apply list_lookup_singleton_Some in Hj as [_ <-].
    apply Hr. apply list_elem_of_lookup. eauto.
  - apply list_lookup_singleton_Some in Hi as [_ <-].
    apply compatible_sym, Hr. apply list_elem_of_lookup. eauto.
  - apply list_lookup_singleton_Some in Hi as [Hi _].
    apply list_lookup_singleton_Some in Hj as [Hj _]. lia.
Qed.

Lemma conflict_free_invariant out st :
  generate_schedule students examiners0 rooms timeslots exam_sessions criteria method
  = (out, st) ->
  conflict_free (schedule st).
Proof.
  apply (generate_schedule_invariant (fun s => conflict_free (schedule s))).
  - intros i j a b _ Hi. discriminate Hi.
  - intros s session s' Hin Hs Hstep.
    apply process_session_cases in Hstep
      as [-> | (student & r & score & Hlook & -> & (_ & Hcheck & _) & _)];
      [exact Hs |].
    simpl. apply conflict_free_snoc; [exact Hs |].
    apply check_scheduling_constraints_compatible, Hcheck.
Qed.

(** *** The load counter (C9) *)

Lemma frame_invariant out st :
  generate_schedule students examiners0 rooms timeslots exam_sessions criteria method
  = (out, st) ->
  map (Examiner.with_workload 0) (examiners st)
  = map (Examiner.with_workload 0) examiners0.
Proof.
  apply (generate_schedule_invariant
           (fun s => map (Examiner.with_workload 0) (examiners s)
                     = map (Examiner.with_workload 0) examiners0));
    [reflexivity |].
  intros s session s' _ Hs Hstep.
  apply process_session_cases in Hstep as [-> | (student & r & score & _ & -> & _)];
    [exact Hs |].
  simpl. rewrite update_workloads_frame. exact Hs.
Qed.

Lemma workload_invariant out st :
  NoDup (map Examiner.id examiners0) ->
  generate_schedule students examiners0 rooms timeslots exam_sessions criteria method
  = (out, st) ->
  examiners st = map (loaded (schedule st)) examiners0
  /\ Forall (fun a => NoDup (ScheduleResult.assigned_examiners a)) (schedule st).
Proof.
  intros Hnd.
  apply (generate_schedule_invariant
           (fun s => examiners s = map (loaded (schedule s)) examiners0
                     /\ Forall (fun a => NoDup (ScheduleResult.assigned_examiners a))
                               (schedule s))).
  - split; [| constructor]. simpl. symmetry.
    erewrite map_ext; [apply map_id |].
    intros e. unfold loaded, committed_count. simpl.
    rewrite Z.add_0_r. apply with_workload_same.
  - intros s session s' Hin [Hes Hall] Hstep.
    apply process_session_cases in Hstep
      as [-> | (student & r & score & Hlook & -> & (_ & _ & Hsel) & _)];
      [split; assumption |].
    destruct Hsel as (supervisor & rest & Hids & _ & Hsub).
    assert (Hnd' : NoDup (map Examiner.id (examiners s))).
    { rewrite Hes, map_id_loaded. exact Hnd. }
    assert (Hr : NoDup (ScheduleResult.assigned_examiners r)).
    { rewrite Hids. apply (submseteq_NoDup _ (map Examiner.id (examiners s)));
        [apply fmap_submseteq, Hsub | exact Hnd']. }
    simpl. split; [| apply Forall_app; split; [exact Hall | repeat constructor; exact Hr]].
    rewrite (update_workloads_map _ _ Hnd' Hr), Hes, map_map.
    apply map_ext. intros e. unfold loaded.
    rewrite committed_count_snoc. cbn [Examiner.id Examiner.with_workload].
    destruct (Py.int_in _ _).
    + unfold Examiner.incr_workload, Examiner.with_workload. simpl.
      f_equal. lia.
    + f_equal. lia.
Qed.

(** *** Supported and unsupported methods *)

Lemma run_sessions_raise_kind sessions s s' e :
  capacities_in_range rooms ->
  workloads_in_range (length sessions) (examiners s) ->
  run_sessions step s sessions = (s', Some e) ->
  supported method = false /\ e = UnsupportedMethod.
Proof.
  intros Hrooms. revert s.
  induction sessions as [|x l IH]; intros s Hs; simpl; [discriminate |].
  destruct (step s x) as [s1|e1] eqn:Hx.
  - apply IH. apply (process_session_in_range _ _ _ _ _ _ _ _ _ Hs Hx).
  - intros [= <- <-].
    apply (process_session_raise _ _ _ _ _ _ _ _
             (workloads_in_range_bound _ _ Hs) Hrooms Hx).
Qed.

Lemma unsupported_run out st :
  supported method = false ->
  generate_schedule students examiners0 rooms timeslots exam_sessions criteria method
  = (out, st) ->
  schedule st = [] /\ examiners st = examiners0
  /\ exists e, out = Raise e
               /\ (workloads_in_range 0 examiners0 -> capacities_in_range rooms ->
                   e = UnsupportedMethod).
Proof.
  intros Hun Hgen.
  assert (Hstep : forall s x s',
            schedule s = [] /\ examiners s = examiners0 -> step s x = Ok s' ->
            schedule s' = [] /\ examiners s' = examiners0).
  { intros s x s' Hs Hx.
    apply process_session_cases in Hx as [-> | (_ & _ & _ & _ & _ & _ & Hsup)];
      [exact Hs | congruence]. }
  assert (Hst : schedule st = [] /\ examiners st = examiners0).
  { apply (generate_schedule_invariant
             (fun s => schedule s = [] /\ examiners s = examiners0) out st);
      [split; reflexivity | | exact Hgen].
    intros s x s' _. apply Hstep. }
  destruct Hst as [Hsched Hex]. split; [exact Hsched |]. split; [exact Hex |].
  destruct (generate_schedule_run _ _ Hgen) as (raised & Hrun & Hsome & Hnone & _ & Hok).
  destruct raised as [e|].
  - exists e. split; [apply Hsome; reflexivity |]. intros Hnn Hrooms.
    apply (run_sessions_raise (fun s => schedule s = [] /\ examiners s = examiners0))
      in Hrun as (x & _ & Hraise); [| exact Hstep | split; reflexivity].
    apply process_session_raise in Hraise as [_ ->]; [reflexivity | | exact Hrooms].
    rewrite Hex. apply (workloads_in_range_bound _ _ Hnn).
  - pose proof (evaluate_alternatives_well_shaped
                  [map (fun _ => of_Z 1) criteria'] criteria' method
                  ltac:(discriminate)) as Heval.
    rewrite Hun in Heval. exists UnsupportedMethod.
    split; [| reflexivity]. apply Hnone; [reflexivity |]. apply Heval.
    constructor; [apply length_map | constructor].
Qed.

Lemma supported_run :
  supported method = true ->
  workloads_in_range (length exam_sessions) examiners0 -> capacities_in_range rooms ->
  exists solution st,
    generate_schedule students examiners0 rooms timeslots exam_sessions criteria method
    = (Ok solution, st).
Proof.
  intros Hsup Hnn Hrooms.
  destruct (generate_schedule students examiners0 rooms timeslots exam_sessions
              criteria method) as [out st] eqn:Hgen.
  destruct (generate_schedule_run _ _ Hgen) as (raised & Hrun & _ & _ & Hnone & _).
  destruct raised as [e|].
  - apply run_sessions_raise_kind in Hrun as [Hun _]; [congruence | exact Hrooms |].
    rewrite (Permutation_length (sorted_desc_perm _ _)). exact Hnn.
  - pose proof (evaluate_alternatives_well_shaped
                  [map (fun _ => of_Z 1) criteria'] criteria' method
                  ltac:(discriminate)) as Heval.
    rewrite Hsup in Heval. destruct Heval as (scores & weights & Heval & _).
    { constructor; [apply length_map | constructor]. }
    destruct (Hnone eq_refl _ Heval) as [solution ->]. eauto.
Qed.

(** *** Sessions of unknown students (C10) *)

Lemma process_session_infeasible_mono s x s' :
  step s x = Ok s' -> forall y, y ∈ infeasible_exams s -> y ∈ infeasible_exams s'.
Proof.
  intros Hx y Hy.
  apply process_session_cases in Hx as [-> | (_ & r & score & _ & -> & _)]; simpl.
  - apply elem_of_app. left. exact Hy.
  - exact Hy.
Qed.

Lemma process_session_unknown s session :
  student_lookup !! ExamSession.student_id session = None ->
  step s session = Ok (record_infeasible s session).
Proof. intros Hnone. unfold step, process_session. rewrite Hnone. reflexivity. Qed.

Lemma run_sessions_unknown sessions s s' :
  run_sessions step s sessions = (s', None) ->
  (forall y, y ∈ infeasible_exams s -> y ∈ infeasible_exams s')
  /\ forall session, session ∈ sessions ->
       student_lookup !! ExamSession.student_id session = None ->
       ExamSession.id session ∈ infeasible_exams s'.
Proof.
  revert s. induction sessions as [|x l IH]; intros s; simpl.
  - intros [= <-]. split; [auto |]. intros session Hin. inversion Hin.
  - destruct (step s x) as [s1|e] eqn:Hx; [| discriminate].
    intros Hrun. destruct (IH s1 Hrun) as [Hmono Hl].
    split.
    + intros y Hy. apply Hmono, (process_session_infeasible_mono _ _ _ Hx), Hy.
    + intros session Hin Hnone. apply elem_of_cons in Hin as [-> | Hin].
      * apply Hmono. rewrite (process_session_unknown s x Hnone) in Hx.
        injection Hx as <-. simpl. apply elem_of_app. right. left.
      * apply Hl; assumption.
Qed.

Lemma unknown_student_invariant solution st session :
  generate_schedule students examiners0 rooms timeslots exam_sessions criteria method
  = (Ok solution, st) ->
  session ∈ exam_sessions ->
  student_lookup !! ExamSession.student_id session = None ->
  ExamSession.id session ∈ DSSSolution.infeasible_exams solution.
Proof.
  intros Hgen Hin Hnone.
  destruct (generate_schedule_run _ _ Hgen) as (raised & Hrun & _ & _ & _ & Hok).
  destruct (Hok solution eq_refl) as (-> & _ & _ & -> & _).
  apply run_sessions_unknown in Hrun as [_ Hl]. apply Hl; [| exact Hnone].
  rewrite sorted_desc_perm. exact Hin.
Qed.

End Run.

(** ** The claims about the allocator *)

Import ExamSchedulingDSS.

(** C1.  In every solution the allocator returns, each committed
    assignment belongs to a session of the input whose student is found
    among the students (it is the student that the lookup by
    [student_id] yields), and the assigned examiners contain that
    student's [supervisor_id]. *)
Theorem mandatory_evaluator_assigned `{NpSqrt}
    (students : list Student.t) (examiners : list Examiner.t) (rooms : list Room.t)
    (timeslots : list TimeSlot.t) (exam_sessions : list ExamSession.t)
    (criteria : option (list Criteria.t)) (method : string)
    (solution : DSSSolution.t) (st : run_state) (a : ScheduleResult.t) :
  generate_schedule students examiners rooms timeslots exam_sessions criteria method
  = (Ok solution, st) ->
  a ∈ DSSSolution.schedule solution ->
  exists session student,
    session ∈ exam_sessions
    /\ ScheduleResult.exam_id a = ExamSession.id session
    /\ student ∈ students
    /\ Student.id student = ExamSession.student_id session
    /\ Py.dict (map (fun s => (Student.id s, s)) students)
         !! ExamSession.student_id session = Some student
    /\ Student.supervisor_id student ∈ ScheduleResult.assigned_examiners a.
Proof.
  intros Hgen Ha.
  pose proof (has_supervisor_invariant _ _ _ _ _ _ _ _ _ Hgen) as Hall.
  destruct (generate_schedule_run _ _ _ _ _ _ _ _ _ Hgen) as (raised & _ & _ & _ & _ & Hok).
  destruct (Hok solution eq_refl) as (_ & _ & Hsched & _).
  rewrite Hsched in Ha. rewrite Forall_forall in Hall.
  destruct (Hall a Ha) as (session & student & Hin & Hid & Hlook & Hsup).
  pose proof Hlook as Hfound.
  apply dict_lookup_elem, list_elem_of_fmap in Hlook as (s' & [= Hk <-] & Hs').
  exists session, student. repeat split; try assumption. symmetry. exact Hk.
Qed.

(** C2.  In every solution the allocator returns, two committed
    assignments at different positions that share a timeslot are in
    different rooms and have no examiner in common. *)
Theorem committed_assignments_conflict_free `{NpSqrt}
    (students : list Student.t) (examiners : list Examiner.t) (rooms : list Room.t)
    (timeslots : list TimeSlot.t) (exam_sessions : list ExamSession.t)
    (criteria : option (list Criteria.t)) (method : string)
    (solution : DSSSolution.t) (st : run_state)
    (i j : nat) (a b : ScheduleResult.t) :
  generate_schedule students examiners rooms timeslots exam_sessions criteria method
  = (Ok solution, st) ->
  i <> j ->
  DSSSolution.schedule solution !! i = Some a ->
  DSSSolution.schedule solution !! j = Some b ->
  ScheduleResult.timeslot_id a = ScheduleResult.timeslot_id b ->
  ScheduleResult.room_id a <> ScheduleResult.room_id b
  /\ forall x, x ∈ ScheduleResult.assigned_examiners a ->
               x ∉ ScheduleResult.assigned_examiners b.
Proof.
  intros Hgen Hij Hi Hj Hslot.
  pose proof (conflict_free_invariant _ _ _ _ _ _ _ _ _ Hgen) as Hfree.
  destruct (generate_schedule_run _ _ _ _ _ _ _ _ _ Hgen) as (raised & _ & _ & _ & _ & Hok).
  destruct (Hok solution eq_refl) as (_ & _ & Hsched & _).
  rewrite Hsched in Hi, Hj.
  destruct (Hfree i j a b Hij Hi Hj Hslot) as [Hroom Hdis].
  split; [exact Hroom |]. intros x Ha Hb. apply (Hdis x Ha Hb).
Qed.

(** C5 (amended).  With a method name that is not one of the two supported
    names the call raises; when it raises, no assignment has been
    committed and the examiners are as they were passed in; and with load
    counters in [0, 2^63) and room capacities that are 64-bit integers
    the error is the unsupported-method error.  (The error is raised by
    the first engine call of the run, not on entry: sessions processed
    before it may have been recorded as infeasible.  A negative load
    counter raises the validation error of [ExaminerEvaluation] first,
    and a load counter or a room capacity of some 300 digits the
    [OverflowError] of the division.) *)
Theorem unsupported_method_raises `{NpSqrt}
    (students : list Student.t) (examiners : list Examiner.t) (rooms : list Room.t)
    (timeslots : list TimeSlot.t) (exam_sessions : list ExamSession.t)
    (criteria : option (list Criteria.t)) (method : string) :
  supported method = false ->
  exists e st,
    generate_schedule students examiners rooms timeslots exam_sessions criteria method
    = (Raise e, st)
    /\ schedule st = []
    /\ ExamSchedulingDSS.examiners st = examiners
    /\ (workloads_in_range 0 examiners -> capacities_in_range rooms ->
        e = UnsupportedMethod).
Proof.
  intros Hun.
  destruct (generate_schedule students examiners rooms timeslots exam_sessions
              criteria method) as [out st] eqn:Hgen.
  destruct (unsupported_run _ _ _ _ _ _ _ _ _ Hun Hgen) as (Hs & He & e & -> & Hkind).
  exists e, st. repeat split; assumption.
Qed.

(** C9 (amended).  The examiners at the end of a run (returned or raised)
    are the examiners passed in, in the same order, with every field but
    the load counter unchanged; when the examiner ids are pairwise
    distinct, each load counter is raised by the number of committed
    assignments that list the examiner's id, and an assignment lists an id
    at most once: it adds exactly 1 for each of its examiners.  Students,
    rooms, timeslots and sessions are not part of the state of the run:
    the code never assigns to them. *)
Theorem workload_is_the_only_mutation `{NpSqrt}
    (students : list Student.t) (examiners : list Examiner.t) (rooms : list Room.t)
    (timeslots : list TimeSlot.t) (exam_sessions : list ExamSession.t)
    (criteria : option (list Criteria.t)) (method : string)
    (out : result DSSSolution.t) (st : run_state) :
  generate_schedule students examiners rooms timeslots exam_sessions criteria method
  = (out, st) ->
  map (Examiner.with_workload 0) (ExamSchedulingDSS.examiners st)
  = map (Examiner.with_workload 0) examiners
  /\ (forall solution, out = Ok solution -> DSSSolution.schedule solution = schedule st)
  /\ (NoDup (map Examiner.id examiners) ->
      ExamSchedulingDSS.examiners st
      = map (fun e => Examiner.with_workload
                        (Examiner.workload e
                         + committed_count (Examiner.id e) (schedule st)) e)
            examiners
      /\ Forall (fun a => NoDup (ScheduleResult.assigned_examiners a)) (schedule st)).
Proof.
  intros Hgen.
  split; [apply (frame_invariant _ _ _ _ _ _ _ _ _ Hgen) |].
  split.
  - intros solution ->.
    destruct (generate_schedule_run _ _ _ _ _ _ _ _ _ Hgen)
      as (raised & _ & _ & _ & _ & Hok).
    destruct (Hok solution eq_refl) as (_ & _ & Hsched & _). exact Hsched.
  - intros Hnd. apply (workload_invariant _ _ _ _ _ _ _ _ _ Hnd Hgen).
Qed.

(** C10.  A session whose [student_id] is the id of none of the students
    does not raise: its step records the session id as infeasible,
    changes nothing else, and the loop goes on with the next session; a
    returned solution lists the id among its infeasible exams; and a
    solution is returned whenever the method is supported and the integers
    of the input are in range: load counters that are not negative and
    stay below 2^63 during the run, years of experience and room
    capacities that are 64-bit integers. *)
Theorem unknown_student_recorded_infeasible `{NpSqrt}
    (students : list Student.t) (examiners : list Examiner.t) (rooms : list Room.t)
    (timeslots : list TimeSlot.t) (exam_sessions : list ExamSession.t)
    (criteria : option (list Criteria.t)) (method : string)
    (session : ExamSession.t) :
  session ∈ exam_sessions ->
  Forall (fun s => Student.id s <> ExamSession.student_id session) students ->
  let step :=
    process_session (Py.dict (map (fun s => (Student.id s, s)) students))
                    rooms timeslots (default default_criteria criteria) method in
  (forall s rest,
     step s session = Ok (record_infeasible s session)
     /\ run_sessions step s (session :: rest)
        = run_sessions step (record_infeasible s session) rest)
  /\ (forall solution st,
        generate_schedule students examiners rooms timeslots exam_sessions criteria method
        = (Ok solution, st) ->
        ExamSession.id session ∈ DSSSolution.infeasible_exams solution)
  /\ (supported method = true ->
      workloads_in_range (length exam_sessions) examiners ->
      experience_in_range examiners -> capacities_in_range rooms ->
      exists solution st,
        generate_schedule students examiners rooms timeslots exam_sessions criteria method
        = (Ok solution, st)
        /\ ExamSession.id session ∈ DSSSolution.infeasible_exams solution).
Proof.
  intros Hin Hnone step.
  assert (Hlook : Py.dict (map (fun s => (Student.id s, s)) students)
                  !! ExamSession.student_id session = None).
  { apply dict_lookup_None, Forall_fmap. exact Hnone. }
  assert (Hstep : forall s, step s session = Ok (record_infeasible s session)).
  { intros s. apply process_session_unknown, Hlook. }
  split; [| split].
  - intros s rest. split; [apply Hstep |]. simpl. rewrite Hstep. reflexivity.
  - intros solution st Hgen.
    apply (unknown_student_invariant _ _ _ _ _ _ _ _ _ _ Hgen Hin Hlook).
  - intros Hsup Hnn _ Hrooms.
    destruct (supported_run students examiners rooms timeslots exam_sessions
                criteria method Hsup Hnn Hrooms) as (solution & st & Hgen).
    exists solution, st. split; [exact Hgen |].
    apply (unknown_student_invariant _ _ _ _ _ _ _ _ _ _ Hgen Hin Hlook).
Qed.

(** ** The claims at the sample inputs *)

(** C1 at the data of [test_method_comparison]: the committed assignment
    lists the supervisor. *)
Lemma mandatory_evaluator_assigned_witness :
  exists solution st a,
    Sample.run_sample 0 1 2 [Sample.session1] "SAW" = (Ok solution, st)
    /\ a ∈ DSSSolution.schedule solution
    /\ exists session student,
         session ∈ [Sample.session1]
         /\ ScheduleResult.exam_id a = ExamSession.id session
         /\ student ∈ [Sample.student1]
         /\ Student.id student = ExamSession.student_id session
         /\ Py.dict (map (fun s => (Student.id s, s)) [Sample.student1])
              !! ExamSession.student_id session = Some student
         /\ Student.supervisor_id student ∈ ScheduleResult.assigned_examiners a.
Proof.
  destruct (Sample.run_sample 0 1 2 [Sample.session1] "SAW")
    as [[solution|e] st] eqn:E; [| vm_compute in E; discriminate E].
  assert (Hne : DSSSolution.schedule solution <> []).
  { vm_compute in E. injection E as <- _. discriminate. }
  destruct (DSSSolution.schedule solution) as [|a l] eqn:Hsched; [congruence |].
  exists solution, st, a. split; [reflexivity |].
  split; [rewrite Hsched; left |].
  apply (mandatory_evaluator_assigned (H := Sample.sqrt_trunc_impl)
           _ _ _ _ _ _ _ solution st a E).
  rewrite Hsched. left.
Defined.

(** C2 at a run that commits two assignments at the same timeslot. *)
Lemma committed_assignments_conflict_free_witness :
  exists solution st a b,
    Sample.run_pair = (Ok solution, st)
    /\ DSSSolution.schedule solution !! 0%nat = Some a
    /\ DSSSolution.schedule solution !! 1%nat = Some b
    /\ ScheduleResult.timeslot_id a = ScheduleResult.timeslot_id b
    /\ ScheduleResult.room_id a <> ScheduleResult.room_id b
    /\ forall x, x ∈ ScheduleResult.assigned_examiners a ->
                 x ∉ ScheduleResult.assigned_examiners b.
Proof.
  destruct Sample.run_pair as [[solution|e] st] eqn:E;
    [| vm_compute in E; discriminate E].
  pose proof E as E'. vm_compute in E'. injection E' as Hsol _.
  destruct (DSSSolution.schedule solution) as [|a [|b l]] eqn:Hsched;
    [rewrite <- Hsol in Hsched; discriminate Hsched
    | rewrite <- Hsol in Hsched; discriminate Hsched |].
  assert (Hslot : ScheduleResult.timeslot_id a = ScheduleResult.timeslot_id b).
  { rewrite <- Hsol in Hsched. injection Hsched as <- <- _. reflexivity. }
  exists solution, st, a, b. split; [reflexivity |].
  split; [rewrite Hsched; reflexivity |].
  split; [rewrite Hsched; reflexivity |]. split; [exact Hslot |].
  apply (committed_assignments_conflict_free (H := Sample.sqrt_trunc_impl)
           _ _ _ _ _ _ _ solution st 0%nat 1%nat a b E).
  - discriminate.
  - rewrite Hsched. reflexivity.
  - rewrite Hsched. reflexivity.
  - exact Hslot.
Defined.

(** C5 (counterexample).  A call with the method name [FOO] and one
    session of an unknown student raises the unsupported-method error only
    after the session has been recorded as infeasible. *)
Lemma unsupported_method_not_raised_eagerly :
  ~ raises_before_any_computation (H := Sample.sqrt_trunc_impl)
      [Sample.student1] (Sample.examiners_with 0 1 2) [Sample.room1] [Sample.slot1]
      [Sample.session_unknown] None "FOO".
Proof.
  intros (st & E & _ & Hinf & _).
  vm_compute in E. injection E as <-. discriminate Hinf.
Qed.

(** C5 (amended) at that call. *)
Lemma unsupported_method_raises_witness :
  exists e st,
    Sample.run_sample 0 1 2 [Sample.session_unknown] "FOO" = (Raise e, st)
    /\ schedule st = []
    /\ examiners st = Sample.examiners_with 0 1 2
    /\ e = UnsupportedMethod.
Proof.
  destruct (unsupported_method_raises (H := Sample.sqrt_trunc_impl)
              [Sample.student1] (Sample.examiners_with 0 1 2) [Sample.room1]
              [Sample.slot1] [Sample.session_unknown] None "FOO" eq_refl)
    as (e & st & E & Hsched & Hexaminers & Hkind).
  exists e, st. split; [exact E |]. split; [exact Hsched |].
  split; [exact Hexaminers |].
  apply Hkind; apply (bool_decide_unpack _); vm_compute; exact I.
Defined.

(** A validation error takes precedence when a load counter is negative. *)
Lemma negative_workload_raises_validation_error :
  (Sample.run_sample 0 (-1) 0 [Sample.session1] "FOO").1 = Raise ValidationError.
Proof. vm_compute. reflexivity. Qed.

(** A second run on the examiners that a first run left behind returns
    another solution: the run reads the load counters that it writes. *)
Lemma rerun_on_mutated_examiners_differs :
  let first_run := Sample.run_sample 0 1 2 [Sample.session1] "SAW" in
  (generate_schedule (H := Sample.sqrt_trunc_impl) [Sample.student1]
     (examiners first_run.2) [Sample.room1] [Sample.slot1] [Sample.session1]
     None "SAW").1
  <> first_run.1.
Proof.
  intros first_run E.
  apply (f_equal (fun r => match r with
                           | Ok s => DSSSolution.total_satisfaction s
                           | Raise _ => NaN
                           end)) in E.
  vm_compute in E. discriminate E.
Qed.

(** C9 (counterexample).  Two examiners share the id 2 and both are
    assigned to the one committed exam, which lists the ids 1, 2 and 2:
    the loop that raises the counters stops at the first examiner with
    the id, so the first of the two gains 2 and the second nothing. *)
Lemma shared_id_counter_raised_twice :
  ~ raised_by_one_per_assignment Sample.examiners_shared_id
      (examiners Sample.run_shared_id.2) (schedule Sample.run_shared_id.2).
Proof.
  unfold raised_by_one_per_assignment. intros E.
  apply (f_equal (map Examiner.workload)) in E.
  vm_compute in E. discriminate E.
Qed.

Example shared_id_run :
  map ScheduleResult.assigned_examiners (schedule Sample.run_shared_id.2) = [[1; 2; 2]]
  /\ map Examiner.workload Sample.examiners_shared_id = [0; 1; 2]
  /\ map Examiner.workload (examiners Sample.run_shared_id.2) = [1; 3; 2].
Proof. vm_compute. repeat split. Qed.

(** C9 at the data of [test_method_comparison]: the three examiners of
    the committed assignment end with the load counters 1, 2 and 3. *)
Lemma workload_is_the_only_mutation_witness :
  exists out st,
    Sample.run_sample 0 1 2 [Sample.session1] "SAW" = (out, st)
    /\ NoDup (map Examiner.id (Sample.examiners_with 0 1 2))
    /\ examiners st
       = map (fun e => Examiner.with_workload
                (Examiner.workload e + committed_count (Examiner.id e) (schedule st)) e)
             (Sample.examiners_with 0 1 2)
    /\ map Examiner.workload (examiners st) = [1; 2; 3].
Proof.
  destruct (Sample.run_sample 0 1 2 [Sample.session1] "SAW") as [out st] eqn:E.
  assert (Hnd : NoDup (map Examiner.id (Sample.examiners_with 0 1 2))).
  { apply (bool_decide_unpack _). vm_compute. exact I. }
  exists out, st. split; [reflexivity |]. split; [exact Hnd |].
  destruct (workload_is_the_only_mutation (H := Sample.sqrt_trunc_impl)
              _ _ _ _ _ _ _ out st E) as (_ & _ & Hcount).
  split; [apply (Hcount Hnd) |].
  vm_compute in E. injection E as _ <-. reflexivity.
Defined.

(** C10 at a run with one session of an unknown student and one session
    that is committed. *)
Lemma unknown_student_recorded_infeasible_witness :
  exists solution st,
    Sample.run_sample 0 1 2 [Sample.session_unknown; Sample.session1] "SAW"
    = (Ok solution, st)
    /\ 7 ∈ DSSSolution.infeasible_exams solution.
Proof.
  destruct (unknown_student_recorded_infeasible (H := Sample.sqrt_trunc_impl)
              [Sample.student1] (Sample.examiners_with 0 1 2) [Sample.room1]
              [Sample.slot1] [Sample.session_unknown; Sample.session1] None "SAW"
              Sample.session_unknown)
    as (_ & _ & Hreturns).
  - left.
  - repeat constructor. simpl. lia.
  - apply Hreturns; [reflexivity | ..]; apply (bool_decide_unpack _); vm_compute; exact I.
Defined.

(** ** The range of the scores (C6) *)

(** C6 (the code at the failing input).  A cost column whose entries are
    all zero takes the fallback [1 - column / max] with [max = 0]: the
    normalized entries and the SAW score are [nan], which is not in
    [0, 1]; the benefit branch guards the same division.  With the
    default criteria this is the column of load counters of examiners
    that all have [workload = 0]: every score is [nan] and nothing is
    committed. *)
Theorem saw_score_of_zero_cost_column_is_nan :
  SAWMethod.calculate_scores [[Fin 0]] [Fin 1] [COST] = Ok [NaN]
  /\ SAWMethod.calculate_scores [[Fin 0]] [Fin 1] [BENEFIT] = Ok [Fin 0]
  /\ fst <$> MCDMEngine.evaluate_alternatives (H := Sample.sqrt_trunc_impl)
               [[Fin 0]; [Fin 0]] [Criteria.mk 4 "workload" (Fin (15 # 100)) COST None]
               "SAW" = Ok [NaN; NaN]
  /\ DSSSolution.schedule
       <$> (Sample.run_sample 0 0 0 [Sample.session1] "SAW").1 = Ok [].
Proof. repeat split. Qed.

(** *** Finite arithmetic *)

Lemma fin_nonneg_is_fin x : fin_nonneg x -> is_fin x.
Proof. intros (q & -> & _). exists q. reflexivity. Qed.

Lemma fadd_fin a b : fadd (Fin a) (Fin b) = Fin (Qred (a + b)).
Proof. reflexivity. Qed.

Lemma fsub_fin a b : fsub (Fin a) (Fin b) = Fin (Qred (a + Qred (- b))).
Proof. reflexivity. Qed.

Lemma fmul_fin a b : fmul (Fin a) (Fin b) = Fin (Qred (a * b)).
Proof. reflexivity. Qed.

Lemma fdiv_fin a b : ~ (b == 0)%Q -> fdiv (Fin a) (Fin b) = Fin (Qred (a / b)).
Proof. intros Hb. unfold fdiv. rewrite (proj2 (Qeq_bool_false _ _) Hb). reflexivity. Qed.

Lemma square_fin x : is_fin x -> fin_nonneg (fmul x x).
Proof.
  intros [q ->]. eexists. split; [reflexivity |].
  rewrite Qred_correct. nra.
Qed.

Lemma np_sum_acc_fin_nonneg (l : list num) (a : Q) :
  Forall fin_nonneg l -> (0 <= a)%Q ->
  exists s, fold_left fadd l (Fin a) = Fin s /\ (a <= s)%Q.
Proof.
  intros Hl. revert a. induction Hl as [|x l (q & -> & Hq) _ IH]; intros a Ha; simpl.
  - exists a. split; [reflexivity | apply Qle_refl].
  - destruct (IH (Qred (a + q))) as (s & Hs & Hle).
    + rewrite Qred_correct. lra.
    + exists s. split; [exact Hs |]. rewrite Qred_correct in Hle. lra.
Qed.

Lemma np_sum_fin_nonneg (l : list num) : Forall fin_nonneg l -> fin_nonneg (np_sum l).
Proof.
  intros Hl. destruct (np_sum_acc_fin_nonneg l 0 Hl (Qle_refl 0)) as (s & Hs & Hle).
  exists s. split; assumption.
Qed.

Section SqrtFacts.
Context `{NpSqrt}.

Lemma np_sqrt_fin_nonneg x : fin_nonneg x -> fin_nonneg (np_sqrt x).
Proof.
  intros (q & -> & Hq). unfold np_sqrt.
  rewrite (proj2 (Qltb_ge q 0) Hq). eexists. split; [reflexivity |].
  rewrite Qred_correct. apply sqrtQ_nonneg, Hq.
Qed.

End SqrtFacts.

(** The extrema of a finite column are finite entries that bound it. *)
Lemma fold_np_minimum_elem (l : list num) (x : num) :
  fold_left np_minimum l x ∈ x :: l.
Proof.
  revert x. induction l as [|y l IH]; intros x; simpl; [left |].
  specialize (IH (np_minimum x y)).
  apply elem_of_cons in IH as [E | IH].
  - rewrite E. unfold np_minimum.
    destruct (is_nan x); [left |].
    destruct (is_nan y); [right; left |].
    destruct (fltb y x); [right; left | left].
  - right. right. exact IH.
Qed.

Lemma fold_np_maximum_bound (l : list num) (a : Q) :
  Forall is_fin l ->
  exists m, fold_left np_maximum l (Fin a) = Fin m
            /\ (a <= m)%Q /\ forall q, Fin q ∈ l -> (q <= m)%Q.
Proof.
  intros Hl. revert a. induction Hl as [|x l [q ->] _ IH]; intros a; simpl.
  - exists a. split; [reflexivity |]. split; [apply Qle_refl |].
    intros q Hq. inversion Hq.
  - unfold np_maximum at 2. simpl. destruct (Qltb a q) eqn:Hlt.
    + apply Qltb_lt in Hlt. destruct (IH q) as (m & Hm & Hqm & Hall).
      exists m. split; [exact Hm |]. split; [lra |].
      intros q' Hq'. apply elem_of_cons in Hq' as [[= ->] | Hq']; [exact Hqm | auto].
    + apply Qltb_ge in Hlt. destruct (IH a) as (m & Hm & Ham & Hall).
      exists m. split; [exact Hm |]. split; [exact Ham |].
      intros q' Hq'. apply elem_of_cons in Hq' as [[= ->] | Hq']; [lra | auto].
Qed.

Lemma fold_np_minimum_bound (l : list num) (a : Q) :
  Forall is_fin l ->
  exists m, fold_left np_minimum l (Fin a) = Fin m
            /\ (m <= a)%Q /\ forall q, Fin q ∈ l -> (m <= q)%Q.
Proof.
  intros Hl. revert a. induction Hl as [|x l [q ->] _ IH]; intros a; simpl.
  - exists a. split; [reflexivity |]. split; [apply Qle_refl |].
    intros q Hq. inversion Hq.
  - unfold np_minimum at 2. simpl. destruct (Qltb q a) eqn:Hlt.
    + apply Qltb_lt in Hlt. destruct (IH q) as (m & Hm & Hqm & Hall).
      exists m. split; [exact Hm |]. split; [lra |].
      intros q' Hq'. apply elem_of_cons in Hq' as [[= ->] | Hq']; [exact Hqm | auto].
    + apply Qltb_ge in Hlt. destruct (IH a) as (m & Hm & Ham & Hall).
      exists m. split; [exact Hm |]. split; [exact Ham |].
      intros q' Hq'. apply elem_of_cons in Hq' as [[= ->] | Hq']; [lra | auto].
Qed.

Lemma np_max_fin (col : list num) :
  col <> [] -> Forall is_fin col ->
  exists m, np_max col = Ok (Fin m) /\ Fin m ∈ col
            /\ forall q, Fin q ∈ col -> (q <= m)%Q.
Proof.
  destruct col as [|x l]; [congruence |]. intros _ Hall.
  apply Forall_cons in Hall as [[a ->] Hl].
  destruct (fold_np_maximum_bound l a Hl) as (m & Hm & Ham & Hb).
  exists m. simpl. rewrite Hm. split; [reflexivity |].
  split; [rewrite <- Hm; apply fold_np_maximum_elem |].
  intros q Hq. apply elem_of_cons in Hq as [[= ->] | Hq]; [exact Ham | auto].
Qed.

Lemma np_min_fin (col : list num) :
  col <> [] -> Forall is_fin col ->
  exists m, np_min col = Ok (Fin m) /\ Fin m ∈ col
            /\ forall q, Fin q ∈ col -> (m <= q)%Q.
Proof.
  destruct col as [|x l]; [congruence |]. intros _ Hall.
  apply Forall_cons in Hall as [[a ->] Hl].
  destruct (fold_np_minimum_bound l a Hl) as (m & Hm & Ham & Hb).
  exists m. simpl. rewrite Hm. split; [reflexivity |].
  split; [rewrite <- Hm; apply fold_np_minimum_elem |].
  intros q Hq. apply elem_of_cons in Hq as [[= ->] | Hq]; [exact Ham | auto].
Qed.

(** *** SAW scores *)

Lemma Qdiv_unit (a b : Q) : (0 <= a)%Q -> (a <= b)%Q -> (0 < b)%Q -> (0 <= a / b <= 1)%Q.
Proof.
  intros Ha Hab Hb. split.
  - apply Qle_shift_div_l; [exact Hb | lra].
  - apply Qle_shift_div_r; [exact Hb | lra].
Qed.

Lemma in_unit_zero : in_unit_interval zero.
Proof. exists 0%Q. split; [reflexivity |]. split; discriminate. Qed.

Lemma nth_Forall {A} (P : A -> Prop) (l : list A) (d : A) (i : nat) :
  Forall P l -> P d -> P (nth i l d).
Proof.
  intros Hl Hd. revert i. induction Hl; intros [|i]; simpl; auto.
Qed.

Lemma normalize_column_in_unit (t : CriteriaType) (col col' : list num) :
  col <> [] -> Forall fin_nonneg col ->
  (t = COST -> exists v, v ∈ col /\ feqb v zero = false) ->
  SAWMethod.normalize_column t col = Ok col' ->
  Forall in_unit_interval col'.
Proof.
  intros Hne Hnn Hcost.
  assert (Hfin : Forall is_fin col).
  { eapply Forall_impl; [exact Hnn | apply fin_nonneg_is_fin]. }
  destruct (np_max_fin col Hne Hfin) as (mx & Hmx & Hmx_in & Hmx_b).
  destruct (np_min_fin col Hne Hfin) as (mn & Hmn & Hmn_in & Hmn_b).
  assert (Hmx0 : (0 <= mx)%Q).
  { rewrite Forall_forall in Hnn. destruct (Hnn _ Hmx_in) as (q & [= <-] & Hq). exact Hq. }
  assert (Hmn0 : (0 <= mn)%Q).
  { rewrite Forall_forall in Hnn. destruct (Hnn _ Hmn_in) as (q & [= <-] & Hq). exact Hq. }
  rewrite Forall_forall in Hnn.
  unfold SAWMethod.normalize_column. destruct t.
  - rewrite Hmx. simpl. unfold fneb, feqb, zero.
    destruct (Qeq_bool mx 0) eqn:Hz; simpl; intros [= <-].
    + apply Qeq_bool_iff in Hz. apply Forall_forall. intros v Hv.
      destruct (Hnn v Hv) as (q & -> & Hq). exists q. split; [reflexivity |].
      specialize (Hmx_b q Hv). lra.
    + apply Qeq_bool_false in Hz. apply Forall_forall. intros v' Hv'.
      apply list_elem_of_fmap in Hv' as (v & -> & Hv).
      destruct (Hnn v Hv) as (q & -> & Hq).
      change (in_unit_interval (fdiv (Fin q) (Fin mx))). rewrite fdiv_fin by exact Hz.
      eexists. split; [reflexivity |]. rewrite Qred_correct.
      apply Qdiv_unit; [exact Hq | apply Hmx_b, Hv | lra].
  - rewrite Hmn. cbn [mbind result_bind]. destruct (np_all_nonzero col) eqn:Hall.
    + intros [= <-]. apply Forall_forall. intros v' Hv'.
      apply list_elem_of_fmap in Hv' as (v & -> & Hv).
      destruct (Hnn v Hv) as (q & -> & Hq).
      unfold np_all_nonzero in Hall. rewrite forallb_forall in Hall.
      specialize (Hall _ (proj1 (list_elem_of_In _ _) Hv)).
      unfold fneb, feqb, zero in Hall. apply negb_true_iff, Qeq_bool_false in Hall.
      change (in_unit_interval (fdiv (Fin mn) (Fin q))). rewrite fdiv_fin by exact Hall.
      eexists. split; [reflexivity |]. rewrite Qred_correct.
      apply Qdiv_unit; [exact Hmn0 | apply Hmn_b, Hv | lra].
    + rewrite Hmx. cbn [mbind result_bind]. intros [= <-].
      destruct (Hcost eq_refl) as (w & Hw & Hwz).
      destruct (Hnn w Hw) as (qw & -> & Hqw).
      unfold feqb, zero in Hwz. apply Qeq_bool_false in Hwz.
      pose proof (Hmx_b qw Hw) as Hwm.
      assert (Hpos : (0 < mx)%Q) by lra.
      apply Forall_forall. intros v' Hv'.
      apply list_elem_of_fmap in Hv' as (v & -> & Hv).
      destruct (Hnn v Hv) as (q & -> & Hq).
      change (in_unit_interval (fsub one (fdiv (Fin q) (Fin mx)))).
      rewrite fdiv_fin by lra. unfold one. rewrite fsub_fin.
      eexists. split; [reflexivity |]. rewrite !Qred_correct.
      destruct (Qdiv_unit q mx Hq (Hmx_b q Hv) Hpos). lra.
Qed.

Lemma normalize_columns_in_unit (cols cols' : list (list num))
    (types : list CriteriaType) :
  Forall (fun col => col <> [] /\ Forall fin_nonneg col) cols ->
  (forall j col, types !! j = Some COST -> cols !! j = Some col ->
                 exists v, v ∈ col /\ feqb v zero = false) ->
  SAWMethod.normalize_columns cols types = Ok cols' ->
  Forall (Forall in_unit_interval) cols'.
Proof.
  revert cols cols'. induction types as [|t types IH]; intros cols cols' Hcols Hcost.
  - assert (E : SAWMethod.normalize_columns cols [] = Ok (map (map (fun _ => zero)) cols))
      by (destruct cols; reflexivity).
    rewrite E. intros [= <-]. apply Forall_forall. intros col Hcol.
    apply list_elem_of_fmap in Hcol as (c & -> & _).
    apply Forall_forall. intros v Hv.
    apply list_elem_of_fmap in Hv as (x & -> & _). apply in_unit_zero.
  - destruct cols as [|col cols]; simpl; [discriminate |].
    apply Forall_cons in Hcols as [[Hne Hnn] Hcols].
    destruct (SAWMethod.normalize_column t col) as [c'|e] eqn:Hc; simpl; [| discriminate].
    destruct (SAWMethod.normalize_columns cols types) as [cs'|e] eqn:Hcs; simpl;
      [| discriminate].
    intros [= <-]. constructor.
    + apply (normalize_column_in_unit t col c' Hne Hnn); [| exact Hc].
      intros ->. apply (Hcost 0%nat col); reflexivity.
    + apply (IH cols cs' Hcols); [| exact Hcs].
      intros j c Hj Hcj. apply (Hcost (S j) c); assumption.
Qed.

(** The weighted sum of entries of [0, 1] stays between 0 and the sum of
    the weights. *)
Lemma dot_bound (row w : list num) (a b : Q) :
  Forall in_unit_interval row -> Forall fin_nonneg w ->
  (0 <= a)%Q -> (a <= b)%Q ->
  exists t s, fold_left fadd (zip_with fmul row w) (Fin a) = Fin t
              /\ fold_left fadd w (Fin b) = Fin s
              /\ (0 <= t <= s)%Q.
Proof.
  intros Hrow. revert w a b.
  induction Hrow as [|x row (qx & -> & Hx0 & Hx1) _ IH]; intros w a b Hw Ha Hab.
  - destruct (np_sum_acc_fin_nonneg w b Hw ltac:(lra)) as (s & Hs & Hle).
    exists a, s. simpl. split; [reflexivity |]. split; [exact Hs | lra].
  - destruct Hw as [|y w (qy & -> & Hy) Hw].
    + exists a, b. simpl. split; [reflexivity |]. split; [reflexivity | lra].
    + simpl. destruct (IH w (Qred (a + Qred (qx * qy))) (Qred (b + qy)) Hw)
        as (t & s & Ht & Hs & Hts).
      * rewrite !Qred_correct. nra.
      * rewrite !Qred_correct. nra.
      * exists t, s. split; [exact Ht |]. split; [exact Hs | exact Hts].
Qed.

(** SAW scores lie in [0, 1] on finite non-negative entries and
    non-negative weights of sum at most 1, provided every cost column has
    a nonzero entry. *)
Lemma saw_scores_in_unit_interval (M : matrix) (weights : list num)
    (types : list CriteriaType) :
  M <> [] -> length weights = ncols M -> length types = ncols M ->
  Forall (Forall fin_nonneg) M -> Forall fin_nonneg weights ->
  (exists s, np_sum weights = Fin s /\ (s <= 1)%Q) ->
  (forall j, types !! j = Some COST ->
             exists v, v ∈ column j M /\ feqb v zero = false) ->
  exists scores, SAWMethod.calculate_scores M weights types = Ok scores
                 /\ Forall in_unit_interval scores.
Proof.
  intros HM Hw Ht Hnn Hwnn (s & Hs & Hs1) Hcost.
  destruct (normalize_columns_ok (columns M) types (columns_nonempty M HM)
              ltac:(rewrite length_columns; lia)) as (cols' & Hcols' & Hl & _).
  assert (Hunit : Forall (Forall in_unit_interval) cols').
  { apply (normalize_columns_in_unit (columns M) cols' types); [| | exact Hcols'].
    - apply Forall_forall. intros col Hcol.
      split; [revert col Hcol; apply Forall_forall, columns_nonempty, HM |].
      apply list_elem_of_fmap in Hcol as (j & -> & _).
      apply Forall_forall. intros v Hv.
      apply list_elem_of_fmap in Hv as (row & -> & Hrow).
      rewrite Forall_forall in Hnn.
      apply nth_Forall; [apply Hnn, Hrow |]. exists 0%Q. split; [reflexivity | discriminate].
    - intros j col Hj Hcol.
      assert (Hlt : (j < ncols M)%nat) by (apply lookup_lt_Some in Hj; lia).
      rewrite (lookup_columns M j Hlt) in Hcol. injection Hcol as <-.
      apply Hcost, Hj. }
  destruct (saw_calculate_scores_ok M weights types HM Hw Ht) as (scores & Hsc & _).
  exists scores. split; [exact Hsc |].
  unfold SAWMethod.calculate_scores, SAWMethod.normalize_matrix in Hsc.
  rewrite Hcols' in Hsc. simpl in Hsc. unfold np_dot in Hsc.
  destruct (forallb _ _); [| discriminate]. injection Hsc as <-.
  apply Forall_forall. intros score Hscore.
  apply list_elem_of_fmap in Hscore as (row & -> & Hrow).
  unfold from_columns in Hrow. apply list_elem_of_fmap in Hrow as (i & -> & _).
  destruct (dot_bound (map (fun col => nth i col zero) cols') weights 0 0)
    as (t & s' & Hdot & Hsum & Hts); [| exact Hwnn | lra | lra |].
  - apply Forall_forall. intros v Hv.
    apply list_elem_of_fmap in Hv as (col & -> & Hcol).
    rewrite Forall_forall in Hunit. apply nth_Forall; [apply Hunit, Hcol | apply in_unit_zero].
  - unfold np_sum in Hs |- *. unfold zero in *. rewrite Hs in Hsum. injection Hsum as <-.
    rewrite Hdot. exists t. split; [reflexivity | lra].
Qed.

(** *** TOPSIS scores *)

Lemma Forall_zip_with {A B C} (P : A -> Prop) (Q : B -> Prop) (R : C -> Prop)
    (f : A -> B -> C) (l : list A) (k : list B) :
  (forall x y, P x -> Q y -> R (f x y)) ->
  Forall P l -> Forall Q k -> Forall R (zip_with f l k).
Proof.
  intros Hf Hl. revert k. induction Hl as [|x l Hx _ IH]; intros k Hk; simpl;
    [constructor |].
  destruct Hk as [|y k Hy Hk]; constructor; [apply Hf; assumption | apply IH, Hk].
Qed.

Lemma is_fin_zero : is_fin zero.
Proof. exists 0%Q. reflexivity. Qed.

Lemma column_fin (j : nat) (M : matrix) :
  Forall (Forall is_fin) M -> Forall is_fin (column j M).
Proof.
  intros HM. unfold column. apply Forall_forall. intros v Hv.
  apply list_elem_of_fmap in Hv as (row & -> & Hrow).
  rewrite Forall_forall in HM. apply nth_Forall; [apply HM, Hrow | apply is_fin_zero].
Qed.

Section TopsisRange.
Context `{NpSqrt}.

Lemma distance_fin_nonneg (row reference : list num) :
  Forall is_fin row -> Forall is_fin reference ->
  fin_nonneg (TOPSISMethod.distance row reference).
Proof.
  intros Hrow Href. unfold TOPSISMethod.distance.
  apply np_sqrt_fin_nonneg, np_sum_fin_nonneg.
  apply (Forall_zip_with is_fin is_fin); [| exact Hrow | exact Href].
  intros x y [a ->] [b ->]. cbv zeta. rewrite fsub_fin. apply square_fin.
  eexists. reflexivity.
Qed.

Lemma closeness_in_unit (to_ideal to_negative : num) :
  fin_nonneg to_ideal -> fin_nonneg to_negative ->
  in_unit_interval (nan_to_num (fdiv to_negative (fadd to_ideal to_negative))).
Proof.
  intros (di & -> & Hdi) (dn & -> & Hdn). rewrite fadd_fin. unfold fdiv.
  destruct (Qeq_bool (Qred (di + dn)) 0) eqn:Hz.
  - apply Qeq_bool_iff in Hz. rewrite Qred_correct in Hz.
    unfold inf_signed. rewrite (proj2 (Qeq_bool_iff dn 0)) by lra.
    exists 0%Q. split; [reflexivity |]. split; discriminate.
  - apply Qeq_bool_false in Hz. rewrite Qred_correct in Hz.
    eexists. split; [reflexivity |]. rewrite !Qred_correct.
    apply Qdiv_unit; lra.
Qed.

Lemma normalize_matrix_fin (M : matrix) :
  Forall (Forall is_fin) M -> Forall (Forall is_fin) (TOPSISMethod.normalize_matrix M).
Proof.
  intros HM. unfold TOPSISMethod.normalize_matrix.
  apply Forall_forall. intros row' Hrow'.
  apply list_elem_of_fmap in Hrow' as (row & -> & Hrow).
  rewrite Forall_forall in HM.
  apply (Forall_zip_with is_fin (fun n => exists q, n = Fin q /\ ~ (q == 0)%Q));
    [| apply HM, Hrow |].
  - intros x n [a ->] (q & -> & Hq). rewrite fdiv_fin by exact Hq. eexists. reflexivity.
  - apply Forall_forall. intros n Hn.
    apply list_elem_of_fmap in Hn as (n0 & -> & Hn0).
    apply list_elem_of_fmap in Hn0 as (col & -> & Hcol).
    apply list_elem_of_fmap in Hcol as (j & -> & _).
    destruct (np_sqrt_fin_nonneg (np_sum (map (fun x => fmul x x) (column j M))))
      as (q & -> & Hq).
    { apply np_sum_fin_nonneg, Forall_forall. intros v Hv.
      apply list_elem_of_fmap in Hv as (x & -> & Hx).
      apply square_fin.
      revert x Hx. apply Forall_forall, column_fin, Forall_forall, HM. }
    unfold feqb, zero. destruct (Qeq_bool q 0) eqn:Hz.
    + exists 1%Q. split; [reflexivity | discriminate].
    + exists q. split; [reflexivity | apply Qeq_bool_false, Hz].
Qed.

(** TOPSIS scores lie in [0, 1] on finite entries and finite weights. *)
Lemma topsis_scores_in_unit_interval (M : matrix) (weights : list num)
    (types : list CriteriaType) :
  M <> [] -> length weights = ncols M -> length types = ncols M ->
  Forall (Forall is_fin) M -> Forall is_fin weights ->
  exists scores, TOPSISMethod.calculate_scores M weights types = Ok scores
                 /\ Forall in_unit_interval scores.
Proof.
  intros HM Hw Ht Hfin Hwfin.
  destruct (topsis_calculate_scores_ok M weights types HM Hw Ht) as (scores & Hsc & _).
  exists scores. split; [exact Hsc |].
  unfold TOPSISMethod.calculate_scores in Hsc.
  rewrite Hw, Ht, Nat.eqb_refl in Hsc. simpl in Hsc.
  set (W := map _ (TOPSISMethod.normalize_matrix M)) in Hsc.
  assert (HW : Forall (Forall is_fin) W).
  { apply Forall_forall. intros row' Hrow'.
    apply list_elem_of_fmap in Hrow' as (row & -> & Hrow).
    apply (Forall_zip_with is_fin is_fin); [| | exact Hwfin].
    - intros x y [a ->] [b ->]. rewrite fmul_fin. eexists. reflexivity.
    - revert row Hrow. apply Forall_forall, normalize_matrix_fin, Hfin. }
  assert (HWne : W <> []).
  { unfold W, TOPSISMethod.normalize_matrix. destruct M; [congruence | discriminate]. }
  assert (Hextremum : forall (f : CriteriaType * list num -> result num) reference,
            (forall tc, f tc = np_max tc.2 \/ f tc = np_min tc.2) ->
            mapM_result f (zip types (columns W)) = Ok reference ->
            Forall is_fin reference).
  { intros f reference Hf Hm.
    apply (mapM_result_Forall is_fin) in Hm; [exact Hm |].
    intros [t col] y Hin Hy.
    - apply elem_of_zip_r in Hin.
      apply list_elem_of_fmap in Hin as (j & -> & _).
      assert (Hne : column j W <> []).
      { intros E. apply (f_equal length) in E. rewrite length_column in E.
        destruct W; [congruence | discriminate]. }
      pose proof (column_fin j W HW) as Hcol.
      destruct (Hf (t, column j W)) as [E | E]; rewrite E in Hy; simpl in Hy.
      + destruct (np_max_fin _ Hne Hcol) as (m & Hm' & _).
        rewrite Hm' in Hy. injection Hy as <-. eexists. reflexivity.
      + destruct (np_min_fin _ Hne Hcol) as (m & Hm' & _).
        rewrite Hm' in Hy. injection Hy as <-. eexists. reflexivity. }
  destruct (mapM_result
              (fun tc : CriteriaType * list num =>
                 match tc.1 with BENEFIT => np_max tc.2 | COST => np_min tc.2 end)
              (zip types (columns W))) as [ideal|e] eqn:Hideal;
    simpl in Hsc; [| discriminate].
  destruct (mapM_result
              (fun tc : CriteriaType * list num =>
                 match tc.1 with BENEFIT => np_min tc.2 | COST => np_max tc.2 end)
              (zip types (columns W))) as [negative|e] eqn:Hnegative;
    simpl in Hsc; [| discriminate].
  injection Hsc as <-.
  apply Hextremum in Hideal; [| intros [[] col]; simpl; auto].
  apply Hextremum in Hnegative; [| intros [[] col]; simpl; auto].
  apply Forall_forall. intros score Hscore.
  apply list_elem_of_fmap in Hscore as (row & -> & Hrow).
  rewrite Forall_forall in HW.
  apply closeness_in_unit; apply distance_fin_nonneg; auto.
Qed.

End TopsisRange.

(** * Further properties of the code *)

(** ** Examiner and room evaluation *)

Lemma fdiv_same_nat (n : nat) : (0 < n)%nat -> fdiv (of_nat n) (of_nat n) = one.
Proof.
  intros Hn. unfold of_nat. rewrite fdiv_of_Z by lia. unfold one. f_equal.
  apply (Qred_complete _ 1). field. unfold Qeq. simpl. lia.
Qed.

Lemma filter_all {A} (f : A -> bool) (l : list A) :
  (forall x, x ∈ l -> f x = true) -> List.filter f l = l.
Proof.
  induction l as [|x l IH]; intros Hf; simpl; [reflexivity |].
  rewrite (Hf x) by left. f_equal. apply IH. intros y Hy. apply Hf. right. exact Hy.
Qed.

Lemma filter_none {A} (f : A -> bool) (l : list A) :
  (forall x, x ∈ l -> f x = false) -> List.filter f l = [].
Proof.
  induction l as [|x l IH]; intros Hf; simpl; [reflexivity |].
  rewrite (Hf x) by left. apply IH. intros y Hy. apply Hf. right. exact Hy.
Qed.

(** X1.  The expertise match is a finite number of [0, 1].  It is 0 when
    the thesis field has no keyword and when the examiner lists no
    expertise, and it is 1 as soon as the examiner lists the empty string
    as an expertise, which is a substring of every keyword. *)
Theorem expertise_match_range (examiner : Examiner.t) (student : Student.t) :
  let keywords := Py.split (Py.lower (Student.thesis_field student)) in
  let score := ExamSchedulingDSS.calculate_expertise_match examiner student in
  in_unit_interval score
  /\ (keywords = [] -> score = zero)
  /\ (Examiner.expertise examiner = [] -> score = zero)
  /\ (keywords <> [] -> EmptyString ∈ Examiner.expertise examiner -> score = one).
Proof.
  intros keywords score. split; [| split; [| split]].
  - destruct (calculate_expertise_match_unit examiner student) as (q & Hq & Hr).
    exists q. split; assumption.
  - intros Hk. unfold score, ExamSchedulingDSS.calculate_expertise_match.
    fold keywords. rewrite Hk. reflexivity.
  - intros He. unfold score, ExamSchedulingDSS.calculate_expertise_match.
    fold keywords. rewrite He. simpl map.
    rewrite filter_none by reflexivity.
    destruct (0 <? length keywords)%nat eqn:Hn; [| reflexivity].
    apply Nat.ltb_lt in Hn. unfold of_nat at 1. unfold of_nat.
    rewrite fdiv_of_Z by lia. reflexivity.
  - intros Hk He. unfold score, ExamSchedulingDSS.calculate_expertise_match.
    fold keywords. rewrite filter_all.
    + destruct keywords as [|k ks]; [congruence |].
      replace (0 <? length (k :: ks))%nat with true by reflexivity.
      rewrite fdiv_same_nat by (simpl; lia). reflexivity.
    + intros keyword _. apply existsb_exists. exists EmptyString. split.
      * apply in_map_iff. exists EmptyString. split; [reflexivity |].
        apply list_elem_of_In, He.
      * apply orb_true_iff. right. destruct keyword; reflexivity.
Qed.

Lemma in_unit_above_one (q : Q) : (1 < q)%Q -> ExaminerEvaluation.in_unit (Fin q) = false.
Proof.
  intros Hq. unfold ExaminerEvaluation.in_unit. apply andb_false_iff. right.
  apply not_true_iff_false. unfold one. rewrite fleb_fin. lra.
Qed.

(** X2.  The evaluation of an examiner returns exactly when the load
    counter is not negative and below the overflow range of the division
    by [max_workload]: a negative counter makes the workload factor
    exceed the bound [le=1] and the constructor raises the validation
    error, and a counter whose distance from 10 reaches ten times the
    float range makes the division raise [OverflowError].  On return the
    availability factor is 1 or 0 according to the timeslot being among
    the examiner's, and the expertise match is the compatibility score. *)
Theorem evaluate_examiner_validation (examiner : Examiner.t) (student : Student.t)
    (timeslot_id : Z) :
  let workload := Examiner.workload examiner in
  let range := 10 * Py.float_overflow in
  (0 <= workload < 10 + range ->
   exists evaluation,
     ExamSchedulingDSS.evaluate_examiner_for_student examiner student timeslot_id
     = Ok evaluation
     /\ ExaminerEvaluation.expertise_match evaluation
        = ExamSchedulingDSS.calculate_expertise_match examiner student
     /\ ExaminerEvaluation.compatibility_score evaluation
        = ExaminerEvaluation.expertise_match evaluation
     /\ ExaminerEvaluation.availability_factor evaluation
        = (if Py.int_in timeslot_id (Examiner.available_timeslots examiner)
           then one else zero)
     /\ in_unit_interval (ExaminerEvaluation.workload_factor evaluation))
  /\ (10 - range < workload < 0 ->
      ExamSchedulingDSS.evaluate_examiner_for_student examiner student timeslot_id
      = Raise ValidationError)
  /\ (workload <= 10 - range \/ 10 + range <= workload ->
      ExamSchedulingDSS.evaluate_examiner_for_student examiner student timeslot_id
      = Raise OverflowError).
Proof.
  intros workload range. pose proof float_overflow_int64 as Hbig.
  split; [| split].
  - intros Hw.
    destruct (evaluate_examiner_for_student_returns examiner student timeslot_id Hw)
      as [evaluation Hev].
    exists evaluation. split; [exact Hev |].
    unfold ExamSchedulingDSS.evaluate_examiner_for_student in Hev.
    destruct (Py.int_truediv _ _) as [ratio|e]; cbn [mbind result_bind] in Hev;
      [| discriminate].
    unfold ExaminerEvaluation.make in Hev.
    destruct (_ && _) eqn:Hvalid in Hev; [| discriminate].
    injection Hev as <-. simpl. repeat split.
    apply andb_true_iff in Hvalid as [Hvalid _].
    apply andb_true_iff in Hvalid as [_ Hfactor].
    unfold ExaminerEvaluation.in_unit in Hfactor.
    apply andb_true_iff in Hfactor as [H0 H1].
    destruct (py_max zero _) as [q| | |]; try discriminate.
    exists q. split; [reflexivity |]. unfold zero, one in *.
    apply fleb_fin in H0, H1. split; assumption.
  - intros Hw. unfold ExamSchedulingDSS.evaluate_examiner_for_student.
    fold workload. rewrite int_truediv_ok by (unfold range in Hw; lia).
    cbn [mbind result_bind]. unfold ExaminerEvaluation.make.
    rewrite fdiv_of_Z by lia.
    assert (Hbig1 : (1 < Qred (inject_Z (10 - workload) / inject_Z 10))%Q).
    { rewrite Qred_correct. apply Qlt_shift_div_l; [reflexivity |].
      rewrite Qmult_1_l, <- Zlt_Qlt. lia. }
    assert (Hfactor : ExaminerEvaluation.in_unit
              (py_max zero (Fin (Qred (inject_Z (10 - workload) / inject_Z 10))))
            = false).
    { unfold py_max, zero, fltb. rewrite (proj2 (Qltb_lt _ _)) by lra.
      apply in_unit_above_one, Hbig1. }
    rewrite Hfactor, andb_false_r. reflexivity.
  - intros Hw. unfold ExamSchedulingDSS.evaluate_examiner_for_student.
    fold workload. rewrite int_truediv_overflow by (unfold range in Hw; lia).
    reflexivity.
Qed.

(** X2 at an examiner of [test_method_comparison] with the load counters
    2, -1 and 10^400. *)
Lemma evaluate_examiner_validation_witness :
  let examiner w :=
    Examiner.mk 2 "Dr. Test2" "Professor" ["computer science"%string] 8 w
                (Fin 4) (Fin 4) [1] in
  (exists evaluation,
     ExamSchedulingDSS.evaluate_examiner_for_student (examiner 2) Sample.student1 1
     = Ok evaluation
     /\ in_unit_interval (ExaminerEvaluation.workload_factor evaluation))
  /\ ExamSchedulingDSS.evaluate_examiner_for_student (examiner (-1)) Sample.student1 1
     = Raise ValidationError
  /\ ExamSchedulingDSS.evaluate_examiner_for_student (examiner (10 ^ 400))
       Sample.student1 1
     = Raise OverflowError.
Proof.
  intros examiner. split; [| split].
  - destruct (evaluate_examiner_validation (examiner 2) Sample.student1 1)
      as (Hreturns & _).
    destruct Hreturns as (evaluation & Hev & _ & _ & _ & Hfactor);
      [vm_compute; split; [discriminate | reflexivity] |].
    exists evaluation. split; [exact Hev | exact Hfactor].
  - apply (evaluate_examiner_validation (examiner (-1)) Sample.student1 1).
    vm_compute. split; reflexivity.
  - apply (evaluate_examiner_validation (examiner (10 ^ 400)) Sample.student1 1).
    right. vm_compute. discriminate.
Defined.

Lemma py_min_one_unit (a : Q) :
  (0 <= a)%Q -> exists q, py_min (Fin a) one = Fin q /\ (0 <= q <= 1)%Q.
Proof.
  intros Ha. unfold py_min, one, fltb. destruct (Qltb 1 a) eqn:Hlt.
  - exists 1%Q. split; [reflexivity |]. split; discriminate.
  - apply Qltb_ge in Hlt. exists a. split; [reflexivity |]. split; assumption.
Qed.

(** The suitability of a room within the ranges of the data model. *)
Lemma evaluate_room_suitability_unit (room : Room.t) (student : Student.t)
    (quality : Q) (room_score : num) :
  0 <= Room.capacity room ->
  Room.quality_score room = Fin quality -> (0 <= quality <= 5)%Q ->
  ExamSchedulingDSS.evaluate_room_suitability room student = Ok room_score ->
  in_unit_interval room_score.
Proof.
  intros Hcap Hq [Hq0 Hq5]. unfold ExamSchedulingDSS.evaluate_room_suitability.
  destruct (Py.int_truediv _ _) as [ratio|e] eqn:Hdiv; cbn [mbind result_bind];
    [| discriminate].
  apply int_truediv_inv in Hdiv as ->. intros [= <-].
  rewrite Hq.
  destruct (py_min_one_unit (Qred (inject_Z (Room.capacity room) / inject_Z 10)))
    as (c & -> & Hc0 & Hc1).
  { rewrite Qred_correct. apply Qle_shift_div_l; [reflexivity |].
    rewrite Qmult_0_l. change (inject_Z 0 <= inject_Z (Room.capacity room))%Q.
    rewrite <- Zle_Qle. exact Hcap. }
  rewrite (fdiv_fin quality 5) by discriminate.
  destruct (py_min_one_unit
              (Qred (inject_Z (Z.of_nat (length (Room.facilities room))) / 10)))
    as (f & -> & Hf0 & Hf1).
  { rewrite Qred_correct. apply Qle_shift_div_l; [reflexivity |].
    rewrite Qmult_0_l. change (inject_Z 0 <= inject_Z (Z.of_nat (length (Room.facilities room))))%Q.
    rewrite <- Zle_Qle. lia. }
  rewrite !fmul_fin, !fadd_fin. eexists. split; [reflexivity |].
  rewrite !Qred_correct.
  assert (Hd : (0 <= quality / 5 <= 1)%Q) by (apply Qdiv_unit; lra).
  destruct Hd as [Hd0 Hd1].
  split.
  - assert (0 <= c * (5 # 10))%Q by nra.
    assert (0 <= quality / 5 * (3 # 10))%Q by nra.
    assert (0 <= f * (2 # 10))%Q by nra. lra.
  - assert (c * (5 # 10) <= 5 # 10)%Q by nra.
    assert (quality / 5 * (3 # 10) <= 3 # 10)%Q by nra.
    assert (f * (2 # 10) <= 2 # 10)%Q by nra. lra.
Qed.

(** X3.  For a room with a capacity that is not negative and a quality
    score between 0 and 5 (the data model has 1 to 5) the suitability
    score, when the evaluation returns one, is a finite number of [0, 1];
    the evaluation returns when the capacity is below ten times the float
    range, and raises [OverflowError] in the division by
    [required_capacity] otherwise. *)
Theorem room_suitability_in_unit_interval (room : Room.t) (student : Student.t)
    (quality : Q) :
  0 <= Room.capacity room ->
  Room.quality_score room = Fin quality -> (0 <= quality <= 5)%Q ->
  (forall room_score,
     ExamSchedulingDSS.evaluate_room_suitability room student = Ok room_score ->
     in_unit_interval room_score)
  /\ (Room.capacity room < 10 * Py.float_overflow ->
      exists room_score,
        ExamSchedulingDSS.evaluate_room_suitability room student = Ok room_score)
  /\ (10 * Py.float_overflow <= Room.capacity room ->
      ExamSchedulingDSS.evaluate_room_suitability room student = Raise OverflowError).
Proof.
  intros Hcap Hq Hrange. split; [| split].
  - intros room_score. apply (evaluate_room_suitability_unit _ _ _ _ Hcap Hq Hrange).
  - intros Hlt. unfold ExamSchedulingDSS.evaluate_room_suitability.
    rewrite int_truediv_ok by lia. cbn [mbind result_bind]. eexists. reflexivity.
  - intros Hge. unfold ExamSchedulingDSS.evaluate_room_suitability.
    rewrite int_truediv_overflow by lia. reflexivity.
Qed.

(** X3 at the room of [test_method_comparison] and at that room with a
    capacity of 10^400. *)
Lemma room_suitability_in_unit_interval_witness :
  (exists room_score,
     ExamSchedulingDSS.evaluate_room_suitability Sample.room1 Sample.student1
     = Ok room_score
     /\ in_unit_interval room_score)
  /\ ExamSchedulingDSS.evaluate_room_suitability
       (Room.mk 1 "R1" (10 ^ 400) ["projector"%string] "A" (Fin 4)) Sample.student1
     = Raise OverflowError.
Proof.
  split.
  - destruct (room_suitability_in_unit_interval Sample.room1 Sample.student1 4)
      as (Hunit & Hreturns & _).
    + simpl. lia.
    + reflexivity.
    + split; discriminate.
    + destruct Hreturns as [room_score Hscore]; [vm_compute; reflexivity |].
      exists room_score. split; [exact Hscore | apply (Hunit _ Hscore)].
  - apply (room_suitability_in_unit_interval
             (Room.mk 1 "R1" (10 ^ 400) ["projector"%string] "A" (Fin 4))
             Sample.student1 4).
    + vm_compute. discriminate.
    + reflexivity.
    + split; discriminate.
    + vm_compute. discriminate.
Defined.

(** X4.  The constraint check accepts a new exam exactly when it is
    compatible with every exam of the schedule: no exam of the same
    timeslot is in the same room or shares an examiner with it. *)
Theorem check_scheduling_constraints_iff (schedule : list ScheduleResult.t)
    (new_exam : ScheduleResult.t) :
  ExamSchedulingDSS.check_scheduling_constraints schedule new_exam = true
  <-> Forall (fun existing => compatible existing new_exam) schedule.
Proof.
  induction schedule as [|a l IH]; simpl; [split; [constructor | reflexivity] |].
  rewrite Forall_cons. unfold compatible at 1.
  destruct (ScheduleResult.timeslot_id a =? ScheduleResult.timeslot_id new_exam)
    eqn:Hslot.
  - apply Z.eqb_eq in Hslot.
    destruct (ScheduleResult.room_id a =? ScheduleResult.room_id new_exam) eqn:Hroom.
    + apply Z.eqb_eq in Hroom. split; [discriminate |].
      intros [Hc _]. destruct (Hc Hslot) as [Hne _]. contradiction.
    + apply Z.eqb_neq in Hroom. destruct (existsb _ _) eqn:Hex.
      * split; [discriminate |]. intros [Hc _]. destruct (Hc Hslot) as [_ Hdis].
        apply existsb_exists in Hex as (x & Hx & Hin). exfalso.
        apply (Hdis x); [apply list_elem_of_In, Hx | apply int_in_elem, Hin].
      * rewrite IH. split; [| intros [_ Hl]; exact Hl].
        intros Hl. split; [| exact Hl]. intros _. split; [exact Hroom |].
        intros x Ha Hn. apply not_true_iff_false in Hex. apply Hex, existsb_exists.
        exists x. split; [apply list_elem_of_In, Ha | apply int_in_elem, Hn].
  - apply Z.eqb_neq in Hslot. rewrite IH. split; [| intros [_ Hl]; exact Hl].
    intros Hl. split; [intros E; contradiction | exact Hl].
Qed.

(** ** The selection of examiners *)

Lemma length_filter_find {A} (f : A -> Z) (k : Z) (l : list A) (x : A) :
  NoDup (map f l) -> List.find (fun e => f e =? k) l = Some x ->
  S (length (List.filter (fun e => negb (f e =? k)) l)) = length l.
Proof.
  induction l as [|y l IH]; simpl; [discriminate |].
  intros Hnd Hfind. apply NoDup_cons in Hnd as [Hy Hnd].
  destruct (f y =? k) eqn:Hk; simpl.
  - apply Z.eqb_eq in Hk. rewrite filter_all; [reflexivity |].
    intros z Hz. apply negb_true_iff, Z.eqb_neq. intros Hfz. apply Hy.
    rewrite Hk, <- Hfz. apply list_elem_of_fmap. exists z. split; [reflexivity | exact Hz].
  - rewrite (IH Hnd Hfind). reflexivity.
Qed.

Lemma NoDup_map_filter {A B} (f : A -> B) (p : A -> bool) (l : list A) :
  NoDup (map f l) -> NoDup (map f (List.filter p l)).
Proof.
  intros Hnd. apply (sublist_NoDup _ (map f l)); [exact Hnd |].
  apply fmap_sublist, filter_sublist.
Qed.

Lemma length_slice_to {A} (k : Z) (l : list A) :
  0 <= k <= Z.of_nat (length l) -> Z.of_nat (length (Py.slice_to k l)) = k.
Proof.
  intros Hk. unfold Py.slice_to. rewrite (proj2 (Z.leb_le 0 k)) by lia.
  rewrite length_take. lia.
Qed.

Lemma filter_Forall {A} (p : A -> bool) (l : list A) :
  Forall (fun x => p x = true) (List.filter p l).
Proof.
  induction l as [|x l IH]; simpl; [constructor |].
  destruct (p x) eqn:Hp; [constructor; assumption | exact IH].
Qed.

Section Selection.
Context `{NpSqrt}.

(** X5.  When the examiner ids are distinct and at least one examiner is
    required, a selection is empty or has exactly [required_count]
    members: the supervisor first, with the fixed score 0.9, then
    examiners other than the supervisor; and every member is one of the
    given examiners who lists the timeslot as available. *)
Theorem select_best_examiners_size (student : Student.t) (examiners : list Examiner.t)
    (timeslot_id required_count : Z) (criteria : option (list Criteria.t))
    (method : string) (selected : list (Examiner.t * num)) :
  NoDup (map Examiner.id examiners) -> 1 <= required_count ->
  ExamSchedulingDSS.select_best_examiners student examiners timeslot_id required_count
    criteria method = Ok selected ->
  selected = []
  \/ Z.of_nat (length selected) = required_count
     /\ Forall (fun p => p.1 ∈ examiners
                         /\ timeslot_id ∈ Examiner.available_timeslots p.1) selected
     /\ exists supervisor rest,
          selected = (supervisor, ExamSchedulingDSS.supervisor_score) :: rest
          /\ Examiner.id supervisor = Student.supervisor_id student
          /\ Forall (fun p => Examiner.id p.1 <> Student.supervisor_id student) rest.
Proof.
  intros Hnd Hreq. unfold ExamSchedulingDSS.select_best_examiners.
  set (available := List.filter _ examiners).
  destruct (Z.of_nat (length available) <? required_count) eqn:Hfew;
    [intros [= <-]; left; reflexivity |].
  apply Z.ltb_ge in Hfew.
  destruct (List.find _ available) as [supervisor|] eqn:Hfind;
    [| intros [= <-]; left; reflexivity].
  set (regular := List.filter _ available).
  destruct (mapM_result _ regular) as [decision_matrix|e] eqn:Hrows; simpl;
    [| discriminate].
  destruct decision_matrix as [|row rows] eqn:HM; [intros [= <-]; left; reflexivity |].
  rewrite <- HM in *.
  destruct (MCDMEngine.evaluate_alternatives _ _ _) as [[scores weights]|e] eqn:Heval;
    simpl; [| discriminate].
  destruct (ExamSchedulingDSS.evaluate_examiner_for_student supervisor _ _); simpl;
    [| discriminate].
  intros [= <-]. right.
  assert (Hlen : length decision_matrix = length regular).
  { symmetry. eapply Forall2_length.
    apply (mapM_result_Forall2 (fun _ _ => True) _ _ _ (fun _ _ _ _ => I) Hrows). }
  assert (Hshape : Forall (fun r => length r = length (default ExamSchedulingDSS.default_criteria criteria))
                          decision_matrix).
  { eapply mapM_result_Forall; [| exact Hrows]. intros x y _ Hy. cbn beta in Hy.
    destruct (ExamSchedulingDSS.evaluate_examiner_for_student x student timeslot_id);
      simpl in Hy; [| discriminate].
    injection Hy as <-. unfold ExamSchedulingDSS.decision_row. apply length_map. }
  assert (Hscores : length scores = length regular).
  { pose proof (evaluate_alternatives_well_shaped decision_matrix _ method
                  ltac:(rewrite HM; discriminate) Hshape) as Hw.
    rewrite (evaluate_alternatives_supported _ _ _ _ Heval) in Hw.
    destruct Hw as (scores' & weights' & Heq & Hl).
    rewrite Heval in Heq. injection Heq as -> ->. rewrite Hl. exact Hlen. }
  assert (Hreg : S (length regular) = length available).
  { apply (length_filter_find Examiner.id _ _ supervisor); [| exact Hfind].
    apply NoDup_map_filter, Hnd. }
  set (sorted := Py.sorted_desc snd (zip regular scores)).
  assert (Hsorted : length sorted = length regular).
  { unfold sorted. rewrite (Permutation_length (sorted_desc_perm _ _)).
    rewrite length_zip. lia. }
  assert (Hin : Forall (fun p : Examiner.t * num => p.1 ∈ regular)
                       (Py.slice_to (required_count - 1) sorted)).
  { apply (Forall_sublist _ _ sorted); [apply slice_to_sublist |].
    unfold sorted. rewrite sorted_desc_perm. apply Forall_forall.
    intros [e s] Hes. apply elem_of_zip_l in Hes. exact Hes. }
  assert (Hsub : forall e, e ∈ available ->
             e ∈ examiners /\ timeslot_id ∈ Examiner.available_timeslots e).
  { intros e He. apply list_elem_of_In, filter_In in He as [He Ha].
    split; [apply list_elem_of_In, He | apply int_in_elem, Ha]. }
  assert (Hother : forall e, e ∈ regular ->
             e ∈ available /\ Examiner.id e <> Student.supervisor_id student).
  { intros e He. apply list_elem_of_In, filter_In in He as [He Ha].
    split; [apply list_elem_of_In, He | apply Z.eqb_neq, negb_true_iff, Ha]. }
  apply find_some in Hfind as [Hsup Hid]. apply Z.eqb_eq in Hid.
  split; [| split].
  - cbn [length]. rewrite Nat2Z.inj_succ, length_slice_to; lia.
  - constructor; [apply Hsub, list_elem_of_In, Hsup |].
    eapply Forall_impl; [exact Hin |]. intros p Hp. apply Hsub, Hother, Hp.
  - eexists _, _. split; [reflexivity |]. split; [exact Hid |].
    eapply Forall_impl; [exact Hin |]. intros p Hp. apply Hother, Hp.
Qed.

End Selection.

(** X5 at the examiners of [test_method_comparison], with three examiners
    required. *)
Lemma select_best_examiners_size_witness :
  exists selected,
    ExamSchedulingDSS.select_best_examiners (H := Sample.sqrt_trunc_impl)
      Sample.student1 (Sample.examiners_with 0 1 2) 1 3 None "TOPSIS" = Ok selected
    /\ Z.of_nat (length selected) = 3.
Proof.
  destruct (ExamSchedulingDSS.select_best_examiners (H := Sample.sqrt_trunc_impl)
              Sample.student1 (Sample.examiners_with 0 1 2) 1 3 None "TOPSIS")
    as [selected|e] eqn:E; [| vm_compute in E; discriminate E].
  exists selected. split; [reflexivity |].
  assert (Hnd : NoDup (map Examiner.id (Sample.examiners_with 0 1 2))).
  { apply (bool_decide_unpack _). vm_compute. exact I. }
  destruct (select_best_examiners_size (H := Sample.sqrt_trunc_impl)
              Sample.student1 (Sample.examiners_with 0 1 2) 1 3 None "TOPSIS" selected
              Hnd ltac:(lia) E) as [-> | [Hlen _]];
    [vm_compute in E; discriminate E | exact Hlen].
Defined.

(** ** What a step commits *)

Lemma fltb_trans (a b c : num) : fltb a b = true -> fltb b c = true -> fltb a c = true.
Proof.
  destruct a as [x| | |], b as [y| | |], c as [z| | |]; simpl;
    try discriminate; try reflexivity.
  rewrite !Qltb_lt. apply Qlt_trans.
Qed.

Section Placement.
Context `{NpSqrt}.

Lemma select_best_examiners_available student examiners timeslot_id required_count
    criteria method selected :
  select_best_examiners student examiners timeslot_id required_count criteria method
  = Ok selected ->
  Forall (fun p => p.1 ∈ examiners /\ timeslot_id ∈ Examiner.available_timeslots p.1)
         selected.
Proof.
  unfold select_best_examiners.
  set (available := List.filter _ examiners).
  assert (Hsub : forall e, e ∈ available ->
             e ∈ examiners /\ timeslot_id ∈ Examiner.available_timeslots e).
  { intros e He. apply list_elem_of_In, filter_In in He as [He Ha].
    split; [apply list_elem_of_In, He | apply int_in_elem, Ha]. }
  destruct (Z.of_nat (length available) <? required_count);
    [intros [= <-]; constructor |].
  destruct (List.find _ available) as [supervisor|] eqn:Hfind;
    [| intros [= <-]; constructor].
  set (regular := List.filter _ available).
  destruct (mapM_result _ regular) as [decision_matrix|e]; simpl; [| discriminate].
  destruct decision_matrix as [|row rows]; [intros [= <-]; constructor |].
  destruct (MCDMEngine.evaluate_alternatives _ _ _) as [[scores weights]|e];
    simpl; [| discriminate].
  destruct (evaluate_examiner_for_student supervisor _ _); simpl; [| discriminate].
  intros [= <-]. apply find_some in Hfind as [Hsup _].
  constructor; [apply Hsub, list_elem_of_In, Hsup |].
  apply (Forall_sublist _ _ (Py.sorted_desc snd (zip regular scores)));
    [apply slice_to_sublist |].
  rewrite sorted_desc_perm. apply Forall_forall.
  intros [e s] Hes. apply elem_of_zip_l in Hes. apply Hsub.
  apply list_elem_of_In, filter_In in Hes as [Hes _]. apply list_elem_of_In, Hes.
Qed.

Lemma try_room_best_placed rooms timeslots st session student timeslot selected best room
    best' :
  timeslot ∈ timeslots -> room ∈ rooms ->
  Forall (fun p => p.1 ∈ examiners st
                   /\ TimeSlot.id timeslot ∈ Examiner.available_timeslots p.1) selected ->
  ExamSession.required_examiners session <= Z.of_nat (length selected) ->
  best_placed rooms timeslots (examiners st) session student best ->
  try_room (schedule st) session student timeslot selected best room = Ok best' ->
  best_placed rooms timeslots (examiners st) session student best'.
Proof.
  intros Ht Hr Hsel Hreq Hbest. unfold try_room.
  destruct (evaluate_room_suitability room student) as [room_score|e] eqn:Hroom;
    cbn [mbind result_bind]; [| discriminate].
  cbv zeta.
  destruct (check_scheduling_constraints _ _); [| intros [= <-]; exact Hbest].
  destruct (fgtb _ _) eqn:Hgt; intros [= <-]; [| exact Hbest].
  unfold best_placed. cbn [fst snd]. split; [| reflexivity].
  unfold placed. cbn [ScheduleResult.exam_id ScheduleResult.student_name
    ScheduleResult.timeslot_id ScheduleResult.room_id ScheduleResult.assigned_examiners
    ScheduleResult.total_score ScheduleResult.criteria_scores].
  split; [reflexivity |]. split; [reflexivity |].
  split; [exists timeslot; split; [exact Ht | reflexivity] |].
  split; [exists room, room_score; split; [exact Hr |]; split; [reflexivity |];
          split; [exact Hroom | reflexivity] |].
  split; [| split; [| split; [| split]]].
  - intros x Hx. apply list_elem_of_fmap in Hx as (p & -> & Hp).
    rewrite Forall_forall in Hsel. destruct (Hsel p Hp) as [He Ha].
    exists p.1. split; [exact He | split; [reflexivity | exact Ha]].
  - destruct selected; [| discriminate]. exfalso. cbn [map] in Hgt.
    rewrite np_mean_nil, fmul_nan_l, fadd_nan_l, fgtb_nan_l in Hgt. discriminate.
  - rewrite length_map. exact Hreq.
  - unfold best_placed in Hbest. unfold fgtb in *.
    destruct best as [[r|] score]; cbn [fst snd] in *.
    + destruct Hbest as [Hp ->].
      destruct Hp as (_ & _ & _ & _ & _ & _ & _ & Hscore & _).
      eapply fltb_trans; [exact Hscore | exact Hgt].
    + rewrite Hbest in Hgt. exact Hgt.
  - reflexivity.
Qed.

Lemma try_timeslot_best_placed rooms timeslots st criteria method session student best
    timeslot best' :
  timeslot ∈ timeslots ->
  best_placed rooms timeslots (examiners st) session student best ->
  try_timeslot st rooms criteria method session student best timeslot = Ok best' ->
  best_placed rooms timeslots (examiners st) session student best'.
Proof.
  intros Ht Hbest. unfold try_timeslot.
  destruct (select_best_examiners _ _ _ _ _ _) as [selected|e] eqn:Hsel; simpl;
    [| discriminate].
  apply select_best_examiners_available in Hsel.
  destruct (_ <? _) eqn:Hfew; [intros [= <-]; exact Hbest |].
  apply Z.ltb_ge in Hfew. intros Hfold.
  apply (foldM_invariant
           (best_placed rooms timeslots (examiners st) session student) _ _ _ _)
    in Hfold; [exact Hfold | | exact Hbest].
  intros b room b' Hroom Hb Htry.
  apply (try_room_best_placed _ _ _ _ _ _ _ _ _ _ Ht Hroom Hsel Hfew Hb Htry).
Qed.

(** A session is recorded as infeasible, or a placed result is committed
    and its own score is added to the total. *)
Lemma process_session_placed student_lookup rooms timeslots criteria method st session st' :
  process_session student_lookup rooms timeslots criteria method st session = Ok st' ->
  st' = record_infeasible st session
  \/ exists student r,
       student_lookup !! ExamSession.student_id session = Some student
       /\ st' = commit st r (ScheduleResult.total_score r)
       /\ placed rooms timeslots (examiners st) session student r.
Proof.
  unfold process_session.
  destruct (student_lookup !! _) as [student|] eqn:Hlook;
    [| intros [= <-]; left; reflexivity].
  destruct (foldM _ _ _) as [best|e] eqn:Hfold; simpl; [| discriminate].
  assert (Hbest : best_placed rooms timeslots (examiners st) session student best).
  { apply (foldM_invariant
             (best_placed rooms timeslots (examiners st) session student) _ _ _ _)
      in Hfold.
    - exact Hfold.
    - intros b t b' Hin Hb Ht.
      apply (try_timeslot_best_placed _ _ _ _ _ _ _ _ _ _ Hin Hb Ht).
    - reflexivity. }
  unfold best_placed in Hbest.
  destruct best as [[r|] score]; cbn [fst snd] in *; intros [= <-]; [| left; reflexivity].
  right. destruct Hbest as [Hp ->]. exists student, r.
  split; [reflexivity | split; [reflexivity | exact Hp]].
Qed.

End Placement.

Lemma frame_elem (es es0 : list Examiner.t) (e : Examiner.t) :
  map (Examiner.with_workload 0) es = map (Examiner.with_workload 0) es0 ->
  e ∈ es ->
  exists e0, e0 ∈ es0 /\ Examiner.id e0 = Examiner.id e
             /\ Examiner.available_timeslots e0 = Examiner.available_timeslots e.
Proof.
  intros Hframe He.
  assert (Hin : Examiner.with_workload 0 e ∈ map (Examiner.with_workload 0) es0).
  { rewrite <- Hframe. apply list_elem_of_fmap. exists e. split; [reflexivity | exact He]. }
  apply list_elem_of_fmap in Hin as (e0 & Heq & He0).
  exists e0. split; [exact He0 |].
  split; [exact (f_equal Examiner.id (eq_sym Heq))
         | exact (f_equal Examiner.available_timeslots (eq_sym Heq))].
Qed.

Lemma placed_frame rooms timeslots es es0 session student r :
  map (Examiner.with_workload 0) es = map (Examiner.with_workload 0) es0 ->
  placed rooms timeslots es session student r ->
  placed rooms timeslots es0 session student r.
Proof.
  intros Hframe (Hid & Hname & Hslot & Hroom & Hex & Hrest).
  split; [exact Hid |]. split; [exact Hname |]. split; [exact Hslot |].
  split; [exact Hroom |]. split; [| exact Hrest].
  intros x Hx. destruct (Hex x Hx) as (e & He & Hxe & Ha).
  destruct (frame_elem _ _ _ Hframe He) as (e0 & He0 & Hid0 & Ha0).
  exists e0. split; [exact He0 |]. split; [congruence |]. rewrite Ha0. exact Ha.
Qed.

Section Committed.
Context `{NpSqrt}.

(** The assignments committed so far are placed, in every state in which
    the call returns or raises. *)
Lemma schedule_placed (students : list Student.t)
    (examiners : list Examiner.t) (rooms : list Room.t) (timeslots : list TimeSlot.t)
    (exam_sessions : list ExamSession.t) (criteria : option (list Criteria.t))
    (method : string) (out : result DSSSolution.t) (st : run_state) :
  generate_schedule students examiners rooms timeslots exam_sessions criteria method
  = (out, st) ->
  Forall (fun a => exists session student,
            session ∈ exam_sessions
            /\ Py.dict (map (fun s => (Student.id s, s)) students)
                 !! ExamSession.student_id session = Some student
            /\ placed rooms timeslots examiners session student a)
         (schedule st).
Proof.
  intros Hgen.
  set (P := fun s : run_state =>
              map (Examiner.with_workload 0) (ExamSchedulingDSS.examiners s)
              = map (Examiner.with_workload 0) examiners
              /\ Forall (fun a => exists session student,
                           session ∈ exam_sessions
                           /\ Py.dict (map (fun s => (Student.id s, s)) students)
                                !! ExamSession.student_id session = Some student
                           /\ placed rooms timeslots examiners session student a)
                        (schedule s)).
  assert (Hinv : P st); [| exact (proj2 Hinv)].
  apply (generate_schedule_invariant students examiners rooms timeslots exam_sessions
           criteria method P out st);
    [split; [reflexivity | constructor] | | exact Hgen].
  intros s session s' Hin [Hframe Hs] Hstep.
  apply process_session_placed in Hstep as [-> | (student & r & Hlook & -> & Hp)];
    [split; assumption |].
  split; [simpl; rewrite update_workloads_frame; exact Hframe |].
  simpl. apply Forall_app. split; [exact Hs |]. constructor; [| constructor].
  exists session, student. split; [exact Hin |]. split; [exact Hlook |].
  apply (placed_frame _ _ _ _ _ _ _ Hframe Hp).
Qed.

(** X6.  Every assignment of a returned solution is placed: it carries
    the id of one of the sessions and the name of that session's student;
    its timeslot and its room are a timeslot and a room of the input; each
    of its examiners is an examiner of the input who lists that timeslot
    as available; it has at least one examiner and at least as many as the
    session requires; its score is not [nan] and exceeds -1; and its
    score table holds that score and the suitability of its room. *)
Theorem committed_assignments_placed (students : list Student.t)
    (examiners : list Examiner.t) (rooms : list Room.t) (timeslots : list TimeSlot.t)
    (exam_sessions : list ExamSession.t) (criteria : option (list Criteria.t))
    (method : string) (solution : DSSSolution.t) (st : run_state)
    (a : ScheduleResult.t) :
  generate_schedule students examiners rooms timeslots exam_sessions criteria method
  = (Ok solution, st) ->
  a ∈ DSSSolution.schedule solution ->
  exists session student,
    session ∈ exam_sessions
    /\ Py.dict (map (fun s => (Student.id s, s)) students)
         !! ExamSession.student_id session = Some student
    /\ placed rooms timeslots examiners session student a.
Proof.
  intros Hgen Ha.
  destruct (generate_schedule_run _ _ _ _ _ _ _ _ _ Hgen) as (raised & _ & _ & _ & _ & Hok).
  destruct (Hok solution eq_refl) as (_ & _ & Hsched & _). rewrite Hsched in Ha.
  pose proof (schedule_placed _ _ _ _ _ _ _ _ _ Hgen) as Hall.
  rewrite Forall_forall in Hall. apply Hall, Ha.
Qed.

End Committed.

(** X6 at the data of [test_method_comparison]. *)
Lemma committed_assignments_placed_witness :
  exists solution st a,
    Sample.run_sample 0 1 2 [Sample.session1] "TOPSIS" = (Ok solution, st)
    /\ a ∈ DSSSolution.schedule solution
    /\ exists session student,
         session ∈ [Sample.session1]
         /\ Py.dict (map (fun s => (Student.id s, s)) [Sample.student1])
              !! ExamSession.student_id session = Some student
         /\ placed [Sample.room1] [Sample.slot1] (Sample.examiners_with 0 1 2)
                   session student a.
Proof.
  destruct (Sample.run_sample 0 1 2 [Sample.session1] "TOPSIS")
    as [[solution|e] st] eqn:E; [| vm_compute in E; discriminate E].
  assert (Hne : DSSSolution.schedule solution <> []).
  { vm_compute in E. injection E as <- _. discriminate. }
  destruct (DSSSolution.schedule solution) as [|a l] eqn:Hsched; [congruence |].
  exists solution, st, a. split; [reflexivity |].
  split; [rewrite Hsched; left |].
  apply (committed_assignments_placed (H := Sample.sqrt_trunc_impl)
           _ _ _ _ _ _ _ solution st a E).
  rewrite Hsched. left.
Defined.

(** ** The accounts of a run *)

Lemma merge_perm {A} (l1 l2 l : list A) : merge l1 l2 l -> l1 ++ l2 ≡ₚ l.
Proof.
  induction 1 as [|x l1 l2 l _ IH|x l1 l2 l _ IH]; simpl.
  - reflexivity.
  - rewrite IH. reflexivity.
  - rewrite <- IH. symmetry. apply Permutation_middle.
Qed.

Lemma merge_sublist {A} (l1 l2 l : list A) :
  merge l1 l2 l -> sublist l1 l /\ sublist l2 l.
Proof.
  induction 1 as [|x l1 l2 l _ [IH1 IH2]|x l1 l2 l _ [IH1 IH2]]; split;
    try (apply sublist_skip; assumption); try (apply sublist_cons; assumption).
  - constructor.
  - constructor.
Qed.

Lemma merge_nil_l {A} (l2 l : list A) : merge [] l2 l -> l2 = l.
Proof.
  intros Hm. remember [] as l1 eqn:E.
  induction Hm as [|x l1 l2 l _ IH|x l1 l2 l _ IH]; [reflexivity | discriminate |].
  f_equal. apply IH, E.
Qed.

Lemma np_sum_snoc (l : list num) (x : num) : np_sum (l ++ [x]) = fadd (np_sum l) x.
Proof. unfold np_sum. rewrite fold_left_app. reflexivity. Qed.

Lemma increment_workload_ids (x : Z) (es : list Examiner.t) :
  map Examiner.id (increment_workload x es) = map Examiner.id es.
Proof.
  induction es as [|e es IH]; simpl; [reflexivity |].
  destruct (Examiner.id e =? x); simpl; [reflexivity |]. f_equal. exact IH.
Qed.

Lemma increment_workload_total (x : Z) (es : list Examiner.t) :
  x ∈ map Examiner.id es ->
  total_workload (increment_workload x es) = total_workload es + 1.
Proof.
  unfold total_workload. induction es as [|e es IH]; simpl.
  - intros Hx. apply elem_of_nil in Hx. contradiction.
  - intros Hx. destruct (Examiner.id e =? x) eqn:He; simpl; [lia |].
    apply Z.eqb_neq in He. apply elem_of_cons in Hx as [Hx | Hx]; [congruence |].
    rewrite (IH Hx). lia.
Qed.

Lemma update_workloads_total (ids : list Z) (es : list Examiner.t) :
  Forall (fun x => x ∈ map Examiner.id es) ids ->
  total_workload (update_workloads ids es) = total_workload es + Z.of_nat (length ids).
Proof.
  unfold update_workloads. revert es.
  induction ids as [|x ids IH]; intros es Hall; simpl; [lia |].
  apply Forall_cons in Hall as [Hx Hall].
  rewrite IH by (rewrite increment_workload_ids; exact Hall).
  rewrite (increment_workload_total _ _ Hx). lia.
Qed.

Lemma assigned_entries_snoc (schedule : list ScheduleResult.t) (r : ScheduleResult.t) :
  assigned_entries (schedule ++ [r])
  = assigned_entries schedule + Z.of_nat (length (ScheduleResult.assigned_examiners r)).
Proof.
  unfold assigned_entries. induction schedule as [|a l IH]; simpl; [lia |].
  rewrite IH. lia.
Qed.

Section Accounts.
Context `{NpSqrt}.

(** The sessions processed without an exception are shared between the
    schedule and the infeasible list, each in the order of processing. *)
Lemma run_sessions_merge student_lookup rooms timeslots criteria method sessions st st' :
  run_sessions (process_session student_lookup rooms timeslots criteria method)
               st sessions = (st', None) ->
  exists committed infeasible,
    schedule st' = schedule st ++ committed
    /\ infeasible_exams st' = infeasible_exams st ++ infeasible
    /\ merge (map ScheduleResult.exam_id committed) infeasible
             (map ExamSession.id sessions).
Proof.
  revert st. induction sessions as [|x l IH]; intros st; simpl.
  - intros [= <-]. exists [], []. rewrite !app_nil_r. repeat split. constructor.
  - destruct (process_session _ _ _ _ _ st x) as [s1|e] eqn:Hstep; [| discriminate].
    intros Hrun. destruct (IH _ Hrun) as (c & i & Hc & Hi & Hm).
    apply process_session_placed in Hstep as [-> | (student & r & _ & -> & Hp)].
    + exists c, (ExamSession.id x :: i). simpl in Hc, Hi.
      split; [exact Hc |]. split; [rewrite Hi, <- app_assoc; reflexivity |].
      apply merge_r, Hm.
    + exists (r :: c), i. simpl in Hc, Hi.
      split; [rewrite Hc, <- app_assoc; reflexivity |]. split; [exact Hi |].
      simpl. destruct Hp as [<- _]. apply merge_l, Hm.
Qed.

Lemma generate_schedule_merge students examiners rooms timeslots exam_sessions criteria
    method solution st :
  generate_schedule students examiners rooms timeslots exam_sessions criteria method
  = (Ok solution, st) ->
  merge (map ScheduleResult.exam_id (DSSSolution.schedule solution))
        (DSSSolution.infeasible_exams solution)
        (map ExamSession.id (Py.sorted_desc ExamSession.priority exam_sessions)).
Proof.
  intros Hgen.
  destruct (generate_schedule_run _ _ _ _ _ _ _ _ _ Hgen) as (raised & Hrun & _ & _ & _ & Hok).
  destruct (Hok solution eq_refl) as (-> & _ & -> & -> & _).
  apply run_sessions_merge in Hrun as (c & i & -> & -> & Hm). exact Hm.
Qed.

(** X7.  In a returned solution every session is accounted for exactly
    once: the session ids, taken in descending order of priority (equal
    priorities in input order), are an interleaving of the exam ids of
    the schedule and of the infeasible list, each in that order.  So the
    two lists together are a rearrangement of the session ids and their
    lengths add up to the number of sessions. *)
Theorem sessions_partitioned_in_priority_order (students : list Student.t)
    (examiners : list Examiner.t) (rooms : list Room.t) (timeslots : list TimeSlot.t)
    (exam_sessions : list ExamSession.t) (criteria : option (list Criteria.t))
    (method : string) (solution : DSSSolution.t) (st : run_state) :
  generate_schedule students examiners rooms timeslots exam_sessions criteria method
  = (Ok solution, st) ->
  let scheduled := map ScheduleResult.exam_id (DSSSolution.schedule solution) in
  let infeasible := DSSSolution.infeasible_exams solution in
  merge scheduled infeasible
        (map ExamSession.id (Py.sorted_desc ExamSession.priority exam_sessions))
  /\ scheduled ++ infeasible ≡ₚ map ExamSession.id exam_sessions
  /\ (length (DSSSolution.schedule solution) + length infeasible
      = length exam_sessions)%nat.
Proof.
  intros Hgen scheduled infeasible.
  pose proof (generate_schedule_merge _ _ _ _ _ _ _ _ _ Hgen) as Hm.
  fold scheduled infeasible in Hm. split; [exact Hm |].
  apply merge_perm in Hm. rewrite sorted_desc_perm in Hm.
  split; [exact Hm |].
  apply Permutation_length in Hm.
  rewrite length_app, !length_map in Hm. unfold scheduled in Hm.
  rewrite length_map in Hm. exact Hm.
Qed.

Lemma total_satisfaction_invariant students examiners rooms timeslots exam_sessions
    criteria method out st :
  generate_schedule students examiners rooms timeslots exam_sessions criteria method
  = (out, st) ->
  ExamSchedulingDSS.total_satisfaction st
  = np_sum (map ScheduleResult.total_score (schedule st)).
Proof.
  apply (generate_schedule_invariant students examiners rooms timeslots exam_sessions
           criteria method
           (fun s => ExamSchedulingDSS.total_satisfaction s
                     = np_sum (map ScheduleResult.total_score (schedule s))));
    [reflexivity |].
  intros s session s' _ Hs Hstep.
  apply process_session_placed in Hstep as [-> | (student & r & _ & -> & _)];
    [exact Hs |].
  unfold commit. cbn [schedule ExamSchedulingDSS.total_satisfaction].
  rewrite map_app. cbn [map]. rewrite np_sum_snoc, Hs. reflexivity.
Qed.

Lemma solution_total_satisfaction students examiners rooms timeslots exam_sessions
    criteria method solution st :
  generate_schedule students examiners rooms timeslots exam_sessions criteria method
  = (Ok solution, st) ->
  DSSSolution.total_satisfaction solution
  = match map ScheduleResult.total_score (DSSSolution.schedule solution) with
    | [] => Fin 0
    | _ :: _ => np_mean (map ScheduleResult.total_score (DSSSolution.schedule solution))
    end.
Proof.
  intros Hgen.
  pose proof (total_satisfaction_invariant _ _ _ _ _ _ _ _ _ Hgen) as Htotal.
  unfold generate_schedule in Hgen.
  destruct (run_sessions _ _ _) as [st1 [e|]]; [discriminate Hgen |].
  destruct (MCDMEngine.evaluate_alternatives _ _ _) as [[scores' weights]|e];
    [| discriminate Hgen].
  injection Hgen as <- <-. cbn [DSSSolution.total_satisfaction DSSSolution.schedule].
  rewrite Htotal.
  destruct (schedule st1) as [|a l]; [reflexivity |].
  unfold np_mean. rewrite length_map. reflexivity.
Qed.

(** X8.  The total satisfaction of a returned solution is the mean of the
    scores of its assignments, and 0 when there is none (in the exact
    arithmetic of the model).  Hence the analysis of a returned solution
    with at least one assignment reports the same number as overall
    quality and as average score. *)
Theorem total_satisfaction_is_mean_score (students : list Student.t)
    (examiners : list Examiner.t) (rooms : list Room.t) (timeslots : list TimeSlot.t)
    (exam_sessions : list ExamSession.t) (criteria : option (list Criteria.t))
    (method : string) (solution : DSSSolution.t) (st : run_state) :
  generate_schedule students examiners rooms timeslots exam_sessions criteria method
  = (Ok solution, st) ->
  let scores := map ScheduleResult.total_score (DSSSolution.schedule solution) in
  DSSSolution.total_satisfaction solution
  = match scores with [] => Fin 0 | _ :: _ => np_mean scores end
  /\ (DSSSolution.schedule solution <> [] ->
      exists analysis,
        analyze_schedule_quality solution = Ok analysis
        /\ analysis !! "overall_quality"%string = Some (np_mean scores)
        /\ analysis !! "average_score"%string = Some (np_mean scores)).
Proof.
  intros Hgen scores.
  pose proof (solution_total_satisfaction _ _ _ _ _ _ _ _ _ Hgen) as Hmean.
  fold scores in Hmean.
  split; [exact Hmean |]. intros Hne.
  unfold analyze_schedule_quality. fold scores in Hmean |- *.
  destruct (DSSSolution.schedule solution) as [|a l] eqn:Hsched; [congruence |].
  subst scores. cbn [map np_min np_max mbind result_bind] in *.
  eexists. split; [reflexivity |]. rewrite Hmean.
  unfold Py.dict. cbn [fold_left fst snd]. split; reflexivity.
Qed.

Lemma workload_account students examiners rooms timeslots exam_sessions criteria
    method out st :
  generate_schedule students examiners rooms timeslots exam_sessions criteria method
  = (out, st) ->
  total_workload (ExamSchedulingDSS.examiners st)
  = total_workload examiners + assigned_entries (schedule st).
Proof.
  apply (generate_schedule_invariant students examiners rooms timeslots exam_sessions
           criteria method
           (fun s => total_workload (ExamSchedulingDSS.examiners s)
                     = total_workload examiners + assigned_entries (schedule s)));
    [unfold assigned_entries; simpl; lia |].
  intros s session s' _ Hs Hstep.
  apply process_session_placed in Hstep as [-> | (student & r & _ & -> & Hp)];
    [exact Hs |].
  simpl. rewrite assigned_entries_snoc, update_workloads_total, Hs; [lia |].
  destruct Hp as (_ & _ & _ & _ & Hex & _). apply Forall_forall. intros x Hx.
  destruct (Hex x Hx) as (e & He & <- & _).
  apply list_elem_of_fmap. exists e. split; [reflexivity | exact He].
Qed.

(** X9.  Whether the call returns or raises, and also when examiner ids
    repeat, the load counters have grown in total by the number of
    examiner entries of the committed assignments: every entry raised
    exactly one counter by one. *)
Theorem workload_total_grows_by_assigned_entries (students : list Student.t)
    (examiners : list Examiner.t) (rooms : list Room.t) (timeslots : list TimeSlot.t)
    (exam_sessions : list ExamSession.t) (criteria : option (list Criteria.t))
    (method : string) (out : result DSSSolution.t) (st : run_state) :
  generate_schedule students examiners rooms timeslots exam_sessions criteria method
  = (out, st) ->
  total_workload (ExamSchedulingDSS.examiners st)
  = total_workload examiners + assigned_entries (schedule st)
  /\ map Examiner.id (ExamSchedulingDSS.examiners st) = map Examiner.id examiners
  /\ Forall2 (fun e e' => Examiner.workload e <= Examiner.workload e')
             examiners (ExamSchedulingDSS.examiners st).
Proof.
  intros Hgen. split; [apply (workload_account _ _ _ _ _ _ _ _ _ Hgen) |].
  pose proof (frame_invariant _ _ _ _ _ _ _ _ _ Hgen) as Hframe.
  split.
  - apply (f_equal (map Examiner.id)) in Hframe. rewrite !map_map in Hframe.
    exact Hframe.
  - revert Hgen. apply (generate_schedule_invariant students examiners rooms timeslots
           exam_sessions criteria method
           (fun s => Forall2 (fun e e' => Examiner.workload e <= Examiner.workload e')
                             examiners (ExamSchedulingDSS.examiners s))).
    + simpl. apply Forall_Forall2_diag, Forall_forall. intros; lia.
    + intros s session s' _ Hs Hstep.
      apply process_session_placed in Hstep as [-> | (student & r & _ & -> & _)];
        [exact Hs |].
      simpl. unfold update_workloads.
      apply fold_left_invariant; [| exact Hs]. clear.
      intros es x _ Hes. revert es Hes. generalize examiners.
      induction 1 as [|e e' l l' Hle Hl IH]; simpl; [constructor |].
      destruct (Examiner.id e' =? x); constructor; simpl; try assumption; lia.
Qed.

Lemma unchanged_while_empty students examiners rooms timeslots exam_sessions criteria
    method out st :
  generate_schedule students examiners rooms timeslots exam_sessions criteria method
  = (out, st) ->
  schedule st = [] -> ExamSchedulingDSS.examiners st = examiners.
Proof.
  apply (generate_schedule_invariant students examiners rooms timeslots exam_sessions
           criteria method
           (fun s => schedule s = [] -> ExamSchedulingDSS.examiners s = examiners));
    [reflexivity |].
  intros s session s' _ Hs Hstep.
  apply process_session_placed in Hstep as [-> | (student & r & _ & -> & _)];
    [exact Hs |].
  simpl. intros Hnil. apply app_eq_nil in Hnil as [_ Hnil]. discriminate Hnil.
Qed.

(** X10.  If the students, the examiners, the rooms or the timeslots are
    empty, a returned solution commits nothing: the schedule is empty,
    every session id is infeasible, in descending order of priority, the
    total satisfaction is 0 and no examiner is changed. *)
Theorem nothing_committed_without_resources (students : list Student.t)
    (examiners : list Examiner.t) (rooms : list Room.t) (timeslots : list TimeSlot.t)
    (exam_sessions : list ExamSession.t) (criteria : option (list Criteria.t))
    (method : string) (solution : DSSSolution.t) (st : run_state) :
  students = [] \/ examiners = [] \/ rooms = [] \/ timeslots = [] ->
  generate_schedule students examiners rooms timeslots exam_sessions criteria method
  = (Ok solution, st) ->
  DSSSolution.schedule solution = []
  /\ DSSSolution.infeasible_exams solution
     = map ExamSession.id (Py.sorted_desc ExamSession.priority exam_sessions)
  /\ DSSSolution.total_satisfaction solution = Fin 0
  /\ ExamSchedulingDSS.examiners st = examiners.
Proof.
  intros Hempty Hgen.
  pose proof (schedule_placed _ _ _ _ _ _ _ _ _ Hgen) as Hall.
  destruct (generate_schedule_run _ _ _ _ _ _ _ _ _ Hgen) as (raised & _ & _ & _ & _ & Hok).
  destruct (Hok solution eq_refl) as (_ & _ & Hsched & _).
  assert (Hnil : DSSSolution.schedule solution = []).
  { rewrite Hsched. destruct (schedule st) as [|a l]; [reflexivity |]. exfalso.
    apply Forall_cons in Hall as [(session & student & _ & Hlook & Hp) _].
    destruct Hp as (_ & _ & (t & Ht & _) & (room & room_score & Hroom & _)
                    & Hex & Hne & _).
    destruct Hempty as [-> | [-> | [-> | ->]]].
    - discriminate Hlook.
    - destruct (ScheduleResult.assigned_examiners a) as [|x xs]; [congruence |].
      destruct (Hex x ltac:(left)) as (e & He & _). apply elem_of_nil in He. exact He.
    - apply elem_of_nil in Hroom. exact Hroom.
    - apply elem_of_nil in Ht. exact Ht. }
  split; [exact Hnil |].
  pose proof (generate_schedule_merge _ _ _ _ _ _ _ _ _ Hgen) as Hm.
  pose proof (solution_total_satisfaction _ _ _ _ _ _ _ _ _ Hgen) as Htotal.
  rewrite Hnil in Hm, Htotal.
  split; [apply (merge_nil_l _ _ Hm) |]. split; [exact Htotal |].
  apply (unchanged_while_empty _ _ _ _ _ _ _ _ _ Hgen). rewrite <- Hsched. exact Hnil.
Qed.

End Accounts.

(** X7 at a run with one session that is committed and one of an unknown
    student. *)
Lemma sessions_partitioned_in_priority_order_witness :
  exists solution st,
    Sample.run_sample 0 1 2 [Sample.session1; Sample.session_unknown] "TOPSIS"
    = (Ok solution, st)
    /\ merge (map ScheduleResult.exam_id (DSSSolution.schedule solution))
             (DSSSolution.infeasible_exams solution)
             (map ExamSession.id
                  (Py.sorted_desc ExamSession.priority
                                  [Sample.session1; Sample.session_unknown]))
    /\ map ScheduleResult.exam_id (DSSSolution.schedule solution)
         ++ DSSSolution.infeasible_exams solution
       ≡ₚ map ExamSession.id [Sample.session1; Sample.session_unknown]
    /\ (length (DSSSolution.schedule solution)
        + length (DSSSolution.infeasible_exams solution) = 2)%nat.
Proof.
  destruct (Sample.run_sample 0 1 2 [Sample.session1; Sample.session_unknown] "TOPSIS")
    as [[solution|e] st] eqn:E; [| vm_compute in E; discriminate E].
  exists solution, st. split; [reflexivity |].
  apply (sessions_partitioned_in_priority_order (H := Sample.sqrt_trunc_impl)
           _ _ _ _ _ _ _ solution st E).
Defined.

(** X8 at the data of [test_method_comparison]. *)
Lemma total_satisfaction_is_mean_score_witness :
  exists solution st,
    Sample.run_sample 0 1 2 [Sample.session1] "TOPSIS" = (Ok solution, st)
    /\ DSSSolution.schedule solution <> []
    /\ DSSSolution.total_satisfaction solution
       = np_mean (map ScheduleResult.total_score (DSSSolution.schedule solution)).
Proof.
  destruct (Sample.run_sample 0 1 2 [Sample.session1] "TOPSIS")
    as [[solution|e] st] eqn:E; [| vm_compute in E; discriminate E].
  assert (Hne : DSSSolution.schedule solution <> []).
  { vm_compute in E. injection E as <- _. discriminate. }
  exists solution, st. split; [reflexivity |]. split; [exact Hne |].
  destruct (total_satisfaction_is_mean_score (H := Sample.sqrt_trunc_impl)
              _ _ _ _ _ _ _ solution st E) as [Hmean _].
  destruct (DSSSolution.schedule solution); [congruence | exact Hmean].
Defined.

(** X9 at a run that commits two assignments. *)
Lemma workload_total_grows_by_assigned_entries_witness :
  exists out st,
    Sample.run_pair = (out, st)
    /\ assigned_entries (schedule st) = 2
    /\ total_workload (ExamSchedulingDSS.examiners st)
       = total_workload (Sample.examiners_with 0 1 2) + assigned_entries (schedule st).
Proof.
  destruct Sample.run_pair as [out st] eqn:E.
  exists out, st. split; [reflexivity |].
  split; [vm_compute in E; injection E as _ <-; reflexivity |].
  apply (workload_total_grows_by_assigned_entries (H := Sample.sqrt_trunc_impl)
           _ _ _ _ _ _ _ out st E).
Defined.

(** X10 at the data of [test_method_comparison] without any room. *)
Lemma nothing_committed_without_resources_witness :
  exists solution st,
    generate_schedule (H := Sample.sqrt_trunc_impl) [Sample.student1]
      (Sample.examiners_with 0 1 2) [] [Sample.slot1] [Sample.session1] None "TOPSIS"
    = (Ok solution, st)
    /\ DSSSolution.schedule solution = []
    /\ DSSSolution.infeasible_exams solution = [1].
Proof.
  destruct (generate_schedule (H := Sample.sqrt_trunc_impl) [Sample.student1]
              (Sample.examiners_with 0 1 2) [] [Sample.slot1] [Sample.session1]
              None "TOPSIS")
    as [[solution|e] st] eqn:E; [| vm_compute in E; discriminate E].
  exists solution, st. split; [reflexivity |].
  destruct (nothing_committed_without_resources (H := Sample.sqrt_trunc_impl)
              _ _ _ _ _ _ _ solution st (or_intror (or_intror (or_introl eq_refl))) E)
    as (Hnil & Hinf & _).
  split; [exact Hnil | exact Hinf].
Defined.

(** ** The choice among the feasible options *)

Lemma fltb_irrefl (x : num) : fltb x x = false.
Proof.
  destruct x as [q| | |]; simpl; try reflexivity. apply Qltb_ge, Qle_refl.
Qed.

Lemma fltb_not_nan_r (x y : num) : fltb x y = true -> is_nan y = false.
Proof. destruct x, y; simpl; try discriminate; reflexivity. Qed.

Lemma fltb_neg_trans (b c c' : num) :
  is_nan b = false -> fltb b c = false -> fltb b c' = true -> fltb c' c = false.
Proof.
  destruct b as [x| | |], c as [z| | |], c' as [y| | |]; simpl;
    try discriminate; try reflexivity.
  rewrite !Qltb_ge, Qltb_lt. intros _ H1 H2. lra.
Qed.

Lemma fold_left_after {A B} (I P : A -> Prop) (f : A -> B -> A) (l : list B)
    (acc : A) (x : B) :
  x ∈ l -> I acc ->
  (forall a y, I a -> I (f a y)) ->
  (forall a, I a -> P (f a x)) ->
  (forall a y, I a -> P a -> P (f a y)) ->
  P (fold_left f l acc).
Proof.
  intros Hx Hacc HI Hat Hkeep. revert acc Hacc.
  induction l as [|y l IH]; intros acc Hacc; [apply elem_of_nil in Hx; contradiction |].
  simpl. apply elem_of_cons in Hx as [Heq | Hx].
  - subst y. apply (fold_left_invariant (fun a => I a /\ P a)).
    + intros a y _ [Ha Pa]. split; [apply HI, Ha | apply Hkeep; assumption].
    + split; [apply HI, Hacc | apply Hat, Hacc].
  - apply IH; [exact Hx | apply HI, Hacc].
Qed.

Lemma foldM_after {A B} (I P : A -> Prop) (f : A -> B -> result A) (l : list B)
    (acc r : A) (x : B) :
  x ∈ l -> I acc ->
  (forall a y a', I a -> f a y = Ok a' -> I a') ->
  (forall a a', I a -> f a x = Ok a' -> P a') ->
  (forall a y a', I a -> P a -> f a y = Ok a' -> P a') ->
  foldM f acc l = Ok r -> P r.
Proof.
  intros Hx Hacc HI Hat Hkeep. revert acc Hacc.
  induction l as [|y l IH]; intros acc Hacc; [apply elem_of_nil in Hx; contradiction |].
  simpl. destruct (f acc y) as [a'|e] eqn:Hf; simpl; [| discriminate].
  apply elem_of_cons in Hx as [Heq | Hx].
  - subst y. intros Hr.
    apply (foldM_invariant (fun a => I a /\ P a) f l a' r); [| | exact Hr].
    + intros a y a2 _ [Ha Pa] Hy.
      split; [apply (HI a y _ Ha Hy) | apply (Hkeep a y _ Ha Pa Hy)].
    + split; [apply (HI acc x _ Hacc Hf) | apply (Hat acc _ Hacc Hf)].
  - apply IH; [exact Hx | apply (HI acc y _ Hacc Hf)].
Qed.

Section BestOption.
Context `{NpSqrt}.

Lemma try_room_eq schedule session student timeslot selected best room :
  try_room schedule session student timeslot selected best room
  = (p ← potential_result session student timeslot room selected;
     if check_scheduling_constraints schedule p then
       if fgtb (ScheduleResult.total_score p) best.2
       then Ok (Some p, ScheduleResult.total_score p) else Ok best
     else Ok best).
Proof.
  unfold try_room, potential_result.
  destruct (evaluate_room_suitability room student); reflexivity.
Qed.

Lemma try_room_not_nan schedule session student timeslot selected best room best' :
  is_nan best.2 = false ->
  try_room schedule session student timeslot selected best room = Ok best' ->
  is_nan best'.2 = false.
Proof.
  intros Hb. rewrite try_room_eq.
  destruct (potential_result _ _ _ _ _) as [p|e]; cbn [mbind result_bind];
    [| discriminate].
  destruct (check_scheduling_constraints _ _); [| intros [= <-]; exact Hb].
  destruct (fgtb _ _) eqn:Hgt; intros [= <-]; [| exact Hb].
  apply (fltb_not_nan_r _ _ Hgt).
Qed.

Lemma try_room_keeps schedule session student timeslot selected best room best' c :
  is_nan best.2 = false -> fltb best.2 c = false ->
  try_room schedule session student timeslot selected best room = Ok best' ->
  fltb best'.2 c = false.
Proof.
  intros Hb Hc. rewrite try_room_eq.
  destruct (potential_result _ _ _ _ _) as [p|e]; cbn [mbind result_bind];
    [| discriminate].
  destruct (check_scheduling_constraints _ _); [| intros [= <-]; exact Hc].
  destruct (fgtb _ _) eqn:Hgt; intros [= <-]; [| exact Hc].
  apply (fltb_neg_trans best.2 _ _ Hb Hc Hgt).
Qed.

Lemma try_timeslot_not_nan st rooms criteria method session student best timeslot best' :
  is_nan best.2 = false ->
  try_timeslot st rooms criteria method session student best timeslot = Ok best' ->
  is_nan best'.2 = false.
Proof.
  intros Hb. unfold try_timeslot.
  destruct (select_best_examiners _ _ _ _ _ _) as [selected|e]; simpl; [| discriminate].
  destruct (_ <? _); [intros [= <-]; exact Hb |].
  intros Hfold.
  apply (foldM_invariant (fun b : best_t => is_nan b.2 = false) _ _ _ _) in Hfold;
    [exact Hfold | | exact Hb].
  intros b room b' _. apply try_room_not_nan.
Qed.

Lemma try_timeslot_keeps st rooms criteria method session student best timeslot best' c :
  is_nan best.2 = false -> fltb best.2 c = false ->
  try_timeslot st rooms criteria method session student best timeslot = Ok best' ->
  fltb best'.2 c = false.
Proof.
  intros Hb Hc. unfold try_timeslot.
  destruct (select_best_examiners _ _ _ _ _ _) as [selected|e]; simpl; [| discriminate].
  destruct (_ <? _); [intros [= <-]; exact Hc |].
  intros Hfold.
  apply (foldM_invariant (fun b : best_t => is_nan b.2 = false /\ fltb b.2 c = false)
           _ _ _ _) in Hfold; [apply Hfold | | split; assumption].
  intros b room b' _ [Hb' Hc'] Htry.
  split; [apply (try_room_not_nan _ _ _ _ _ _ _ _ Hb' Htry) |].
  apply (try_room_keeps _ _ _ _ _ _ _ _ _ Hb' Hc' Htry).
Qed.

(** X11.  The step of a session whose student is known takes the best
    feasible option: if, for some timeslot and room of the input, the
    examiners selected for the timeslot are as many as required, the
    resulting assignment passes the constraint check against the schedule
    and scores above -1, then the session is committed, with an
    assignment that this option does not outscore. *)
Theorem best_feasible_option_is_committed (student_lookup : gmap Z Student.t)
    (rooms : list Room.t) (timeslots : list TimeSlot.t) (criteria : list Criteria.t)
    (method : string) (st st' : run_state) (session : ExamSession.t)
    (student : Student.t) (timeslot : TimeSlot.t) (room : Room.t)
    (selected : list (Examiner.t * num)) (option : ScheduleResult.t) :
  process_session student_lookup rooms timeslots criteria method st session = Ok st' ->
  student_lookup !! ExamSession.student_id session = Some student ->
  timeslot ∈ timeslots -> room ∈ rooms ->
  select_best_examiners student (ExamSchedulingDSS.examiners st) (TimeSlot.id timeslot)
    (ExamSession.required_examiners session) (Some criteria) method = Ok selected ->
  ExamSession.required_examiners session <= Z.of_nat (length selected) ->
  potential_result session student timeslot room selected = Ok option ->
  check_scheduling_constraints (schedule st) option = true ->
  fgtb (ScheduleResult.total_score option) (of_Z (-1)) = true ->
  exists r,
    st' = commit st r (ScheduleResult.total_score r)
    /\ fgtb (ScheduleResult.total_score option) (ScheduleResult.total_score r) = false.
Proof.
  intros Hstep Hlook Ht Hroom Hsel Hreq Hoption Hcheck Hgt.
  set (c := ScheduleResult.total_score option) in *.
  unfold process_session in Hstep. rewrite Hlook in Hstep.
  destruct (foldM _ _ _) as [best|e] eqn:Hfold; simpl in Hstep; [| discriminate].
  assert (Hplaced : best_placed rooms timeslots (ExamSchedulingDSS.examiners st)
                      session student best).
  { apply (foldM_invariant
             (best_placed rooms timeslots (ExamSchedulingDSS.examiners st) session student)
             _ _ _ _) in Hfold.
    - exact Hfold.
    - intros b t b' Hin Hb Hb'.
      apply (try_timeslot_best_placed _ _ _ _ _ _ _ _ _ _ Hin Hb Hb').
    - reflexivity. }
  assert (Hbest : fltb best.2 c = false).
  { apply (foldM_after (fun b : best_t => is_nan b.2 = false)
             (fun b : best_t => fltb b.2 c = false) _ _ _ _ timeslot Ht) in Hfold.
    - exact Hfold.
    - reflexivity.
    - intros a y a'. apply try_timeslot_not_nan.
    - intros a a' Ha. unfold try_timeslot. rewrite Hsel. simpl.
      rewrite (proj2 (Z.ltb_ge _ _)) by exact Hreq.
      apply (foldM_after (fun b : best_t => is_nan b.2 = false)
               (fun b : best_t => fltb b.2 c = false) _ _ _ _ room Hroom Ha).
      + intros b y b'. apply try_room_not_nan.
      + intros b b' Hb. rewrite try_room_eq, Hoption. cbn [mbind result_bind].
        rewrite Hcheck. fold c.
        destruct (fgtb c b.2) eqn:Hcb; intros [= <-];
          [apply fltb_irrefl | exact Hcb].
      + intros b y b'. apply try_room_keeps.
    - intros a y a'. apply try_timeslot_keeps. }
  unfold best_placed in Hplaced.
  destruct best as [[r|] score]; cbn [fst snd] in *.
  - destruct Hplaced as [_ ->]. injection Hstep as <-. exists r. split; [reflexivity |].
    exact Hbest.
  - exfalso. rewrite Hplaced in Hbest. unfold fgtb in Hgt. congruence.
Qed.

End BestOption.

(** X11 at the first session of [test_method_comparison]. *)
Lemma best_feasible_option_is_committed_witness :
  let st := mk_state [] [] (Fin 0) (Sample.examiners_with 0 1 2) in
  exists st' r,
    process_session (H := Sample.sqrt_trunc_impl)
      (Py.dict [(1, Sample.student1)]) [Sample.room1] [Sample.slot1]
      default_criteria "TOPSIS" st Sample.session1 = Ok st'
    /\ st' = commit st r (ScheduleResult.total_score r).
Proof.
  intros st.
  destruct (process_session (H := Sample.sqrt_trunc_impl)
              (Py.dict [(1, Sample.student1)]) [Sample.room1] [Sample.slot1]
              default_criteria "TOPSIS" st Sample.session1) as [st'|e] eqn:E;
    [| vm_compute in E; discriminate E].
  destruct (select_best_examiners (H := Sample.sqrt_trunc_impl) Sample.student1
              (ExamSchedulingDSS.examiners st) (TimeSlot.id Sample.slot1)
              (ExamSession.required_examiners Sample.session1)
              (Some default_criteria) "TOPSIS") as [selected|e] eqn:Esel;
    [| vm_compute in Esel; discriminate Esel].
  assert (Hsel : Ok (A := list (Examiner.t * num)) selected = Ok selected) by reflexivity.
  rewrite <- Esel in Hsel at 1. vm_compute in Hsel. injection Hsel as Hsel.
  destruct (potential_result Sample.session1 Sample.student1 Sample.slot1 Sample.room1
              selected) as [option|e] eqn:Eoption;
    [| rewrite <- Hsel in Eoption; vm_compute in Eoption; discriminate Eoption].
  assert (Hoption : Ok (A := ScheduleResult.t) option = Ok option) by reflexivity.
  rewrite <- Eoption in Hoption at 1. rewrite <- Hsel in Hoption.
  vm_compute in Hoption. injection Hoption as Hoption.
  destruct (best_feasible_option_is_committed (H := Sample.sqrt_trunc_impl)
              (Py.dict [(1, Sample.student1)]) [Sample.room1] [Sample.slot1]
              default_criteria "TOPSIS" st st' Sample.session1 Sample.student1
              Sample.slot1 Sample.room1 selected option E)
    as (r & Hr & _).
  - reflexivity.
  - left.
  - left.
  - exact Esel.
  - rewrite <- Hsel. vm_compute. discriminate.
  - exact Eoption.
  - rewrite <- Hoption. reflexivity.
  - rewrite <- Hoption. vm_compute. reflexivity.
  - exists st', r. split; [reflexivity | exact Hr].
Defined.

(** ** Sums and the normalisation of weights *)

Lemma is_fin_list (l : list num) : Forall is_fin l -> exists qs, l = map Fin qs.
Proof.
  induction 1 as [|x l [q ->] _ [qs ->]]; [exists []; reflexivity |].
  exists (q :: qs). reflexivity.
Qed.

Lemma fold_fadd_Fin (qs : list Q) (a : Q) :
  exists s, fold_left fadd (map Fin qs) (Fin a) = Fin s /\ (s == a + Qsum qs)%Q.
Proof.
  revert a. induction qs as [|q qs IH]; intros a; simpl.
  - exists a. split; [reflexivity | ring].
  - destruct (IH (Qred (a + q))) as (s & Hs & Heq). exists s. split; [exact Hs |].
    rewrite Heq, Qred_correct. ring.
Qed.

Lemma np_sum_Fin (qs : list Q) :
  exists s, np_sum (map Fin qs) = Fin s /\ (s == Qsum qs)%Q.
Proof.
  destruct (fold_fadd_Fin qs 0) as (s & Hs & Heq). exists s. split; [exact Hs |].
  rewrite Heq. ring.
Qed.

(** A sum of at least one finite number is kept in lowest terms. *)
Lemma fold_fadd_Fin_red (qs : list Q) (a : Q) :
  Qred a = a -> exists s, fold_left fadd (map Fin qs) (Fin a) = Fin s /\ Qred s = s.
Proof.
  revert a. induction qs as [|q qs IH]; intros a Ha; simpl.
  - exists a. split; [reflexivity | exact Ha].
  - apply IH. apply Qred_complete, Qred_correct.
Qed.

Lemma np_sum_one (qs : list Q) :
  (Qsum qs == 1)%Q -> np_sum (map Fin qs) = Fin 1.
Proof.
  intros Hone. destruct (np_sum_Fin qs) as (s & Hs & Heq).
  destruct (fold_fadd_Fin_red qs 0 eq_refl) as (s' & Hs' & Hred).
  unfold np_sum, zero in *. rewrite Hs in Hs'. injection Hs' as <-.
  rewrite Hs. f_equal. rewrite <- Hred. apply (Qred_complete s 1).
  rewrite Heq. exact Hone.
Qed.

Lemma Qsum_scale (qs : list Q) (k : Q) :
  (Qsum (map (fun q => q * k) qs) == Qsum qs * k)%Q.
Proof.
  induction qs as [|q qs IH]; simpl; [ring |]. rewrite IH. ring.
Qed.

Lemma Qsum_ext (f g : Q -> Q) (qs : list Q) :
  (forall q, (f q == g q)%Q) -> (Qsum (map f qs) == Qsum (map g qs))%Q.
Proof.
  intros Hfg. induction qs as [|q qs IH]; simpl; [reflexivity |].
  rewrite IH, Hfg. reflexivity.
Qed.

Lemma Qsum_nonneg (qs : list Q) : Forall (fun q => 0 <= q)%Q qs -> (0 <= Qsum qs)%Q.
Proof.
  induction 1 as [|q qs Hq _ IH]; simpl; [apply Qle_refl |]. lra.
Qed.

Lemma Qsum_elem_le (qs : list Q) (q : Q) :
  Forall (fun q => 0 <= q)%Q qs -> q ∈ qs -> (q <= Qsum qs)%Q.
Proof.
  induction 1 as [|x qs Hx Hall IH]; intros Hq; [apply elem_of_nil in Hq; contradiction |].
  simpl. pose proof (Qsum_nonneg qs Hall).
  apply elem_of_cons in Hq as [-> | Hq]; [lra |]. specialize (IH Hq). lra.
Qed.

(** [weights / np.sum(weights)] on finite weights with a nonzero sum. *)
Lemma normalized_weights (qs : list Q) (s : Q) :
  np_sum (map Fin qs) = Fin s -> ~ (s == 0)%Q ->
  map (fun w => fdiv w (np_sum (map Fin qs))) (map Fin qs)
  = map Fin (map (fun q => Qred (q / s)) qs)
  /\ np_sum (map Fin (map (fun q => Qred (q / s)) qs)) = Fin 1.
Proof.
  intros Hs Hnz. rewrite Hs. split.
  - rewrite !map_map. apply map_ext. intros q. apply fdiv_fin, Hnz.
  - apply np_sum_one.
    destruct (np_sum_Fin qs) as (s' & Hs' & Heq). rewrite Hs in Hs'.
    injection Hs' as <-.
    rewrite (Qsum_ext _ (fun q => (q * / s)%Q)) by (intros q; apply Qred_correct).
    rewrite Qsum_scale, <- Heq. field. exact Hnz.
Qed.

Lemma criteria_weights_fin (criteria : list Criteria.t) :
  Forall (fun c => fin_nonneg (Criteria.weight c)) criteria ->
  exists qs, map Criteria.weight criteria = map Fin qs /\ Forall (fun q => 0 <= q)%Q qs.
Proof.
  induction 1 as [|c l (q & Hq & Hpos) _ (qs & Hqs & Hall)]; [exists []; split; constructor |].
  exists (q :: qs). simpl. rewrite Hq, Hqs. split; [reflexivity |].
  constructor; assumption.
Qed.

Lemma criteria_weights_sum_positive (criteria : list Criteria.t) (qs : list Q) :
  map Criteria.weight criteria = map Fin qs -> Forall (fun q => 0 <= q)%Q qs ->
  Exists (fun c => feqb (Criteria.weight c) zero = false) criteria ->
  (0 < Qsum qs)%Q.
Proof.
  intros Hqs Hall Hex. apply Exists_exists in Hex as (c & Hc & Hnz).
  assert (Hin : Criteria.weight c ∈ map Fin qs).
  { rewrite <- Hqs. apply list_elem_of_fmap. exists c. split; [reflexivity | exact Hc]. }
  apply list_elem_of_fmap in Hin as (q & Hq & Hqin). rewrite Hq in Hnz.
  unfold feqb, zero in Hnz. apply Qeq_bool_false in Hnz.
  pose proof (Qsum_elem_le qs q Hall Hqin) as Hle.
  rewrite Forall_forall in Hall. specialize (Hall q Hqin). lra.
Qed.

(** The normalised weights of criteria with finite non-negative weights
    that are not all zero: non-negative, each at most 1, of sum 1. *)
Lemma criteria_weights_normalized (criteria : list Criteria.t) :
  Forall (fun c => fin_nonneg (Criteria.weight c)) criteria ->
  Exists (fun c => feqb (Criteria.weight c) zero = false) criteria ->
  exists ns,
    map (fun w => fdiv w (np_sum (map Criteria.weight criteria)))
        (map Criteria.weight criteria) = map Fin ns
    /\ length ns = length criteria
    /\ Forall (fun q => 0 <= q <= 1)%Q ns
    /\ np_sum (map Fin ns) = Fin 1.
Proof.
  intros Hfin Hex. destruct (criteria_weights_fin criteria Hfin) as (qs & Hqs & Hall).
  pose proof (criteria_weights_sum_positive criteria qs Hqs Hall Hex) as Hpos.
  destruct (np_sum_Fin qs) as (s & Hs & Heq).
  assert (Hnz : ~ (s == 0)%Q) by lra.
  destruct (normalized_weights qs s Hs Hnz) as [Hn Hone].
  exists (map (fun q => Qred (q / s)) qs). rewrite Hqs.
  split; [exact Hn |]. split; [| split; [| exact Hone]].
  - rewrite length_map. apply (f_equal length) in Hqs. rewrite !length_map in Hqs.
    symmetry. exact Hqs.
  - apply Forall_forall. intros n Hn'. apply list_elem_of_fmap in Hn' as (q & -> & Hq).
    rewrite Qred_correct. apply Qdiv_unit; [| | lra].
    + rewrite Forall_forall in Hall. apply Hall, Hq.
    + rewrite Heq. apply Qsum_elem_le; assumption.
Qed.

Section EngineRange.
Context `{NpSqrt}.

(** The engine on finite non-negative data. *)
Lemma engine_scores_in_unit (decision_matrix : list (list num))
    (criteria : list Criteria.t) (method : string) :
  decision_matrix <> [] ->
  Forall (fun row => length row = length criteria) decision_matrix ->
  Forall (Forall fin_nonneg) decision_matrix ->
  Forall (fun c => fin_nonneg (Criteria.weight c)) criteria ->
  Exists (fun c => feqb (Criteria.weight c) zero = false) criteria ->
  supported method = true ->
  (String.eqb (Py.upper method) "SAW" = true ->
   forall j c, criteria !! j = Some c -> Criteria.type c = COST ->
               exists v, v ∈ column j decision_matrix /\ feqb v zero = false) ->
  exists scores weights,
    MCDMEngine.evaluate_alternatives decision_matrix criteria method = Ok (scores, weights)
    /\ length scores = length decision_matrix
    /\ Forall in_unit_interval scores.
Proof.
  intros HM Hrows Hfin Hw Hex Hsup Hcost.
  destruct (is_2d_rows decision_matrix _ HM Hrows) as [H2d Hc].
  destruct (criteria_weights_normalized criteria Hw Hex) as (ns & Hns & Hlen & Hunit & Hone).
  unfold MCDMEngine.evaluate_alternatives, np_array. rewrite H2d. cbn [mbind result_bind].
  rewrite Hns.
  assert (Hlw : length (map Fin ns) = ncols decision_matrix)
    by (rewrite length_map; congruence).
  assert (Hlt : length (map Criteria.type criteria) = ncols decision_matrix)
    by (rewrite length_map; congruence).
  unfold supported in Hsup.
  destruct (String.eqb (Py.upper method) "SAW") eqn:Hsaw.
  - destruct (saw_scores_in_unit_interval decision_matrix (map Fin ns)
                (map Criteria.type criteria) HM Hlw Hlt Hfin) as (scores & Hsc & Hrange).
    + apply Forall_forall. intros x Hx. apply list_elem_of_fmap in Hx as (q & -> & Hq).
      rewrite Forall_forall in Hunit. exists q. split; [reflexivity | apply Hunit, Hq].
    + exists 1%Q. split; [exact Hone | apply Qle_refl].
    + intros j Hj. rewrite list_lookup_fmap in Hj.
      destruct (criteria !! j) as [c|] eqn:Hcj; [| discriminate].
      injection Hj as Hj. apply (Hcost eq_refl j c Hcj Hj).
    + destruct (saw_calculate_scores_ok decision_matrix (map Fin ns)
                  (map Criteria.type criteria) HM Hlw Hlt) as (scores' & Hsc' & Hl).
      rewrite Hsc in Hsc'. injection Hsc' as <-. rewrite Hsc. simpl.
      eexists _, _. split; [reflexivity |]. split; assumption.
  - simpl in Hsup. rewrite Hsup.
    destruct (topsis_scores_in_unit_interval decision_matrix (map Fin ns)
                (map Criteria.type criteria) HM Hlw Hlt) as (scores & Hsc & Hrange).
    + eapply Forall_impl; [exact Hfin |]. intros row Hrow.
      eapply Forall_impl; [exact Hrow |]. intros x. apply fin_nonneg_is_fin.
    + apply Forall_forall. intros x Hx. apply list_elem_of_fmap in Hx as (q & -> & _).
      exists q. reflexivity.
    + destruct (topsis_calculate_scores_ok decision_matrix (map Fin ns)
                  (map Criteria.type criteria) HM Hlw Hlt) as (scores' & Hsc' & Hl).
      rewrite Hsc in Hsc'. injection Hsc' as <-. rewrite Hsc. simpl.
      eexists _, _. split; [reflexivity |]. split; assumption.
Qed.

(** X12.  The scores of the engine lie in [0, 1], in the exact arithmetic
    of the model.  For a decision matrix of floats with at least one row,
    rows as long as the criteria and finite non-negative entries, and for
    criteria with finite non-negative weights that are not all zero, the
    engine returns one score per row under SAW and TOPSIS, each a finite
    number of [0, 1]; under SAW this needs a nonzero entry in the column
    of every cost criterion.  (The rounding of float64 is not modelled:
    it can leave a score that is 1 here one unit in the last place above
    1.) *)
Theorem evaluate_alternatives_scores_in_unit_interval (decision_matrix : list (list num))
    (criteria : list Criteria.t) (method : string) :
  decision_matrix <> [] ->
  Forall (fun row => length row = length criteria) decision_matrix ->
  Forall (Forall fin_nonneg) decision_matrix ->
  Forall (fun c => fin_nonneg (Criteria.weight c)) criteria ->
  Exists (fun c => feqb (Criteria.weight c) zero = false) criteria ->
  supported method = true ->
  (String.eqb (Py.upper method) "SAW" = true ->
   forall j c, criteria !! j = Some c -> Criteria.type c = COST ->
               exists v, v ∈ column j decision_matrix /\ feqb v zero = false) ->
  exists scores weights,
    MCDMEngine.evaluate_alternatives decision_matrix criteria method = Ok (scores, weights)
    /\ length scores = length decision_matrix
    /\ Forall in_unit_interval scores.
Proof. apply engine_scores_in_unit. Qed.

End EngineRange.

(** X12 at the decision matrix, weights and criteria types of
    [TestMCDMMethods], under SAW. *)
Lemma evaluate_alternatives_scores_in_unit_interval_witness :
  let criteria :=
    [ Criteria.mk 1 "quality" (Fin (4 # 10)) BENEFIT None;
      Criteria.mk 2 "experience" (Fin (3 # 10)) BENEFIT None;
      Criteria.mk 3 "workload" (Fin (3 # 10)) COST None ] in
  exists scores weights,
    MCDMEngine.evaluate_alternatives (H := Sample.sqrt_trunc_impl)
      Sample.decision_matrix criteria "SAW" = Ok (scores, weights)
    /\ length scores = length Sample.decision_matrix
    /\ Forall in_unit_interval scores.
Proof.
  intros criteria.
  apply (evaluate_alternatives_scores_in_unit_interval (H := Sample.sqrt_trunc_impl)
           Sample.decision_matrix criteria "SAW").
  - discriminate.
  - repeat constructor.
  - repeat (constructor; [repeat (constructor; [eexists; split; [reflexivity | discriminate] |]);
                          constructor |]); constructor.
  - repeat (constructor; [eexists; split; [reflexivity | discriminate] |]); constructor.
  - left. reflexivity.
  - reflexivity.
  - intros _ j c Hj Ht.
    destruct j as [|[|[|j]]]; simpl in Hj; try discriminate Hj;
      injection Hj as <-; try discriminate Ht.
    exists (Fin 2). split; [left | reflexivity].
Defined.

(** ** The table of criteria weights *)

Lemma dict_fold_lookup_notin `{Countable K} {V} (pairs : list (K * V)) (m : gmap K V)
    (k : K) :
  k ∉ map fst pairs ->
  fold_left (fun m kv => <[kv.1 := kv.2]> m) pairs m !! k = m !! k.
Proof.
  revert m. induction pairs as [|[k' v'] pairs IH]; intros m Hk; simpl; [reflexivity |].
  simpl in Hk. apply not_elem_of_cons in Hk as [Hne Hk].
  rewrite IH by exact Hk. simpl. apply lookup_insert_ne. congruence.
Qed.

Lemma dict_fold_lookup_in `{Countable K} {V} (pairs : list (K * V)) (m : gmap K V)
    (k : K) (v : V) :
  NoDup (map fst pairs) -> (k, v) ∈ pairs ->
  fold_left (fun m kv => <[kv.1 := kv.2]> m) pairs m !! k = Some v.
Proof.
  revert m. induction pairs as [|[k' v'] pairs IH]; intros m Hnd Hin; simpl.
  - apply elem_of_nil in Hin. contradiction.
  - simpl in Hnd. apply NoDup_cons in Hnd as [Hk' Hnd].
    apply elem_of_cons in Hin as [[= -> ->] | Hin].
    + rewrite dict_fold_lookup_notin by exact Hk'. simpl. apply lookup_insert_eq.
    + apply IH; assumption.
Qed.

Lemma dict_zip_lookup `{Countable K} {V} (ks : list K) (vs : list V) (i : nat)
    (k : K) (v : V) :
  NoDup ks -> length ks = length vs -> ks !! i = Some k -> vs !! i = Some v ->
  Py.dict (zip ks vs) !! k = Some v.
Proof.
  intros Hnd Hlen Hk Hv. apply dict_fold_lookup_in.
  - change (map fst (zip ks vs)) with ((zip ks vs).*1). rewrite fst_zip by lia. exact Hnd.
  - apply (list_elem_of_lookup_2 _ i). apply lookup_zip_with_Some. eauto.
Qed.

Section WeightTable.
Context `{NpSqrt}.

(** X13.  The table of weights that the engine returns.  Its keys are the
    criterion names.  When the names are distinct and the weights are
    finite, non-negative and not all zero, the entry of each criterion is
    its weight divided by the sum of the weights, every entry lies in
    [0, 1], and the entries add up to 1 in the exact arithmetic of the
    model.  (The rounding of float64 is not modelled: there the quotients
    are rounded and their sum is 1 only up to rounding.) *)
Theorem criteria_weights_table_normalized (decision_matrix : list (list num))
    (criteria : list Criteria.t) (method : string) (scores : list num)
    (weights : gmap string num) :
  MCDMEngine.evaluate_alternatives decision_matrix criteria method = Ok (scores, weights) ->
  (forall name, is_Some (weights !! name) -> name ∈ map Criteria.name criteria)
  /\ (NoDup (map Criteria.name criteria) ->
      Forall (fun c => fin_nonneg (Criteria.weight c)) criteria ->
      Exists (fun c => feqb (Criteria.weight c) zero = false) criteria ->
      Forall (fun c => weights !! Criteria.name c
                       = Some (fdiv (Criteria.weight c)
                                    (np_sum (map Criteria.weight criteria)))
                       /\ exists q, weights !! Criteria.name c = Some (Fin q)
                                    /\ (0 <= q <= 1)%Q) criteria
      /\ np_sum (map (fun c => default NaN (weights !! Criteria.name c)) criteria)
         = Fin 1).
Proof.
  unfold MCDMEngine.evaluate_alternatives.
  destruct (np_array decision_matrix) as [M|e]; cbn [mbind result_bind]; [| discriminate].
  set (normalized := map _ (map Criteria.weight criteria)).
  match goal with |- context [mbind _ ?m] => destruct m as [scores'|e] end;
    cbn [mbind result_bind]; [| discriminate].
  intros [= <- <-]. split.
  - intros name [v Hv]. apply dict_lookup_elem, elem_of_zip_l in Hv. exact Hv.
  - intros Hnd Hfin Hex.
    destruct (criteria_weights_normalized criteria Hfin Hex)
      as (ns & Hns & Hlen & Hunit & Hone).
    fold normalized in Hns.
    assert (Hlook : forall i c, criteria !! i = Some c ->
              Py.dict (zip (map Criteria.name criteria) normalized) !! Criteria.name c
              = Some (fdiv (Criteria.weight c) (np_sum (map Criteria.weight criteria)))
              /\ exists q, ns !! i = Some q
                   /\ fdiv (Criteria.weight c) (np_sum (map Criteria.weight criteria))
                      = Fin q).
    { intros i c Hc.
      assert (Hn : normalized !! i
                   = Some (fdiv (Criteria.weight c)
                                (np_sum (map Criteria.weight criteria)))).
      { unfold normalized. rewrite !list_lookup_fmap, Hc. reflexivity. }
      split.
      - apply (dict_zip_lookup _ _ i); [exact Hnd | | | exact Hn].
        + unfold normalized. rewrite !length_map. reflexivity.
        + rewrite list_lookup_fmap, Hc. reflexivity.
      - rewrite Hns, list_lookup_fmap in Hn.
        destruct (ns !! i) as [q|]; [| discriminate]. injection Hn as Hn.
        exists q. split; [reflexivity | symmetry; exact Hn]. }
    split.
    + apply Forall_forall. intros c Hc. apply list_elem_of_lookup in Hc as [i Hi].
      destruct (Hlook i c Hi) as (Hd & q & Hq & Hfq). split; [exact Hd |].
      exists q. split; [rewrite Hd, Hfq; reflexivity |].
      rewrite Forall_forall in Hunit. apply Hunit. apply (list_elem_of_lookup_2 _ i), Hq.
    + rewrite <- Hone, <- Hns. f_equal.
      transitivity (map (fun c => fdiv (Criteria.weight c)
                                       (np_sum (map Criteria.weight criteria))) criteria);
        [| unfold normalized; symmetry; apply map_map].
      apply Forall_fmap_ext_1, Forall_forall. intros c Hc.
      apply list_elem_of_lookup in Hc as [i Hi].
      destruct (Hlook i c Hi) as (-> & _). reflexivity.
Qed.

End WeightTable.

(** X13 at the default criteria, on the one-row matrix from which
    [generate_schedule] reads the weights. *)
Lemma criteria_weights_table_normalized_witness :
  exists scores weights,
    MCDMEngine.evaluate_alternatives (H := Sample.sqrt_trunc_impl)
      [map (fun _ => of_Z 1) default_criteria] default_criteria "SAW"
    = Ok (scores, weights)
    /\ np_sum (map (fun c => default NaN (weights !! Criteria.name c)) default_criteria)
       = Fin 1.
Proof.
  destruct (MCDMEngine.evaluate_alternatives (H := Sample.sqrt_trunc_impl)
              [map (fun _ => of_Z 1) default_criteria] default_criteria "SAW")
    as [[scores weights]|e] eqn:E; [| vm_compute in E; discriminate E].
  exists scores, weights. split; [reflexivity |].
  apply (criteria_weights_table_normalized (H := Sample.sqrt_trunc_impl) _ _ _ _ _ E).
  - apply (bool_decide_unpack _). vm_compute. exact I.
  - repeat (constructor; [eexists; split; [reflexivity | discriminate] |]); constructor.
  - left. reflexivity.
Defined.

(** ** The scale of the criteria weights *)

Lemma Qeq_bool_zero_scale (k a b : Q) :
  (0 < k)%Q -> (b == k * a)%Q -> Qeq_bool b 0 = Qeq_bool a 0.
Proof.
  intros Hk Hb. destruct (Qeq_bool a 0) eqn:Ha.
  - apply Qeq_bool_iff in Ha. apply Qeq_bool_iff. rewrite Hb, Ha. ring.
  - apply Qeq_bool_false in Ha. apply Qeq_bool_false. intros Hz. apply Ha.
    rewrite Hb in Hz. nra.
Qed.

Lemma Qltb_zero_scale (k a b : Q) :
  (0 < k)%Q -> (b == k * a)%Q -> Qltb 0 b = Qltb 0 a.
Proof.
  intros Hk Hb. destruct (Qltb 0 a) eqn:Ha.
  - apply Qltb_lt in Ha. apply Qltb_lt. rewrite Hb. nra.
  - apply Qltb_ge in Ha. apply Qltb_ge. rewrite Hb. nra.
Qed.

Lemma fdiv_scale (k q s s' : Q) :
  (0 < k)%Q -> (s' == k * s)%Q ->
  fdiv (Fin (Qred (k * q))) (Fin s') = fdiv (Fin q) (Fin s).
Proof.
  intros Hk Hs. unfold fdiv. rewrite (Qeq_bool_zero_scale k s s' Hk Hs).
  destruct (Qeq_bool s 0) eqn:Hz.
  - unfold inf_signed.
    rewrite (Qeq_bool_zero_scale k q (Qred (k * q)) Hk (Qred_correct _)).
    rewrite (Qltb_zero_scale k q (Qred (k * q)) Hk (Qred_correct _)). reflexivity.
  - f_equal. apply Qred_complete. apply Qeq_bool_false in Hz.
    rewrite Qred_correct, Hs. field. split; [exact Hz | lra].
Qed.

Lemma normalized_weights_scale (k : Q) (qs : list Q) :
  (0 < k)%Q ->
  let scaled := map (fun q => fmul (Fin k) (Fin q)) qs in
  map (fun w => fdiv w (np_sum scaled)) scaled
  = map (fun w => fdiv w (np_sum (map Fin qs))) (map Fin qs).
Proof.
  intros Hk scaled.
  assert (Hscaled : scaled = map Fin (map (fun q => Qred (k * q)) qs))
    by (unfold scaled; rewrite map_map; reflexivity).
  destruct (np_sum_Fin qs) as (s & Hs & Heq).
  destruct (np_sum_Fin (map (fun q => Qred (k * q)) qs)) as (s' & Hs' & Heq').
  assert (Hss : (s' == k * s)%Q).
  { rewrite Heq', Heq.
    rewrite (Qsum_ext _ (fun q => (q * k)%Q)) by (intros q; rewrite Qred_correct; ring).
    rewrite Qsum_scale. ring. }
  rewrite Hscaled, Hs, Hs', !map_map. apply map_ext. intros q.
  apply fdiv_scale; assumption.
Qed.

Section WeightScale.
Context `{NpSqrt}.

(** X14.  Only the proportions of the criteria weights matter: with
    finite weights, multiplying the weight of every criterion by the same
    positive factor changes neither the scores nor the table of weights
    that the engine returns, nor whether it raises, in the exact
    arithmetic of the model.  (The rounding of float64 is not modelled:
    there the two results agree only up to rounding, unless the factor is
    a power of two.) *)
Theorem evaluate_alternatives_scale_invariant (decision_matrix : list (list num))
    (criteria : list Criteria.t) (method : string) (k : Q) :
  (0 < k)%Q -> Forall (fun c => is_fin (Criteria.weight c)) criteria ->
  MCDMEngine.evaluate_alternatives decision_matrix (map (scale_weight k) criteria) method
  = MCDMEngine.evaluate_alternatives decision_matrix criteria method.
Proof.
  intros Hk Hfin.
  assert (Hqs : exists qs, map Criteria.weight criteria = map Fin qs).
  { apply is_fin_list. apply Forall_fmap. exact Hfin. }
  destruct Hqs as [qs Hqs].
  unfold MCDMEngine.evaluate_alternatives.
  rewrite !(map_map (scale_weight k)). cbn [scale_weight Criteria.weight Criteria.type
    Criteria.name].
  replace (map (fun x => fmul (Fin k) (Criteria.weight x)) criteria)
    with (map (fun q => fmul (Fin k) (Fin q)) qs).
  - rewrite (normalized_weights_scale k qs Hk), <- Hqs. reflexivity.
  - rewrite <- (map_map Criteria.weight (fun w => fmul (Fin k) w)), Hqs, map_map.
    reflexivity.
Qed.

End WeightScale.

(** X14 at the default criteria with the weights halved. *)
Lemma evaluate_alternatives_scale_invariant_witness :
  MCDMEngine.evaluate_alternatives (H := Sample.sqrt_trunc_impl)
    [[Fin 1; Fin 5; Fin 4; Fin 2; Fin 10]; [Fin 0; Fin 4; Fin 3; Fin 1; Fin 8]]
    (map (scale_weight (1 # 2)) default_criteria) "TOPSIS"
  = MCDMEngine.evaluate_alternatives (H := Sample.sqrt_trunc_impl)
      [[Fin 1; Fin 5; Fin 4; Fin 2; Fin 10]; [Fin 0; Fin 4; Fin 3; Fin 1; Fin 8]]
      default_criteria "TOPSIS".
Proof.
  apply (evaluate_alternatives_scale_invariant (H := Sample.sqrt_trunc_impl)).
  - reflexivity.
  - repeat (constructor; [eexists; reflexivity |]); constructor.
Defined.

(** ** The weights of the AHP deriver *)

Lemma Qsum_ext_in (f g : Q -> Q) (qs : list Q) :
  Forall (fun q => f q == g q)%Q qs -> (Qsum (map f qs) == Qsum (map g qs))%Q.
Proof.
  induction 1 as [|q qs Hq _ IH]; simpl; [reflexivity |].
  rewrite IH, Hq. reflexivity.
Qed.

Lemma Qsum_nonpos (qs : list Q) : Forall (fun q => q <= 0)%Q qs -> (Qsum qs <= 0)%Q.
Proof.
  induction 1 as [|q qs Hq _ IH]; simpl; [apply Qle_refl |]. lra.
Qed.

Lemma Qdiv_same_sign (q s : Q) :
  (0 <= q /\ 0 < s)%Q \/ (q <= 0 /\ s < 0)%Q -> (0 <= q / s)%Q.
Proof.
  intros [[Hq Hs] | [Hq Hs]].
  - apply Qle_shift_div_l; [exact Hs | lra].
  - assert (E : (q / s == (- q) / (- s))%Q) by (field; lra). rewrite E.
    apply Qle_shift_div_l; lra.
Qed.

(** X15.  The weights that the AHP deriver returns are not negative and
    add up to 1, in the exact arithmetic of the model, whenever the
    principal eigenvector, as [np.linalg.eig] returns it, has finite
    entries of one sign that are not all zero; there is one weight for
    each row of the eigenvector matrix.  (The rounding of float64 is not
    modelled: there the sum is 1 only up to rounding.) *)
Theorem ahp_weights_sum_to_one (eig : AHPMethod.eig_t)
    (pairwise_matrix : list (list num)) (eigenvalues : list num) (eigenvectors : matrix)
    (k : nat) (qs : list Q) :
  eig pairwise_matrix = Ok (eigenvalues, eigenvectors) ->
  np_argmax eigenvalues = Ok k ->
  column k eigenvectors = map Fin qs ->
  Forall (fun q => 0 <= q)%Q qs \/ Forall (fun q => q <= 0)%Q qs ->
  ~ (Qsum qs == 0)%Q ->
  exists weights,
    AHPMethod.calculate_weights eig pairwise_matrix
    = Ok (weights,
          AHPMethod.consistency_ratio (nth k eigenvalues NaN) (length pairwise_matrix))
    /\ length weights = length eigenvectors
    /\ Forall fin_nonneg weights
    /\ np_sum weights = Fin 1.
Proof.
  intros Heig Hk Hcol Hsign Hnz.
  unfold AHPMethod.calculate_weights. rewrite Heig. cbn [mbind result_bind].
  rewrite Hk. cbn [mbind result_bind]. rewrite Hcol.
  destruct (np_sum_Fin qs) as (s & Hs & Heq). rewrite Hs.
  assert (Hs0 : ~ (s == 0)%Q) by (rewrite Heq; exact Hnz).
  assert (Hw : map fabs (map (fun v => fdiv v (Fin s)) (map Fin qs))
               = map Fin (map (fun q => Qred (Qabs (Qred (q / s)))) qs)).
  { rewrite !map_map. apply map_ext. intros q. rewrite fdiv_fin by exact Hs0.
    reflexivity. }
  rewrite Hw. eexists. split; [reflexivity |].
  split; [| split].
  - rewrite !length_map. apply (f_equal length) in Hcol.
    unfold column in Hcol. rewrite !length_map in Hcol. symmetry. exact Hcol.
  - apply Forall_forall. intros w Hin.
    apply list_elem_of_fmap in Hin as (q' & -> & Hq').
    apply list_elem_of_fmap in Hq' as (q & -> & _).
    eexists. split; [reflexivity |]. rewrite Qred_correct. apply Qabs_nonneg.
  - apply np_sum_one.
    assert (Hpos : Forall (fun q => 0 <= q / s)%Q qs).
    { destruct Hsign as [Hall | Hall].
      - pose proof (Qsum_nonneg qs Hall). eapply Forall_impl; [exact Hall |].
        intros q Hq. apply Qdiv_same_sign. left. split; [exact Hq | lra].
      - pose proof (Qsum_nonpos qs Hall). eapply Forall_impl; [exact Hall |].
        intros q Hq. apply Qdiv_same_sign. right. split; [exact Hq | lra]. }
    rewrite (Qsum_ext_in _ (fun q => (q * / s)%Q)).
    + rewrite Qsum_scale, <- Heq. field. exact Hs0.
    + eapply Forall_impl; [exact Hpos |]. intros q Hq. cbn beta.
      rewrite !Qred_correct. apply Qabs_pos. exact Hq.
Qed.

(** X15 at the all-ones matrix of size 2. *)
Lemma ahp_weights_sum_to_one_witness :
  exists weights ratio,
    AHPMethod.calculate_weights Sample.eig_ones (Sample.ones 2) = Ok (weights, ratio)
    /\ length weights = 2%nat
    /\ Forall fin_nonneg weights
    /\ np_sum weights = Fin 1.
Proof.
  destruct (ahp_weights_sum_to_one Sample.eig_ones (Sample.ones 2)
              [Fin 2; Fin 0]
              [[Fin (7071 # 10000); Fin (- 7071 # 10000)];
               [Fin (7071 # 10000); Fin (7071 # 10000)]]
              0 [7071 # 10000; 7071 # 10000])%Q
    as (weights & Hw & Hlen & Hpos & Hsum).
  - reflexivity.
  - reflexivity.
  - reflexivity.
  - left. repeat (constructor; [discriminate |]). constructor.
  - discriminate.
  - eexists weights, _. split; [exact Hw |]. split; [exact Hlen |].
    split; [exact Hpos | exact Hsum].
Defined.

(** ** The validation of pairwise comparison matrices *)

Lemma isclose_one_fin (x : num) :
  isclose_one x = true <-> exists q, x = Fin q /\ (Qabs (q - 1) <= isclose_tolerance)%Q.
Proof.
  destruct x as [q| | |]; simpl.
  - rewrite Qle_bool_iff. split; [intros Hq; exists q; split; [reflexivity | exact Hq] |].
    intros (q' & [= <-] & Hq). exact Hq.
  - split; [discriminate | intros (q & Hq & _); discriminate].
  - split; [discriminate | intros (q & Hq & _); discriminate].
  - split; [discriminate | intros (q & Hq & _); discriminate].
Qed.

Lemma inf_signed_not_fin (positive : bool) (q r : Q) : inf_signed positive q <> Fin r.
Proof.
  unfold inf_signed. destruct (Qeq_bool q 0); [discriminate |].
  destruct (Bool.eqb _ _); discriminate.
Qed.

Lemma fmul_fin_inv (x y : num) (q : Q) :
  fmul x y = Fin q -> exists a b, x = Fin a /\ y = Fin b /\ (q == a * b)%Q.
Proof.
  destruct x as [a| | |], y as [b| | |]; simpl; try discriminate;
    try (intros Hq; exfalso; apply (inf_signed_not_fin _ _ _ Hq)).
  intros [= <-]. exists a, b. split; [reflexivity |]. split; [reflexivity |].
  apply Qred_correct.
Qed.

Lemma is_2d_square (M : matrix) :
  is_2d M = true -> Forall (fun row => length row = ncols M) M.
Proof.
  destruct M as [|row M]; [discriminate |]. simpl. intros Hall.
  constructor; [reflexivity |]. apply Forall_forall. intros r Hr.
  rewrite forallb_forall in Hall. apply Nat.eqb_eq, Hall, list_elem_of_In, Hr.
Qed.

(** X16.  A matrix that [validate_matrix] accepts is square with at least
    one row; all its entries are finite and nonzero; every diagonal entry
    is within the tolerance of 1; and so is the product of every entry
    with the entry opposite to it. *)
Theorem validate_matrix_accepted (matrix : list (list num)) :
  AHPMethod.validate_matrix matrix = Ok true ->
  matrix <> []
  /\ Forall (fun row => length row = length matrix) matrix
  /\ forall i j, (i < length matrix)%nat -> (j < length matrix)%nat ->
       exists a b,
         entry matrix i j = Fin a /\ entry matrix j i = Fin b
         /\ ~ (a == 0)%Q
         /\ (Qabs (a * b - 1) <= isclose_tolerance)%Q
         /\ (i = j -> (Qabs (a - 1) <= isclose_tolerance)%Q).
Proof.
  unfold AHPMethod.validate_matrix, np_array.
  destruct (is_2d matrix) eqn:H2d; cbn [mbind result_bind]; [| discriminate].
  destruct (Nat.eqb (length matrix) (ncols matrix)) eqn:Hsq; simpl; [| discriminate].
  apply Nat.eqb_eq in Hsq.
  destruct (forallb _ (seq 0 (length matrix))) eqn:Hdiag; simpl; [| discriminate].
  intros [= Hrec].
  split; [destruct matrix; [discriminate H2d | discriminate] |].
  split; [rewrite Hsq; apply is_2d_square, H2d |].
  intros i j Hi Hj.
  rewrite forallb_forall in Hrec.
  specialize (Hrec i ltac:(apply in_seq; lia)).
  rewrite forallb_forall in Hrec.
  specialize (Hrec j ltac:(apply in_seq; lia)).
  apply isclose_one_fin in Hrec as (q & Hq & Hclose).
  apply fmul_fin_inv in Hq as (a & b & Ha & Hb & Hab).
  exists a, b. unfold entry. split; [exact Ha |]. split; [exact Hb |].
  assert (Hprod : (Qabs (a * b - 1) <= isclose_tolerance)%Q).
  { rewrite <- Hab. exact Hclose. }
  split; [| split; [exact Hprod |]].
  - intros Hz. assert (E : (a * b - 1 == - (1))%Q) by (rewrite Hz; ring).
    rewrite E in Hprod. revert Hprod. unfold isclose_tolerance.
    apply Qlt_not_le. reflexivity.
  - intros <-. rewrite forallb_forall in Hdiag.
    specialize (Hdiag i ltac:(apply in_seq; lia)).
    apply isclose_one_fin in Hdiag as (q' & Hq' & Hclose').
    rewrite Ha in Hq'. injection Hq' as <-. exact Hclose'.
Qed.

(** X17.  Conversely, [validate_matrix] accepts every square matrix with
    at least one row whose diagonal entries are 1 and whose opposite
    entries are finite with product 1. *)
Theorem reciprocal_matrix_is_valid (matrix : list (list num)) :
  matrix <> [] ->
  Forall (fun row => length row = length matrix) matrix ->
  (forall i, (i < length matrix)%nat -> exists a, entry matrix i i = Fin a /\ (a == 1)%Q) ->
  (forall i j, (i < length matrix)%nat -> (j < length matrix)%nat ->
     exists a b, entry matrix i j = Fin a /\ entry matrix j i = Fin b /\ (a * b == 1)%Q) ->
  AHPMethod.validate_matrix matrix = Ok true.
Proof.
  intros Hne Hrows Hdiag Hrec.
  destruct (is_2d_rows matrix _ Hne Hrows) as [H2d Hc].
  unfold AHPMethod.validate_matrix, np_array. rewrite H2d. cbn [mbind result_bind].
  rewrite Hc, Nat.eqb_refl. simpl.
  assert (Hone : forall q, (q == 1)%Q -> isclose_one (Fin q) = true).
  { intros q Hq. apply isclose_one_fin. exists q. split; [reflexivity |].
    rewrite Hq. unfold isclose_tolerance. discriminate. }
  replace (forallb _ (seq 0 (length matrix))) with true.
  - simpl. f_equal. apply forallb_forall. intros i Hi. apply in_seq in Hi.
    apply forallb_forall. intros j Hj. apply in_seq in Hj.
    destruct (Hrec i j ltac:(lia) ltac:(lia)) as (a & b & Ha & Hb & Hab).
    unfold entry in Ha, Hb. rewrite Ha, Hb. simpl. apply Hone.
    rewrite Qred_correct. exact Hab.
  - symmetry. apply forallb_forall. intros i Hi. apply in_seq in Hi.
    destruct (Hdiag i ltac:(lia)) as (a & Ha & Ha1). unfold entry in Ha.
    rewrite Ha. apply Hone, Ha1.
Qed.

(** X16 at a reciprocal matrix of size 2. *)
Lemma validate_matrix_accepted_witness :
  let matrix := [[Fin 1; Fin 2]; [Fin (1 # 2); Fin 1]] in
  matrix <> []
  /\ Forall (fun row => length row = length matrix) matrix
  /\ forall i j, (i < length matrix)%nat -> (j < length matrix)%nat ->
       exists a b,
         entry matrix i j = Fin a /\ entry matrix j i = Fin b
         /\ ~ (a == 0)%Q
         /\ (Qabs (a * b - 1) <= isclose_tolerance)%Q
         /\ (i = j -> (Qabs (a - 1) <= isclose_tolerance)%Q).
Proof.
  apply (validate_matrix_accepted [[Fin 1; Fin 2]; [Fin (1 # 2); Fin 1]]).
  vm_compute. reflexivity.
Defined.

(** X17 at the same matrix. *)
Lemma reciprocal_matrix_is_valid_witness :
  AHPMethod.validate_matrix [[Fin 1; Fin 2]; [Fin (1 # 2); Fin 1]] = Ok true.
Proof.
  apply reciprocal_matrix_is_valid.
  - discriminate.
  - repeat constructor.
  - intros [|[|i]] Hi; simpl in Hi; try lia; eexists; (split; [reflexivity |]);
      reflexivity.
  - intros [|[|i]] [|[|j]] Hi Hj; simpl in Hi, Hj; try lia;
      eexists _, _; (split; [reflexivity |]); (split; [reflexivity |]); reflexivity.
Defined.

(** ** The ranking of alternatives *)

Lemma fltb_asym (a b : num) : fltb a b = true -> fltb b a = false.
Proof.
  destruct a as [x| | |], b as [y| | |]; simpl; try discriminate; try reflexivity.
  rewrite Qltb_lt, Qltb_ge. lra.
Qed.

Lemma fltb_false_trans (x y z : num) :
  is_nan y = false -> fltb x y = false -> fltb y z = false -> fltb x z = false.
Proof.
  destruct x as [a| | |], y as [b| | |], z as [c| | |]; simpl;
    try discriminate; try reflexivity.
  rewrite !Qltb_ge. intros _ H1 H2. lra.
Qed.

Lemma ordered_lookup {A} (R : A -> A -> Prop) (l : list A) (p q : nat) (a b : A) :
  ordered R l -> (p < q)%nat -> l !! p = Some a -> l !! q = Some b -> R a b.
Proof.
  revert p q. induction l as [|x l IH]; intros p q Hord Hpq Hp Hq; [discriminate |].
  destruct Hord as [Hx Hord]. destruct q as [|q]; [lia |]. simpl in Hq.
  destruct p as [|p]; simpl in Hp.
  - injection Hp as <-. rewrite Forall_forall in Hx.
    apply Hx, (list_elem_of_lookup_2 _ q), Hq.
  - apply (IH p q Hord ltac:(lia) Hp Hq).
Qed.

Lemma insert_desc_ordered (scores : list num) (x : nat) (l : list nat) :
  Forall (fun y => (x < y)%nat /\ is_nan (nth y scores NaN) = false) l ->
  ordered (ranked_before scores) l ->
  ordered (ranked_before scores) (Py.insert_desc (fun i => nth i scores NaN) x l).
Proof.
  induction l as [|y l IH]; intros Hall Hord; simpl; [split; [constructor | exact I] |].
  apply Forall_cons in Hall as [[Hxy Hy] Hall]. destruct Hord as [Hyl Hord].
  destruct (fltb (nth x scores NaN) (nth y scores NaN)) eqn:Hlt.
  - split; [| apply IH; assumption].
    rewrite insert_desc_perm. constructor; [| exact Hyl].
    split; [apply fltb_asym, Hlt | congruence].
  - split; [| split; assumption].
    constructor; [split; [exact Hlt | intros _; exact Hxy] |].
    rewrite Forall_forall in Hyl, Hall |- *. intros z Hz.
    split; [| intros _; apply Hall, Hz].
    apply (fltb_false_trans _ (nth y scores NaN)); [exact Hy | exact Hlt |].
    apply Hyl, Hz.
Qed.

Lemma sorted_desc_seq_ordered (scores : list num) (a n : nat) :
  Forall (fun s => is_nan s = false) scores ->
  (a + n <= length scores)%nat ->
  ordered (ranked_before scores)
          (Py.sorted_desc (fun i => nth i scores NaN) (seq a n)).
Proof.
  intros Hnan. revert a. induction n as [|n IH]; intros a Hlen; simpl; [exact I |].
  apply insert_desc_ordered; [| apply IH; lia].
  rewrite sorted_desc_perm. apply Forall_forall. intros y Hy.
  apply list_elem_of_In, in_seq in Hy. split; [lia |].
  rewrite Forall_forall in Hnan. apply Hnan, list_elem_of_In, nth_In. lia.
Qed.

(** X18.  The ranking is a rearrangement of the indices 0 .. n-1 of the
    scores.  When no score is [nan], it lists them by descending score,
    alternatives of equal score by ascending index: of two positions of
    the ranking, the earlier holds an alternative whose score is not
    smaller, and whose index is smaller if the scores are equal. *)
Theorem rank_alternatives_sorted (scores : list num) :
  MCDMEngine.rank_alternatives scores ≡ₚ seq 0 (length scores)
  /\ (Forall (fun s => is_nan s = false) scores ->
      forall p q i j, (p < q)%nat ->
        MCDMEngine.rank_alternatives scores !! p = Some i ->
        MCDMEngine.rank_alternatives scores !! q = Some j ->
        ranked_before scores i j).
Proof.
  unfold MCDMEngine.rank_alternatives. split; [apply sorted_desc_perm |].
  intros Hnan p q i j Hpq Hp Hq.
  apply (ordered_lookup _ _ p q i j
           (sorted_desc_seq_ordered scores 0 (length scores) Hnan ltac:(lia)) Hpq Hp Hq).
Qed.

(** ** TOPSIS on alternatives that do not differ *)

Lemma fold_np_maximum_same (x : num) (n : nat) : fold_left np_maximum (repeat x n) x = x.
Proof.
  induction n as [|n IH]; simpl; [reflexivity |].
  replace (np_maximum x x) with x; [exact IH |].
  unfold np_maximum. destruct (is_nan x); [reflexivity |]. destruct (fltb x x); reflexivity.
Qed.

Lemma fold_np_minimum_same (x : num) (n : nat) : fold_left np_minimum (repeat x n) x = x.
Proof.
  induction n as [|n IH]; simpl; [reflexivity |].
  replace (np_minimum x x) with x; [exact IH |].
  unfold np_minimum. destruct (is_nan x); [reflexivity |]. destruct (fltb x x); reflexivity.
Qed.

Lemma column_repeat (j : nat) (row : list num) (n : nat) :
  column j (repeat row n) = repeat (nth j row zero) n.
Proof. unfold column. apply map_repeat. Qed.

Lemma mapM_result_map {A B} (f : A -> result B) (g : A -> B) (l : list A) :
  Forall (fun x => f x = Ok (g x)) l -> mapM_result f l = Ok (map g l).
Proof.
  induction 1 as [|x l Hx _ IH]; simpl; [reflexivity |]. rewrite Hx, IH. reflexivity.
Qed.

Lemma squared_differences_self (qs : list Q) :
  np_sum (zip_with (fun v a => let d := fsub v a in fmul d d) (map Fin qs) (map Fin qs))
  = Fin 0.
Proof.
  unfold np_sum, zero.
  assert (G : forall l : list num, Forall (fun x => x = Fin 0) l ->
                fold_left fadd l (Fin 0) = Fin 0).
  { induction 1 as [|x l -> _ IH]; simpl; [reflexivity | exact IH]. }
  apply G. induction qs as [|q qs IH]; simpl; constructor; [| exact IH].
  unfold fsub. simpl. rewrite (Qred_complete (q + Qred (- q)) 0).
  - reflexivity.
  - rewrite Qred_correct. ring.
Qed.

Lemma columns_repeat (r : list num) (m : nat) :
  columns (repeat r (S m))
  = map (fun j => nth j r zero :: repeat (nth j r zero) m) (seq 0 (length r)).
Proof.
  unfold columns. simpl ncols. apply map_ext. intros j. apply (column_repeat j r (S m)).
Qed.

Lemma extreme_of_constant_columns (f : CriteriaType * list num -> result num)
    (criteria_types : list CriteriaType) (r : list num) (m : nat) :
  length criteria_types = length r ->
  (forall t x, f (t, x :: repeat x m) = Ok x) ->
  mapM_result f (zip criteria_types (columns (repeat r (S m)))) = Ok r.
Proof.
  intros Hlen Hf. rewrite columns_repeat.
  rewrite (mapM_result_map f (fun tc => nth 0 tc.2 zero)).
  - f_equal. rewrite <- (map_map snd (fun col => nth 0 col zero)).
    change (map snd ?l) with (l.*2). rewrite snd_zip by (rewrite length_map, length_seq; lia).
    rewrite map_map. simpl. apply map_nth_seq.
  - apply Forall_forall. intros [t col] Hin. apply elem_of_zip_r in Hin.
    apply list_elem_of_fmap in Hin as (j & -> & _). apply Hf.
Qed.

Section TopsisTies.
Context `{NpSqrt}.

Lemma distance_self (row : list num) :
  (sqrtQ 0 == 0)%Q -> Forall is_fin row -> TOPSISMethod.distance row row = Fin 0.
Proof.
  intros Hsqrt Hrow. destruct (is_fin_list row Hrow) as [qs ->].
  unfold TOPSISMethod.distance. rewrite squared_differences_self. simpl.
  f_equal. apply (Qred_complete _ 0). exact Hsqrt.
Qed.

(** X19.  TOPSIS cannot tell alternatives apart that do not differ: when
    all rows of the decision matrix are the same row of finite entries
    (in particular when there is a single alternative), every score is 0,
    whatever the finite weights and the criteria types.  The square root
    of 0 is taken to be 0, as numpy's is. *)
Theorem topsis_identical_rows_score_zero (row weights : list num)
    (criteria_types : list CriteriaType) (n : nat) :
  (sqrtQ 0 == 0)%Q -> (0 < n)%nat ->
  Forall is_fin row -> Forall is_fin weights ->
  length weights = length row -> length criteria_types = length row ->
  TOPSISMethod.calculate_scores (repeat row n) weights criteria_types
  = Ok (repeat (Fin 0) n).
Proof.
  intros Hsqrt Hn Hrow Hw Hlw Hlt.
  assert (Hcols : ncols (repeat row n) = length row)
    by (destruct n; [lia | reflexivity]).
  unfold TOPSISMethod.calculate_scores. rewrite Hcols, Hlw, Hlt, Nat.eqb_refl.
  cbn [andb negb].
  assert (Hfin : Forall (Forall is_fin) (TOPSISMethod.normalize_matrix (repeat row n))).
  { apply normalize_matrix_fin, Forall_forall. intros r Hr.
    apply list_elem_of_In, repeat_spec in Hr. subst r. exact Hrow. }
  revert Hfin. unfold TOPSISMethod.normalize_matrix.
  set (norms := map _ (map _ (columns (repeat row n)))).
  rewrite !map_repeat. intros Hfin.
  set (r := zip_with fmul (zip_with fdiv row norms) weights).
  assert (Hr : Forall is_fin r).
  { apply (Forall_zip_with is_fin is_fin); [| | exact Hw].
    - intros x y [a ->] [b ->]. eexists. apply fmul_fin.
    - rewrite Forall_forall in Hfin. apply Hfin.
      destruct n; [lia | left]. }
  assert (Hlr : length r = length row).
  { unfold r. rewrite !length_zip_with. unfold norms.
    rewrite !length_map, length_columns, Hcols. lia. }
  destruct n as [|m]; [lia |].
  rewrite (extreme_of_constant_columns _ criteria_types r m ltac:(lia));
    [| intros [|] x; simpl; f_equal;
       first [apply fold_np_maximum_same | apply fold_np_minimum_same]].
  cbn [mbind result_bind].
  rewrite (extreme_of_constant_columns _ criteria_types r m ltac:(lia));
    [| intros [|] x; simpl; f_equal;
       first [apply fold_np_maximum_same | apply fold_np_minimum_same]].
  cbn [mbind result_bind]. f_equal. rewrite map_repeat. f_equal.
  rewrite (distance_self r Hsqrt Hr). reflexivity.
Qed.

End TopsisTies.

(** X19 at a lone alternative, with the default weights. *)
Lemma topsis_identical_rows_score_zero_witness :
  TOPSISMethod.calculate_scores (H := Sample.sqrt_trunc_impl)
    (repeat [Fin 1; Fin 5; Fin 4; Fin 2; Fin 10] 1)
    (map Criteria.weight default_criteria) (map Criteria.type default_criteria)
  = Ok (repeat (Fin 0) 1).
Proof.
  apply (topsis_identical_rows_score_zero (H := Sample.sqrt_trunc_impl)).
  - reflexivity.
  - lia.
  - repeat (constructor; [eexists; reflexivity |]); constructor.
  - repeat (constructor; [eexists; reflexivity |]); constructor.
  - reflexivity.
  - reflexivity.
Defined.

(** ** The handlers of the web interface *)

Lemma method_check_supported (method : string) :
  existsb (String.eqb (Py.upper method)) ["SAW"; "TOPSIS"]%string = supported method.
Proof. unfold supported. simpl. rewrite orb_false_r. reflexivity. Qed.

Section Handlers.
Context `{NpSqrt}.

(** X20.  The handler of [POST /schedule], for a request whose integers
    are in range (load counters that are not negative and stay below 2^63
    during the run, years of experience and room capacities that are
    64-bit integers), never raises the exception of a server error.  It
    answers 400 exactly when the method is neither SAW nor TOPSIS (in any
    case) or when the students, the examiners, the rooms or the timeslots
    are empty; otherwise it returns the solution of the allocator.  An
    empty list of sessions is not rejected.  (Outside that range the
    division of a load counter or of a capacity can raise
    [OverflowError], which the handler turns into the server error.) *)
Theorem schedule_handler_answers (request : Main.SchedulingRequest.t) :
  workloads_in_range (length (Main.SchedulingRequest.exam_sessions request))
                     (Main.SchedulingRequest.examiners request) ->
  experience_in_range (Main.SchedulingRequest.examiners request) ->
  capacities_in_range (Main.SchedulingRequest.rooms request) ->
  let method := Main.SchedulingRequest.method request in
  let students := Main.SchedulingRequest.students request in
  let examiners := Main.SchedulingRequest.examiners request in
  let rooms := Main.SchedulingRequest.rooms request in
  let timeslots := Main.SchedulingRequest.timeslots request in
  (supported method = true -> students <> [] -> examiners <> [] -> rooms <> [] ->
   timeslots <> [] ->
   exists solution st,
     ExamSchedulingDSS.generate_schedule students examiners rooms timeslots
       (Main.SchedulingRequest.exam_sessions request)
       (Main.SchedulingRequest.criteria request) method = (Ok solution, st)
     /\ Main.generate_schedule request = Main.Response solution)
  /\ (supported method = false \/ students = [] \/ examiners = [] \/ rooms = []
      \/ timeslots = [] ->
      exists text,
        Main.generate_schedule request
        = Main.HTTPException Main.HTTP_400_BAD_REQUEST (Main.Message text))
  /\ forall d, Main.generate_schedule request
               <> Main.HTTPException Main.HTTP_500_INTERNAL_SERVER_ERROR d.
Proof.
  intros Hw _ Hcap method students examiners rooms timeslots.
  unfold Main.generate_schedule. fold method students examiners rooms timeslots.
  rewrite method_check_supported.
  destruct (supported method) eqn:Hsup; cbn [negb].
  2: { split; [discriminate |]. split; [intros _; eexists; reflexivity | discriminate]. }
  destruct students as [|s ss] eqn:Hs;
    [split; [congruence |]; split; [intros _; eexists; reflexivity | discriminate] |].
  destruct examiners as [|e es] eqn:He;
    [split; [congruence |]; split; [intros _; eexists; reflexivity | discriminate] |].
  destruct rooms as [|r rs] eqn:Hr;
    [split; [congruence |]; split; [intros _; eexists; reflexivity | discriminate] |].
  destruct timeslots as [|t ts] eqn:Ht;
    [split; [congruence |]; split; [intros _; eexists; reflexivity | discriminate] |].
  destruct (supported_run (s :: ss) (e :: es) (r :: rs) (t :: ts)
              (Main.SchedulingRequest.exam_sessions request)
              (Main.SchedulingRequest.criteria request) method Hsup)
    as (solution & st & Hgen).
  { unfold examiners in He. rewrite <- He. exact Hw. }
  { unfold rooms in Hr. rewrite <- Hr. exact Hcap. }
  rewrite Hgen. cbn [fst].
  split; [intros _ _ _ _ _; exists solution, st; split; reflexivity |].
  split; [| discriminate].
  intros [Hf | [Hf | [Hf | [Hf | Hf]]]]; discriminate Hf.
Qed.

Lemma fgtb_of_nat_zero (n : nat) : fgtb (of_nat n) (Fin 0) = negb (Nat.eqb n 0).
Proof. destruct n; reflexivity. Qed.

(** X21.  The handler of [POST /analyze-schedule] never fails: it returns
    the analysis of the solution, its method and at least one
    recommendation.  For a solution without assignment these are the
    advice to add examiners or timeslots and the advice on low quality,
    and the exams that could not be scheduled are not reported, however
    many there are.  For a solution with an assignment their number is
    reported exactly when there is one. *)
Theorem analyze_handler_recommendations (solution : DSSSolution.t) :
  exists analysis recommendations,
    Main.analyze_schedule solution
    = Main.Response (analysis, recommendations, DSSSolution.method_used solution)
    /\ ExamSchedulingDSS.analyze_schedule_quality solution = Ok analysis
    /\ recommendations = Main._generate_recommendations analysis
    /\ recommendations <> []
    /\ (DSSSolution.schedule solution = [] ->
        recommendations
        = [Main.Text "Tingkatkan jumlah penguji atau slot waktu yang tersedia";
           Main.Text "Kualitas jadwal rendah, pertimbangkan menambah penguji berkualitas"])
    /\ (DSSSolution.schedule solution <> [] ->
        (Main.Unscheduled (of_nat (length (DSSSolution.infeasible_exams solution)))
           ∈ recommendations
         <-> DSSSolution.infeasible_exams solution <> [])).
Proof.
  unfold Main.analyze_schedule, analyze_schedule_quality.
  destruct (DSSSolution.schedule solution) as [|a l] eqn:Hsched.
  - eexists _, _. split; [reflexivity |]. split; [reflexivity |].
    split; [reflexivity |]. split; [discriminate |].
    split; [intros _; reflexivity | congruence].
  - cbn [map np_min np_max mbind result_bind].
    set (analysis := Py.dict _).
    exists analysis, (Main._generate_recommendations analysis).
    split; [reflexivity |]. split; [reflexivity |]. split; [reflexivity |].
    assert (Hget : Main.get analysis "infeasible_exams"
                   = of_nat (length (DSSSolution.infeasible_exams solution)))
      by reflexivity.
    unfold Main._generate_recommendations. rewrite Hget, fgtb_of_nat_zero.
    generalize (fltb (Main.get analysis "success_rate") (Fin (8 # 10))).
    generalize (fgtb (Main.get analysis "score_std") (Fin (3 # 10))).
    generalize (fltb (Main.get analysis "average_score") (Fin (6 # 10))).
    clear Hget. intros b1 b2 b3.
    destruct (DSSSolution.infeasible_exams solution) as [|x xs]; cbn [length Nat.eqb negb].
    + split; [destruct b1, b2, b3; discriminate |]. split; [discriminate |]. intros _.
      split; [| congruence]. intros Hin. exfalso. revert Hin.
      destruct b1, b2, b3; cbn [app]; rewrite ?elem_of_cons, elem_of_nil;
        intuition discriminate.
    + split; [destruct b1, b2, b3; discriminate |]. split; [discriminate |]. intros _.
      split; [discriminate |]. intros _.
      destruct b1, b2, b3; cbn [app]; rewrite ?elem_of_cons; intuition.
Qed.

End Handlers.

(** X20 at the data of [test_method_comparison], with the method name in
    lower case. *)
Lemma schedule_handler_answers_witness :
  exists solution,
    Main.generate_schedule (H := Sample.sqrt_trunc_impl)
      (Main.SchedulingRequest.mk [Sample.student1] (Sample.examiners_with 0 1 2)
         [Sample.room1] [Sample.slot1] [Sample.session1] None "topsis")
    = Main.Response solution.
Proof.
  destruct (schedule_handler_answers (H := Sample.sqrt_trunc_impl)
              (Main.SchedulingRequest.mk [Sample.student1] (Sample.examiners_with 0 1 2)
                 [Sample.room1] [Sample.slot1] [Sample.session1] None "topsis"))
    as [Hok _].
  - apply (bool_decide_unpack _). vm_compute. exact I.
  - apply (bool_decide_unpack _). vm_compute. exact I.
  - apply (bool_decide_unpack _). vm_compute. exact I.
  - destruct Hok as (solution & st & _ & Hresp);
      [reflexivity | discriminate | discriminate | discriminate | discriminate |].
    exists solution. exact Hresp.
Defined.

(** ** The statistics of the analyzer *)

Lemma Qsum_bounds (qs : list Q) (a b : Q) :
  Forall (fun q => a <= q <= b)%Q qs ->
  (a * inject_Z (Z.of_nat (length qs)) <= Qsum qs
   /\ Qsum qs <= b * inject_Z (Z.of_nat (length qs)))%Q.
Proof.
  induction 1 as [|q qs [Hq1 Hq2] _ [IH1 IH2]].
  - simpl. split; ring_simplify; apply Qle_refl.
  - cbn [length Qsum foldr]. rewrite Nat2Z.inj_succ. unfold Z.succ.
    rewrite inject_Z_plus. fold (Qsum qs).
    change (inject_Z 1) with 1%Q. split; lra.
Qed.

Lemma np_mean_bounds (qs : list Q) (a b : Q) :
  qs <> [] -> Forall (fun q => a <= q <= b)%Q qs ->
  exists m, np_mean (map Fin qs) = Fin m /\ (a <= m <= b)%Q.
Proof.
  intros Hne Hall. unfold np_mean.
  destruct (np_sum_Fin qs) as (s & -> & Hs).
  assert (Hn : (0 < inject_Z (Z.of_nat (length qs)))%Q).
  { change 0%Q with (inject_Z 0). rewrite <- Zlt_Qlt. destruct qs; [congruence |].
    simpl. lia. }
  rewrite length_map. unfold of_nat, of_Z. rewrite fdiv_fin by lra.
  eexists. split; [reflexivity |]. rewrite Qred_correct, Hs.
  destruct (Qsum_bounds qs a b Hall) as [H1 H2].
  split; [apply Qle_shift_div_l | apply Qle_shift_div_r]; assumption.
Qed.

Section AnalyzerRange.
Context `{NpSqrt}.

(** X22.  For a solution with at least one assignment and finite scores
    the analyzer reports finite statistics that fit together, in the
    exact arithmetic of the model: the minimum score is at most the
    average score, which is at most the maximum score; the standard
    deviation is not negative; and the success rate is above 0 and at
    most 1.  (The rounding of float64 is not modelled: there the average
    of scores that are all equal can differ from them in the last place,
    and so fall outside the minimum and the maximum.) *)
Theorem analysis_statistics_in_range (solution : DSSSolution.t) :
  DSSSolution.schedule solution <> [] ->
  Forall (fun a => is_fin (ScheduleResult.total_score a)) (DSSSolution.schedule solution) ->
  exists analysis min_score average_score max_score score_std success_rate,
    analyze_schedule_quality solution = Ok analysis
    /\ analysis !! "min_score"%string = Some (Fin min_score)
    /\ analysis !! "average_score"%string = Some (Fin average_score)
    /\ analysis !! "max_score"%string = Some (Fin max_score)
    /\ analysis !! "score_std"%string = Some (Fin score_std)
    /\ analysis !! "success_rate"%string = Some (Fin success_rate)
    /\ (min_score <= average_score <= max_score)%Q
    /\ (0 <= score_std)%Q
    /\ (0 < success_rate <= 1)%Q.
Proof.
  intros Hne Hfin. unfold analyze_schedule_quality.
  destruct (DSSSolution.schedule solution) as [|a l] eqn:Hsched; [congruence |].
  rewrite <- Hsched in *. clear Hne.
  set (scores := map ScheduleResult.total_score (DSSSolution.schedule solution)).
  assert (Hscores : Forall is_fin scores) by (apply Forall_fmap; exact Hfin).
  assert (Hsne : scores <> []) by (unfold scores; rewrite Hsched; discriminate).
  destruct (is_fin_list scores Hscores) as [qs Hqs].
  destruct (np_min_fin scores Hsne Hscores) as (mn & Hmin & _ & Hmn).
  destruct (np_max_fin scores Hsne Hscores) as (mx & Hmax & _ & Hmx).
  rewrite Hmin, Hmax. cbn [mbind result_bind].
  assert (Hqne : qs <> []) by (intros ->; apply Hsne, Hqs).
  destruct (np_mean_bounds qs mn mx Hqne) as (avg & Havg & Hbounds).
  { apply Forall_forall. intros q Hq.
    assert (Hin : Fin q ∈ scores).
    { rewrite Hqs. apply list_elem_of_fmap. exists q. split; [reflexivity | exact Hq]. }
    split; [apply Hmn, Hin | apply Hmx, Hin]. }
  rewrite <- Hqs in Havg.
  assert (Hstd : fin_nonneg (np_std scores)).
  { unfold np_std. apply np_sqrt_fin_nonneg. rewrite Havg.
    set (squares := map _ scores).
    assert (Hsq : Forall fin_nonneg squares).
    { apply Forall_fmap. eapply Forall_impl; [exact Hscores |].
      intros x [q ->]. unfold compose. cbv beta zeta. rewrite fsub_fin. apply square_fin.
      eexists. reflexivity. }
    destruct (np_sum_fin_nonneg squares Hsq) as (s & Hs & Hs0).
    unfold np_mean. rewrite Hs.
    assert (Hn : (0 < inject_Z (Z.of_nat (length squares)))%Q).
    { change 0%Q with (inject_Z 0). rewrite <- Zlt_Qlt. unfold squares.
      rewrite length_map. destruct scores; [congruence |]. simpl. lia. }
    unfold of_nat, of_Z. rewrite fdiv_fin by lra.
    eexists. split; [reflexivity |]. rewrite Qred_correct.
    apply Qle_shift_div_l; [exact Hn | lra]. }
  destruct Hstd as (sd & Hsd & Hsd0).
  set (scheduled := length (DSSSolution.schedule solution)).
  set (infeasible := length (DSSSolution.infeasible_exams solution)).
  assert (Hk : (0 < scheduled)%nat) by (unfold scheduled; rewrite Hsched; simpl; lia).
  eexists _, mn, avg, mx, sd, _. split; [reflexivity |].
  unfold Py.dict. cbn [fold_left fst snd].
  split; [reflexivity |]. split; [rewrite <- Havg; reflexivity |].
  split; [reflexivity |]. split; [rewrite <- Hsd; reflexivity |].
  split; [unfold of_nat; rewrite fdiv_of_Z by lia; reflexivity |].
  split; [exact Hbounds |]. split; [exact Hsd0 |].
  rewrite Qred_correct. split; [| apply ratio_le_one; lia].
  apply Qlt_shift_div_l.
  - change 0%Q with (inject_Z 0). rewrite <- Zlt_Qlt. lia.
  - rewrite Qmult_0_l. change 0%Q with (inject_Z 0). rewrite <- Zlt_Qlt. lia.
Qed.

End AnalyzerRange.

(** X22 at a solution with two assignments and one infeasible exam. *)
Lemma analysis_statistics_in_range_witness :
  let solution :=
    DSSSolution.mk
      [ ScheduleResult.mk 1 "Alice" 1 1 [1; 2] (Fin (8 # 10)) ∅;
        ScheduleResult.mk 2 "Bob" 1 2 [3; 4] (Fin (6 # 10)) ∅ ]
      "SAW" (Fin (7 # 10)) ∅ [3] in
  exists analysis min_score average_score max_score score_std success_rate,
    analyze_schedule_quality (H := Sample.sqrt_trunc_impl) solution = Ok analysis
    /\ analysis !! "min_score"%string = Some (Fin min_score)
    /\ analysis !! "average_score"%string = Some (Fin average_score)
    /\ analysis !! "max_score"%string = Some (Fin max_score)
    /\ analysis !! "score_std"%string = Some (Fin score_std)
    /\ analysis !! "success_rate"%string = Some (Fin success_rate)
    /\ (min_score <= average_score <= max_score)%Q
    /\ (0 <= score_std)%Q
    /\ (0 < success_rate <= 1)%Q.
Proof.
  intros solution.
  apply (analysis_statistics_in_range (H := Sample.sqrt_trunc_impl) solution).
  - discriminate.
  - repeat (constructor; [eexists; reflexivity |]). constructor.
Defined.

(** ** SAW on alternatives that do not differ *)

Lemma fdiv_self (q : Q) : ~ (q == 0)%Q -> fdiv (Fin q) (Fin q) = one.
Proof.
  intros Hq. rewrite fdiv_fin by exact Hq. unfold one. f_equal.
  apply (Qred_complete _ 1). field. exact Hq.
Qed.

Lemma map_const_repeat {A B} (f : A -> B) (c : B) (l : list A) :
  (forall x, x ∈ l -> f x = c) -> map f l = repeat c (length l).
Proof.
  induction l as [|x l IH]; intros Hf; simpl; [reflexivity |].
  rewrite (Hf x) by left. f_equal. apply IH. intros y Hy. apply Hf. right. exact Hy.
Qed.

Lemma normalize_column_constant (t : CriteriaType) (q : Q) (m : nat) :
  ~ (q == 0)%Q ->
  SAWMethod.normalize_column t (Fin q :: repeat (Fin q) m) = Ok (repeat one (S m)).
Proof.
  intros Hq.
  assert (Hnz : fneb (Fin q) zero = true).
  { unfold fneb, feqb, zero. apply negb_true_iff, Qeq_bool_false, Hq. }
  assert (Hmap : forall f : num -> num, f (Fin q) = one ->
            map f (Fin q :: repeat (Fin q) m) = repeat one (S m)).
  { intros f Hf. change (Fin q :: repeat (Fin q) m) with (repeat (Fin q) (S m)).
    rewrite map_repeat, Hf. reflexivity. }
  unfold SAWMethod.normalize_column. destruct t; cbn [np_max np_min mbind result_bind].
  - rewrite fold_np_maximum_same, Hnz. f_equal. apply Hmap, fdiv_self, Hq.
  - rewrite fold_np_minimum_same.
    replace (np_all_nonzero (Fin q :: repeat (Fin q) m)) with true.
    + f_equal. apply Hmap, fdiv_self, Hq.
    + symmetry. apply forallb_forall. intros x Hx.
      change (Fin q :: repeat (Fin q) m) with (repeat (Fin q) (S m)) in Hx.
      apply repeat_spec in Hx. subst x. exact Hnz.
Qed.

Lemma normalize_columns_constant (qs : list Q) (criteria_types : list CriteriaType)
    (m : nat) :
  Forall (fun q => ~ (q == 0)%Q) qs -> length criteria_types = length qs ->
  SAWMethod.normalize_columns (map (fun q => Fin q :: repeat (Fin q) m) qs) criteria_types
  = Ok (repeat (repeat one (S m)) (length qs)).
Proof.
  intros Hqs. revert criteria_types.
  induction Hqs as [|q qs Hq _ IH]; intros [|t types] Hlen; try discriminate;
    [reflexivity |].
  cbn [map SAWMethod.normalize_columns]. rewrite (normalize_column_constant t q m Hq).
  cbn [mbind result_bind]. rewrite IH by (simpl in Hlen; lia). reflexivity.
Qed.

Lemma from_columns_ones (k m : nat) :
  from_columns (S m) (repeat (repeat one (S m)) k) = repeat (repeat one k) (S m).
Proof.
  unfold from_columns.
  transitivity (repeat (repeat one k) (length (seq 0 (S m))));
    [| rewrite length_seq; reflexivity].
  apply map_const_repeat. intros i Hi. apply list_elem_of_In, in_seq in Hi.
  rewrite map_repeat. f_equal.
  apply nth_repeat_lt. lia.
Qed.

(** X23.  SAW gives alternatives that do not differ the full score: when
    all rows of the decision matrix are the same row of finite nonzero
    entries (in particular when there is a single alternative), every
    score is the sum of the weights, whatever the criteria types; so it is
    1 for weights of sum 1, where TOPSIS gives 0. *)
Theorem saw_identical_rows_score_full (qs ws : list Q)
    (criteria_types : list CriteriaType) (n : nat) :
  (0 < n)%nat -> Forall (fun q => ~ (q == 0)%Q) qs ->
  length ws = length qs -> length criteria_types = length qs ->
  exists score,
    SAWMethod.calculate_scores (repeat (map Fin qs) n) (map Fin ws) criteria_types
    = Ok (repeat (Fin score) n)
    /\ (score == Qsum ws)%Q
    /\ ((Qsum ws == 1)%Q -> score = 1%Q).
Proof.
  intros Hn Hqs Hlw Hlt. destruct n as [|m]; [lia |].
  unfold SAWMethod.calculate_scores, SAWMethod.normalize_matrix.
  rewrite columns_repeat, length_map.
  assert (Hcols : map (fun j => nth j (map Fin qs) zero
                                :: repeat (nth j (map Fin qs) zero) m)
                      (seq 0 (length qs))
                  = map (fun q => Fin q :: repeat (Fin q) m) qs).
  { transitivity (map (fun x : num => x :: repeat x m)
                       (map (fun j => nth j (map Fin qs) zero)
                            (seq 0 (length (map Fin qs))))).
    - rewrite length_map, map_map. reflexivity.
    - rewrite map_nth_seq, map_map. reflexivity. }
  rewrite Hcols, (normalize_columns_constant qs criteria_types m Hqs Hlt).
  cbn [mbind result_bind]. rewrite repeat_length, from_columns_ones.
  unfold np_dot.
  replace (forallb _ (repeat (repeat one (length qs)) (S m))) with true.
  2: { symmetry. apply forallb_forall. intros r Hr. apply repeat_spec in Hr. subst r.
       rewrite repeat_length, length_map, Hlw. apply Nat.eqb_refl. }
  rewrite map_repeat.
  assert (Hzip : zip_with fmul (repeat one (length qs)) (map Fin ws)
                 = map Fin (map (fun w => Qred (1 * w)) ws)).
  { rewrite <- Hlw. clear. induction ws as [|w ws IH]; simpl; [reflexivity |].
    rewrite IH. reflexivity. }
  rewrite Hzip.
  destruct (np_sum_Fin (map (fun w => Qred (1 * w)) ws)) as (score & Hscore & Heq).
  assert (Hsum : (score == Qsum ws)%Q).
  { rewrite Heq. rewrite (Qsum_ext _ (fun w => (w * 1)%Q))
      by (intros w; rewrite Qred_correct; ring).
    rewrite Qsum_scale. ring. }
  exists score. rewrite Hscore. split; [reflexivity |]. split; [exact Hsum |].
  intros Hone.
  assert (Hone' : np_sum (map Fin (map (fun w => Qred (1 * w)) ws)) = Fin 1).
  { apply np_sum_one. rewrite <- Heq, Hsum. exact Hone. }
  rewrite Hscore in Hone'. injection Hone' as ->. reflexivity.
Qed.

(** X23 at a lone alternative, with the default weights. *)
Lemma saw_identical_rows_score_full_witness :
  SAWMethod.calculate_scores (repeat (map Fin [1; 5; 4; 2; 10]%Q) 1)
    (map Fin [30 # 100; 25 # 100; 20 # 100; 15 # 100; 10 # 100]%Q)
    (map Criteria.type default_criteria)
  = Ok (repeat (Fin 1) 1).
Proof.
  destruct (saw_identical_rows_score_full [1; 5; 4; 2; 10]%Q
              [30 # 100; 25 # 100; 20 # 100; 15 # 100; 10 # 100]%Q
              (map Criteria.type default_criteria) 1)
    as (score & Hscore & _ & Hone).
  - lia.
  - repeat (constructor; [discriminate |]). constructor.
  - reflexivity.
  - reflexivity.
  - rewrite Hscore, Hone; reflexivity.
Defined.

(** ** SAW on a cost column of zeros *)

Lemma feqb_zero_inv (v : num) :
  feqb v zero = true -> exists q, v = Fin q /\ Qeq_bool q 0 = true.
Proof.
  destruct v as [q| | |]; simpl; try discriminate. intros Hq. exists q. split; [reflexivity | exact Hq].
Qed.

Lemma fold_fadd_nan (l : list num) (a : num) : NaN ∈ l -> fold_left fadd l a = NaN.
Proof.
  assert (G : forall l, fold_left fadd l NaN = NaN).
  { induction l0 as [|x l0 IH]; simpl; [reflexivity | exact IH]. }
  revert a. induction l as [|x l IH]; intros a Hin; [apply elem_of_nil in Hin; contradiction |].
  simpl. apply elem_of_cons in Hin as [<- | Hin]; [| apply IH, Hin].
  replace (fadd a NaN) with NaN by (destruct a; reflexivity). apply G.
Qed.

Lemma normalize_cost_column_of_zeros (col : list num) :
  col <> [] -> Forall (fun v => feqb v zero = true) col ->
  SAWMethod.normalize_column COST col = Ok (map (fun _ => NaN) col).
Proof.
  intros Hne Hzero. destruct col as [|v col]; [congruence |].
  unfold SAWMethod.normalize_column. cbn [np_min np_max mbind result_bind].
  pose proof Hzero as Hv. apply Forall_cons in Hv as [Hv _].
  replace (np_all_nonzero (v :: col)) with false
    by (simpl; unfold fneb; rewrite Hv; reflexivity).
  cbn [mbind result_bind]. f_equal.
  pose proof (fold_np_maximum_elem col v) as Hmax.
  rewrite Forall_forall in Hzero.
  destruct (feqb_zero_inv _ (Hzero _ Hmax)) as (m & -> & Hm).
  apply Forall_fmap_ext_1, Forall_forall. intros x Hx.
  destruct (feqb_zero_inv _ (Hzero x Hx)) as (q & -> & Hq).
  unfold fdiv, inf_signed. rewrite Hm, Hq. reflexivity.
Qed.

Lemma nth_map_const {A B} (c : B) (l : list A) (i : nat) :
  nth i (map (fun _ => c) l) c = c.
Proof.
  revert i. induction l as [|x l IH]; intros [|i]; simpl; try reflexivity. apply IH.
Qed.

Section SawZeroCost.
Context `{NpSqrt}.

(** The engine under SAW on a cost column of zeros. *)
Lemma engine_saw_scores_nan (decision_matrix : list (list num))
    (criteria : list Criteria.t) (method : string) (j : nat) (c : Criteria.t) :
  decision_matrix <> [] ->
  Forall (fun row => length row = length criteria) decision_matrix ->
  String.eqb (Py.upper method) "SAW" = true ->
  criteria !! j = Some c -> Criteria.type c = COST ->
  Forall (fun v => feqb v zero = true) (column j decision_matrix) ->
  exists scores weights,
    MCDMEngine.evaluate_alternatives decision_matrix criteria method = Ok (scores, weights)
    /\ length scores = length decision_matrix
    /\ Forall (fun s => s = NaN) scores.
Proof.
  intros HM Hrows Hsaw Hj Hc Hzero.
  destruct (is_2d_rows decision_matrix _ HM Hrows) as [H2d Hcols].
  unfold MCDMEngine.evaluate_alternatives, np_array. rewrite H2d, Hsaw.
  cbn [mbind result_bind].
  set (weights := map _ (map Criteria.weight criteria)).
  set (types := map Criteria.type criteria).
  assert (Hlw : length weights = ncols decision_matrix)
    by (unfold weights; rewrite !length_map; congruence).
  assert (Hlt : length types = ncols decision_matrix)
    by (unfold types; rewrite length_map; congruence).
  destruct (saw_calculate_scores_ok decision_matrix weights types HM Hlw Hlt)
    as (scores & Hsc & Hlen).
  rewrite Hsc. cbn [mbind result_bind]. eexists _, _. split; [reflexivity |].
  split; [exact Hlen |].
  revert Hsc. unfold SAWMethod.calculate_scores, SAWMethod.normalize_matrix.
  destruct (normalize_columns_ok (columns decision_matrix) types
              (columns_nonempty decision_matrix HM)
              ltac:(rewrite length_columns; lia)) as (cols' & -> & Hl2 & Hcol).
  cbn [mbind result_bind]. unfold np_dot.
  destruct (forallb _ _); [| discriminate]. intros [= <-].
  assert (Hjc : (j < ncols decision_matrix)%nat).
  { rewrite Hcols. apply lookup_lt_Some in Hj. exact Hj. }
  destruct (Hcol j COST (column j decision_matrix)) as (col' & Hcol' & Hnorm).
  { unfold types. rewrite list_lookup_fmap, Hj. simpl. rewrite Hc. reflexivity. }
  { apply lookup_columns, Hjc. }
  rewrite normalize_cost_column_of_zeros in Hnorm; [| | exact Hzero].
  2: { intros E. apply (f_equal length) in E. rewrite length_column in E.
       destruct decision_matrix; [congruence | discriminate]. }
  injection Hnorm as <-.
  apply Forall_forall. intros s Hs.
  apply list_elem_of_fmap in Hs as (row & -> & Hrow).
  unfold from_columns in Hrow. apply list_elem_of_fmap in Hrow as (i & -> & Hi).
  apply list_elem_of_In, in_seq in Hi.
  apply fold_fadd_nan.
  assert (Hw : exists w, weights !! j = Some w).
  { apply lookup_lt_is_Some. lia. }
  destruct Hw as [w Hw].
  apply (list_elem_of_lookup_2 _ j). rewrite lookup_zip_with, list_lookup_fmap, Hcol', Hw.
  simpl. rewrite (nth_indep _ zero NaN) by (rewrite length_map, length_column; lia).
  rewrite nth_map_const, fmul_nan_l. reflexivity.
Qed.

(** X24.  A cost criterion whose column is zero throughout spoils SAW:
    every score the engine returns is [nan], whatever the other entries
    and the weights (the matrix has at least one row and rows as long as
    the criteria). *)
Theorem saw_zero_cost_column_scores_nan (decision_matrix : list (list num))
    (criteria : list Criteria.t) (method : string) (j : nat) (c : Criteria.t) :
  decision_matrix <> [] ->
  Forall (fun row => length row = length criteria) decision_matrix ->
  String.eqb (Py.upper method) "SAW" = true ->
  criteria !! j = Some c -> Criteria.type c = COST ->
  Forall (fun v => feqb v zero = true) (column j decision_matrix) ->
  exists scores weights,
    MCDMEngine.evaluate_alternatives decision_matrix criteria method = Ok (scores, weights)
    /\ length scores = length decision_matrix
    /\ Forall (fun s => s = NaN) scores.
Proof. apply engine_saw_scores_nan. Qed.

End SawZeroCost.

(** X24 at the default criteria and two examiners without workload. *)
Lemma saw_zero_cost_column_scores_nan_witness :
  exists scores weights,
    MCDMEngine.evaluate_alternatives (H := Sample.sqrt_trunc_impl)
      [[Fin 1; Fin 5; Fin 4; Fin 0; Fin 10]; [Fin 0; Fin 4; Fin 3; Fin 0; Fin 8]]
      default_criteria "saw" = Ok (scores, weights)
    /\ length scores = 2%nat
    /\ Forall (fun s => s = NaN) scores.
Proof.
  apply (saw_zero_cost_column_scores_nan (H := Sample.sqrt_trunc_impl)
           [[Fin 1; Fin 5; Fin 4; Fin 0; Fin 10]; [Fin 0; Fin 4; Fin 3; Fin 0; Fin 8]]
           default_criteria "saw" 3
           (Criteria.mk 4 "workload" (Fin (15 # 100)) COST
              (Some "Beban kerja penguji saat ini"%string))).
  - discriminate.
  - repeat constructor.
  - reflexivity.
  - reflexivity.
  - reflexivity.
  - repeat constructor.
Defined.

(** ** The range of the committed scores *)

Lemma forallb_false_elem {A} (f : A -> bool) (l : list A) :
  forallb f l = false -> exists x, x ∈ l /\ f x = false.
Proof.
  induction l as [|x l IH]; simpl; [discriminate |].
  destruct (f x) eqn:Hx; simpl.
  - intros Hl. destruct (IH Hl) as (y & Hy & Hfy). exists y. split; [right; exact Hy | exact Hfy].
  - intros _. exists x. split; [left | exact Hx].
Qed.

Lemma unit_or_nan_split (l : list num) :
  Forall unit_or_nan l ->
  (exists qs, l = map Fin qs /\ Forall (fun q => 0 <= q <= 1)%Q qs) \/ NaN ∈ l.
Proof.
  induction 1 as [|x l Hx _ IH]; [left; exists []; split; constructor |].
  destruct Hx as [(q & -> & Hq) | ->]; [| right; left].
  destruct IH as [(qs & -> & Hqs) | Hnan]; [| right; right; exact Hnan].
  left. exists (q :: qs). split; [reflexivity | constructor; assumption].
Qed.

Lemma np_mean_unit_or_nan (l : list num) : Forall unit_or_nan l -> unit_or_nan (np_mean l).
Proof.
  intros Hl. destruct (unit_or_nan_split l Hl) as [(qs & -> & Hqs) | Hnan].
  - destruct qs as [|q qs]; [right; reflexivity |].
    destruct (np_mean_bounds (q :: qs) 0 1 ltac:(discriminate) Hqs) as (m & Hm & Hb).
    left. exists m. split; assumption.
  - right. unfold np_mean, np_sum. rewrite (fold_fadd_nan _ _ Hnan). reflexivity.
Qed.

Lemma combined_score_unit_or_nan (examiner_score room_score : num) :
  unit_or_nan examiner_score -> in_unit_interval room_score ->
  unit_or_nan (fadd (fmul examiner_score (Fin (7 # 10))) (fmul room_score (Fin (3 # 10)))).
Proof.
  intros [(a & -> & Ha) | ->] (b & -> & Hb); [| right; reflexivity].
  left. rewrite !fmul_fin, fadd_fin. eexists. split; [reflexivity |].
  rewrite !Qred_correct. split; nra.
Qed.

Lemma increment_workload_in_range (x : Z) (es : list Examiner.t) :
  Forall examiner_in_range es -> Forall examiner_in_range (increment_workload x es).
Proof.
  induction 1 as [|e es He Hes IH]; simpl; [constructor |].
  destruct (Examiner.id e =? x); constructor; try assumption.
  destruct He as (Hc & Ha & Hw & Hy). repeat split; simpl; try assumption. lia.
Qed.

Section ScoreRange.
Context `{NpSqrt}.

Lemma engine_scores_unit_or_nan (decision_matrix : list (list num))
    (criteria : list Criteria.t) (method : string) (scores : list num)
    (weights : gmap string num) :
  decision_matrix <> [] ->
  Forall (fun row => length row = length criteria) decision_matrix ->
  Forall (Forall fin_nonneg) decision_matrix ->
  criteria_in_range criteria ->
  MCDMEngine.evaluate_alternatives decision_matrix criteria method = Ok (scores, weights) ->
  Forall unit_or_nan scores.
Proof.
  intros HM Hrows Hfin [Hw Hex] Heval.
  pose proof (evaluate_alternatives_supported _ _ _ _ Heval) as Hsup.
  destruct (existsb (zero_cost_column decision_matrix criteria)
                    (seq 0 (length criteria))) eqn:Hzero.
  - apply existsb_exists in Hzero as (j & _ & Hj). unfold zero_cost_column in Hj.
    destruct (criteria !! j) as [c|] eqn:Hc; [| discriminate].
    destruct (Criteria.type c) eqn:Ht; [discriminate |].
    destruct (String.eqb (Py.upper method) "SAW") eqn:Hsaw.
    + destruct (engine_saw_scores_nan decision_matrix criteria method j c HM Hrows
                  Hsaw Hc Ht) as (scores' & weights' & Heq & _ & Hnan).
      { apply Forall_forall. intros v Hv. rewrite forallb_forall in Hj.
        apply Hj, list_elem_of_In, Hv. }
      rewrite Heval in Heq. injection Heq as <- <-.
      eapply Forall_impl; [exact Hnan |]. intros s ->. right. reflexivity.
    + destruct (engine_scores_in_unit decision_matrix criteria method HM Hrows Hfin
                  Hw Hex Hsup) as (scores' & weights' & Heq & _ & Hunit);
        [congruence |].
      rewrite Heval in Heq. injection Heq as <- <-.
      eapply Forall_impl; [exact Hunit |]. intros s Hs. left. exact Hs.
  - destruct (engine_scores_in_unit decision_matrix criteria method HM Hrows Hfin
                Hw Hex Hsup) as (scores' & weights' & Heq & _ & Hunit).
    + intros _ j c Hc Ht.
      assert (Hj : zero_cost_column decision_matrix criteria j = false).
      { apply not_true_iff_false. intros Hj. apply not_true_iff_false in Hzero.
        apply Hzero, existsb_exists. exists j. split; [| exact Hj].
        apply in_seq. apply lookup_lt_Some in Hc. lia. }
      unfold zero_cost_column in Hj. rewrite Hc, Ht in Hj.
      exact (forallb_false_elem _ _ Hj).
    + rewrite Heval in Heq. injection Heq as <- <-.
      eapply Forall_impl; [exact Hunit |]. intros s Hs. left. exact Hs.
Qed.

Lemma decision_row_fin_nonneg criteria examiner student timeslot_id evaluation :
  examiner_in_range examiner ->
  evaluate_examiner_for_student examiner student timeslot_id = Ok evaluation ->
  Forall fin_nonneg (decision_row criteria evaluation examiner).
Proof.
  intros (Hc & Ha & Hw & He) Hev.
  assert (Hm : fin_nonneg (ExaminerEvaluation.expertise_match evaluation)).
  { unfold evaluate_examiner_for_student in Hev.
    destruct (Py.int_truediv _ _) as [ratio|e]; cbn [mbind result_bind] in Hev;
      [| discriminate].
    unfold ExaminerEvaluation.make in Hev.
    destruct (_ && _) in Hev; [| discriminate]. injection Hev as <-. simpl.
    destruct (calculate_expertise_match_unit examiner student) as (q & -> & Hq & _).
    exists q. split; [reflexivity | exact Hq]. }
  assert (HZ : forall z, 0 <= z -> fin_nonneg (of_Z z)).
  { intros z Hz. exists (inject_Z z). split; [reflexivity |].
    change 0%Q with (inject_Z 0). rewrite <- Zle_Qle. exact Hz. }
  unfold decision_row. apply Forall_forall. intros x Hx.
  apply list_elem_of_fmap in Hx as (c & -> & _). cbv zeta.
  repeat (destruct (String.eqb _ _); [auto |]).
  exists (1 # 2)%Q. split; [reflexivity | discriminate].
Qed.

Lemma select_best_examiners_scores student examiners timeslot_id required_count
    criteria method selected :
  Forall examiner_in_range examiners -> criteria_in_range criteria ->
  select_best_examiners student examiners timeslot_id required_count (Some criteria)
    method = Ok selected ->
  Forall (fun p => unit_or_nan p.2) selected.
Proof.
  intros Hex Hcr. unfold select_best_examiners. cbn [default].
  set (available := List.filter _ examiners).
  destruct (Z.of_nat (length available) <? required_count);
    [intros [= <-]; constructor |].
  destruct (List.find _ available) as [supervisor|]; [| intros [= <-]; constructor].
  set (regular := List.filter _ available).
  destruct (mapM_result _ regular) as [decision_matrix|e] eqn:Hrows; simpl;
    [| discriminate].
  destruct decision_matrix as [|row rows] eqn:HM; [intros [= <-]; constructor |].
  rewrite <- HM in *.
  destruct (MCDMEngine.evaluate_alternatives _ _ _) as [[scores weights]|e] eqn:Heval;
    simpl; [| discriminate].
  destruct (evaluate_examiner_for_student supervisor _ _); simpl; [| discriminate].
  intros [= <-].
  assert (Hshape : Forall (fun r => length r = length criteria /\ Forall fin_nonneg r)
                          decision_matrix).
  { eapply mapM_result_Forall; [| exact Hrows]. intros x y Hx Hy. cbn beta in Hy.
    destruct (evaluate_examiner_for_student x student timeslot_id) as [ev|] eqn:Hev;
      simpl in Hy; [| discriminate].
    injection Hy as <-. split; [unfold decision_row; apply length_map |].
    apply (decision_row_fin_nonneg _ _ _ _ _) with (2 := Hev).
    rewrite Forall_forall in Hex. apply Hex.
    apply list_elem_of_In, filter_In in Hx as [Hx _].
    apply filter_In in Hx as [Hx _]. apply list_elem_of_In, Hx. }
  assert (Hscores : Forall unit_or_nan scores).
  { apply (engine_scores_unit_or_nan decision_matrix criteria method scores weights);
      [rewrite HM; discriminate | | | exact Hcr | exact Heval].
    - eapply Forall_impl; [exact Hshape |]. intros r [Hr _]. exact Hr.
    - eapply Forall_impl; [exact Hshape |]. intros r [_ Hr]. exact Hr. }
  constructor.
  - left. exists (9 # 10)%Q. split; [reflexivity |]. split; discriminate.
  - apply (Forall_sublist _ _ (Py.sorted_desc snd (zip regular scores)));
      [apply slice_to_sublist |].
    rewrite sorted_desc_perm. apply Forall_forall. intros [e s] Hes.
    apply elem_of_zip_r in Hes. rewrite Forall_forall in Hscores. apply Hscores, Hes.
Qed.

Lemma try_room_score_unit schedule session student timeslot selected best room best' :
  Forall (fun p => unit_or_nan p.2) selected -> room_in_range room ->
  (forall r, best.1 = Some r -> in_unit_interval (ScheduleResult.total_score r)) ->
  try_room schedule session student timeslot selected best room = Ok best' ->
  forall r, best'.1 = Some r -> in_unit_interval (ScheduleResult.total_score r).
Proof.
  intros Hsel (Hcap & quality & Hq & Hrange) Hbest. unfold try_room.
  destruct (evaluate_room_suitability room student) as [room_score|e] eqn:Hroom;
    cbn [mbind result_bind]; [| discriminate].
  cbv zeta.
  destruct (check_scheduling_constraints _ _); [| intros [= <-]; exact Hbest].
  destruct (fgtb _ _) eqn:Hgt; intros [= <-]; [| exact Hbest].
  intros r [= <-]. cbn [ScheduleResult.total_score].
  destruct (combined_score_unit_or_nan (np_mean (map snd selected)) room_score)
    as [Hunit | Hnan].
  - apply np_mean_unit_or_nan, Forall_fmap. exact Hsel.
  - apply (evaluate_room_suitability_unit room student quality _ Hcap Hq Hrange Hroom).
  - exact Hunit.
  - rewrite Hnan, fgtb_nan_l in Hgt. discriminate Hgt.
Qed.

Lemma process_session_score_unit student_lookup rooms timeslots criteria method st
    session st' :
  Forall examiner_in_range (ExamSchedulingDSS.examiners st) ->
  Forall room_in_range rooms -> criteria_in_range criteria ->
  process_session student_lookup rooms timeslots criteria method st session = Ok st' ->
  st' = record_infeasible st session
  \/ exists r score, st' = commit st r score
                     /\ in_unit_interval (ScheduleResult.total_score r).
Proof.
  intros Hex Hrooms Hcr. unfold process_session.
  destruct (student_lookup !! _) as [student|]; [| intros [= <-]; left; reflexivity].
  destruct (foldM _ _ _) as [best|e] eqn:Hfold; simpl; [| discriminate].
  set (Q := fun b : best_t => forall r, b.1 = Some r ->
                in_unit_interval (ScheduleResult.total_score r)).
  assert (Hbest : Q best).
  { apply (foldM_invariant Q _ _ _ _) in Hfold.
    - exact Hfold.
    - intros b t b' _ Hb. unfold try_timeslot.
      destruct (select_best_examiners _ _ _ _ _ _) as [selected|e] eqn:Hsel; simpl;
        [| discriminate].
      apply (select_best_examiners_scores _ _ _ _ _ _ _ Hex Hcr) in Hsel.
      destruct (_ <? _); [intros [= <-]; exact Hb |].
      intros Hrooms_fold.
      apply (foldM_invariant Q _ _ _ _) in Hrooms_fold;
        [exact Hrooms_fold | | exact Hb].
      intros b0 room b1 Hroom Hb0 Htry. unfold Q.
      apply (try_room_score_unit _ _ _ _ _ _ _ _ Hsel) with (3 := Htry);
        [| exact Hb0].
      rewrite Forall_forall in Hrooms. apply Hrooms, Hroom.
    - intros r Hr. discriminate Hr. }
  destruct best as [[r|] score]; simpl; intros [= <-]; [| left; reflexivity].
  right. exists r, score. split; [reflexivity | apply Hbest; reflexivity].
Qed.

(** X25.  The scores stay in [0, 1].  If the examiners and the rooms are
    within the ranges of the data model (competency and availability
    scores finite and not negative, workload and experience not negative;
    capacity not negative, quality between 0 and 5) and the criteria
    weights are finite, not negative and not all zero, then the score of
    every assignment of a returned solution and its total satisfaction
    are finite numbers of [0, 1], under SAW and under TOPSIS. *)
Theorem committed_scores_in_unit_interval (students : list Student.t)
    (examiners : list Examiner.t) (rooms : list Room.t) (timeslots : list TimeSlot.t)
    (exam_sessions : list ExamSession.t) (criteria : option (list Criteria.t))
    (method : string) (solution : DSSSolution.t) (st : run_state) :
  Forall examiner_in_range examiners -> Forall room_in_range rooms ->
  criteria_in_range (default default_criteria criteria) ->
  generate_schedule students examiners rooms timeslots exam_sessions criteria method
  = (Ok solution, st) ->
  Forall (fun a => in_unit_interval (ScheduleResult.total_score a))
         (DSSSolution.schedule solution)
  /\ in_unit_interval (DSSSolution.total_satisfaction solution).
Proof.
  intros Hex Hrooms Hcr Hgen.
  assert (Hinv : Forall examiner_in_range (ExamSchedulingDSS.examiners st)
                 /\ Forall (fun a => in_unit_interval (ScheduleResult.total_score a))
                           (schedule st)).
  { apply (generate_schedule_invariant students examiners rooms timeslots exam_sessions
             criteria method
             (fun s => Forall examiner_in_range (ExamSchedulingDSS.examiners s)
                       /\ Forall (fun a => in_unit_interval (ScheduleResult.total_score a))
                                 (schedule s))
             (Ok solution) st); [split; [exact Hex | constructor] | | exact Hgen].
    intros s session s' _ [Hs1 Hs2] Hstep.
    apply (process_session_score_unit _ _ _ _ _ _ _ _ Hs1 Hrooms Hcr) in Hstep
      as [-> | (r & score & -> & Hr)]; [split; assumption |].
    split.
    - simpl. unfold update_workloads. apply fold_left_invariant; [| exact Hs1].
      intros es x _. apply increment_workload_in_range.
    - simpl. apply Forall_app. split; [exact Hs2 |]. constructor; [exact Hr | constructor]. }
  destruct (generate_schedule_run _ _ _ _ _ _ _ _ _ Hgen) as (raised & _ & _ & _ & _ & Hok).
  destruct (Hok solution eq_refl) as (_ & _ & Hsched & _).
  rewrite Hsched. split; [exact (proj2 Hinv) |].
  rewrite (solution_total_satisfaction _ _ _ _ _ _ _ _ _ Hgen), Hsched.
  destruct Hinv as [_ Hall].
  destruct (schedule st) as [|a l]; [exists 0%Q; split; [reflexivity | split; discriminate] |].
  set (scores := map ScheduleResult.total_score (a :: l)).
  assert (Hscores : Forall unit_or_nan scores).
  { apply Forall_fmap. eapply Forall_impl; [exact Hall |]. intros x Hx. left. exact Hx. }
  change (match scores with [] => Fin 0 | _ :: _ => np_mean scores end) with (np_mean scores).
  assert (Hfin : Forall in_unit_interval scores) by (apply Forall_fmap; exact Hall).
  destruct (unit_or_nan_split scores Hscores) as [(qs & Hqs & Hq) | Hnan].
  - rewrite Hqs. destruct qs as [|q qs]; [discriminate Hqs |].
    destruct (np_mean_bounds (q :: qs) 0 1 ltac:(discriminate) Hq) as (m & -> & Hb).
    exists m. split; [reflexivity | exact Hb].
  - rewrite Forall_forall in Hfin. destruct (Hfin NaN Hnan) as (q & Hq & _).
    discriminate Hq.
Qed.

End ScoreRange.

(** X25 at the data of [test_method_comparison], under SAW. *)
Lemma committed_scores_in_unit_interval_witness :
  exists solution st,
    Sample.run_sample 0 1 2 [Sample.session1] "SAW" = (Ok solution, st)
    /\ DSSSolution.schedule solution <> []
    /\ Forall (fun a => in_unit_interval (ScheduleResult.total_score a))
              (DSSSolution.schedule solution)
    /\ in_unit_interval (DSSSolution.total_satisfaction solution).
Proof.
  destruct (Sample.run_sample 0 1 2 [Sample.session1] "SAW")
    as [[solution|e] st] eqn:E; [| vm_compute in E; discriminate E].
  exists solution, st. split; [reflexivity |].
  split; [vm_compute in E; injection E as <- _; discriminate |].
  apply (committed_scores_in_unit_interval (H := Sample.sqrt_trunc_impl)
           [Sample.student1] (Sample.examiners_with 0 1 2) [Sample.room1] [Sample.slot1]
           [Sample.session1] None "SAW" solution st).
  - repeat (constructor;
            [repeat split; simpl; try lia; eexists; (split; [reflexivity | discriminate]) |]).
    constructor.
  - constructor; [| constructor]. split; [simpl; lia |].
    exists 4%Q. split; [reflexivity | split; discriminate].
  - split.
    + repeat (constructor; [eexists; split; [reflexivity | discriminate] |]). constructor.
    + left. reflexivity.
  - exact E.
Defined.

(** ** The consistency threshold of the AHP deriver *)

(** X26.  From size 3 on, a finite principal eigenvalue passes the
    consistency check exactly when it is at most the size plus a
    tenth of the random index times the size minus one; the random index
    is the table's value for sizes up to 10 and 1.49 beyond. *)
Theorem ahp_consistency_threshold (n : nat) (max_eigenvalue : Q) :
  (3 <= n)%nat ->
  exists ri,
    default (Fin (149 # 100)) (AHPMethod.random_index !! Z.of_nat n) = Fin ri
    /\ (0 < ri)%Q
    /\ (AHPMethod.is_consistent (AHPMethod.consistency_ratio (Fin max_eigenvalue) n) = true
        <-> (max_eigenvalue
             <= inject_Z (Z.of_nat n)
                + ri * (inject_Z (Z.of_nat n) - 1) * (1 # 10))%Q).
Proof.
  intros Hn. destruct (random_index_positive n Hn) as (ri & Hri & Hpos).
  exists ri. split; [exact Hri |]. split; [exact Hpos |].
  unfold AHPMethod.consistency_ratio, AHPMethod.is_consistent,
    AHPMethod.consistency_ratio_threshold. rewrite Hri.
  unfold of_nat, of_Z. rewrite fsub_fin.
  set (N := inject_Z (Z.of_nat n)).
  assert (Hd : (0 < inject_Z (Z.of_nat n - 1))%Q).
  { change 0%Q with (inject_Z 0). rewrite <- Zlt_Qlt. lia. }
  assert (HdN : (inject_Z (Z.of_nat n - 1) == N - 1)%Q).
  { unfold N, Z.sub. rewrite inject_Z_plus. reflexivity. }
  rewrite fdiv_fin by lra. rewrite fdiv_fin by lra. rewrite fleb_fin.
  rewrite !Qred_correct.
  set (d := inject_Z (Z.of_nat n - 1)) in *.
  set (x := (max_eigenvalue + - N)%Q).
  assert (Hy : (x / d / ri * (d * ri) == x)%Q) by (field; split; lra).
  assert (Hdr : (0 < d * ri)%Q) by nra.
  rewrite <- HdN.
  split; intros Hle.
  - assert (x <= (1 # 10) * (d * ri))%Q by (rewrite <- Hy; nra). unfold x in *. lra.
  - assert (Hx : (x <= (1 # 10) * (d * ri))%Q) by (unfold x; lra).
    rewrite <- Hy in Hx.
    destruct (Qlt_le_dec (1 # 10) (x / d / ri)) as [Hgt | Hok]; [| exact Hok].
    exfalso. nra.
Qed.

(** X26 at size 3. *)
Lemma ahp_consistency_threshold_witness :
  exists ri,
    default (Fin (149 # 100)) (AHPMethod.random_index !! 3) = Fin ri
    /\ (0 < ri)%Q
    /\ (AHPMethod.is_consistent (AHPMethod.consistency_ratio (Fin (31 # 10)) 3) = true
        <-> (31 # 10 <= inject_Z 3 + ri * (inject_Z 3 - 1) * (1 # 10))%Q).
Proof.
  apply (ahp_consistency_threshold 3 (31 # 10)). lia.
Defined.
